(** * paykit-mobile/ios-demo/add_test_target.py

    A shallow embedding of the script that adds the PaykitDemoTests target
    to an Xcode project file, and the properties of it that the
    specification states.

    - Python [str] values are [list ascii]: the patterns and the inserted
      blocks are ASCII text, and so is a project file. The text of a file
      is what [f.read()] returns and [f.write()] takes, behind Python's
      decoding and newline translation.
    - [re.search] is a small backtracking matcher for the constructs the
      script's patterns use: literal text and a greedy [[^c]+]. It is
      proved sound and complete for a declarative notion of match.
    - The file system, standard output and the operating system's entropy
      are fields of an explicit [world]; the script runs in a state and
      exception monad over it. Opening a file that is not there raises;
      other failures of the operating system are not modelled. *)

From Stdlib Require Import NArith ZArith Ascii String List HexadecimalString Lia.
From Stdlib Require HexadecimalFacts HexadecimalPos HexadecimalN.
From stdpp Require Import gmap strings list.

Open Scope list_scope.

(** ** Text *)

Abbreviation text := (list ascii).

Definition lit (s : string) : text := list_ascii_of_string s.

Definition tab : ascii := "009"%char.
Definition nl : ascii := "010"%char.
Definition dq : ascii := "034"%char.

(** [ln n s] is the source line [s] behind [n] tab characters, with its
    line feed. *)
Definition ln (n : nat) (s : text) : text := repeat tab n ++ s ++ [nl].

(** [quoted s] is [s] between double quotes. *)
Definition quoted (s : string) : text := [dq] ++ lit s ++ [dq].

(** ** Python's [str.upper] and ['%032x' % n] (on the text they meet here) *)

Definition is_lower (c : ascii) : bool :=
  (97 <=? nat_of_ascii c)%nat && (nat_of_ascii c <=? 122)%nat.

Definition upper_char (c : ascii) : ascii :=
  if is_lower c then ascii_of_nat (nat_of_ascii c - 32) else c.

Definition upper (s : text) : text := map upper_char s.

(** ['%x' % n]: the hexadecimal digits of [n], lower case, no leading zero. *)
Definition hex_of_N (n : N) : text :=
  lit (NilZero.string_of_uint (N.to_hex_uint n)).

(** ['%032x' % n]: padded with zeros on the left to 32 characters at least. *)
Definition format_032x (n : N) : text :=
  let digits := hex_of_N n in
  repeat "0"%char (32 - length digits) ++ digits.

(** ** The world the script runs in *)

Inductive exn : Type :=
  | FileNotFoundError (path : string)
  | SystemExit (code : Z).

Inductive result (A : Type) : Type :=
  | Ret (a : A)
  | Raise (e : exn).
Arguments Ret {A} a.
Arguments Raise {A} e.

(** [fs] maps a path to the text Python reads from it; [stdout] holds the
    printed lines, oldest first; [entropy k] is the [k]-th block of 16
    bytes [os.urandom] hands out, as a big-endian number, and [draws]
    counts the blocks already handed out. *)
Record world : Type := World {
  fs : gmap string text;
  stdout : list text;
  entropy : nat -> N;
  draws : nat
}.

Definition M (A : Type) : Type := world -> result A * world.

Definition ret {A} (a : A) : M A := fun w => (Ret a, w).

Definition raise {A} (e : exn) : M A := fun w => (Raise e, w).

Definition bind {A B} (m : M A) (k : A -> M B) : M B :=
  fun w =>
    match m w with
    | (Ret a, w') => k a w'
    | (Raise e, w') => (Raise e, w')
    end.

Notation "'do' x <- m ; k" := (bind m (fun x => k))
  (at level 10, x name, m at level 100, k at level 200, only parsing).

(** [with open(path, 'r') as f: f.read()]. A path that is not in [fs] is a
    file that does not exist. A path that is there and cannot be read as
    text (a directory, a file without permission, bytes that do not
    decode) is not in the model. *)
Definition read_file (path : string) : M text :=
  fun w =>
    match fs w !! path with
    | Some content => (Ret content, w)
    | None => (Raise (FileNotFoundError path), w)
    end.

(** [with open(path, 'w') as f: f.write(content)] *)
Definition write_file (path : string) (content : text) : M unit :=
  fun w =>
    (Ret tt, {| fs := <[path := content]> (fs w); stdout := stdout w;
                entropy := entropy w; draws := draws w |}).

(** [print(line)] *)
Definition print (line : text) : M unit :=
  fun w =>
    (Ret tt, {| fs := fs w; stdout := stdout w ++ [line];
                entropy := entropy w; draws := draws w |}).

(** [int.from_bytes(os.urandom(16))]: the next 128 bits of entropy. *)
Definition urandom16 : M N :=
  fun w =>
    (Ret (entropy w (draws w) mod 2 ^ 128)%N,
     {| fs := fs w; stdout := stdout w;
        entropy := entropy w; draws := S (draws w) |}).

(** [sys.exit(code)] *)
Definition sys_exit {A} (code : Z) : M A := raise (SystemExit code).

(** ** Python's [uuid.uuid4().hex]

    The standard library builds the UUID from 16 random bytes, sets the
    variant to RFC 4122 and the version to 4, and renders the 128-bit
    number as ['%032x']. *)
Definition uuid4_int (r : N) : N :=
  let int := r in
  let int := N.ldiff int (N.shiftl 0xc000 48) in
  let int := N.lor int (N.shiftl 0x8000 48) in
  let int := N.ldiff int (N.shiftl 0xf000 64) in
  let int := N.lor int (N.shiftl 4 76) in
  int.

Definition uuid4_hex : M text :=
  do r <- urandom16;
  ret (format_032x (uuid4_int r)).

(** ** [generate_id] *)

Definition generate_id : M text :=
  do h <- uuid4_hex;
  ret (upper (take 24 h)).

(** ** Python's [re.search], for the patterns of this script

    Every pattern of the script is a sequence of literal pieces and of
    [[^c]+]; its capturing parentheses enclose the whole pattern and do not
    change where the match starts and ends. *)

Inductive item : Type :=
  | Lit (p : text)
  | PlusNot (c : ascii).

Abbreviation regex := (list item).

Fixpoint starts_with (p s : text) : bool :=
  match p, s with
  | [], _ => true
  | _ :: _, [] => false
  | a :: p', b :: s' => Ascii.eqb a b && starts_with p' s'
  end.

(** The length of the longest prefix of [s] that has no [c]. *)
Fixpoint span_not (c : ascii) (s : text) : nat :=
  match s with
  | [] => 0
  | x :: s' => if Ascii.eqb x c then 0 else S (span_not c s')
  end.

(** A greedy repetition took [n] characters of [s]; [k] matches what
    follows. On failure the repetition gives one character back, down to
    one character. *)
Fixpoint backtrack (k : text -> option nat) (s : text) (n : nat) : option nat :=
  match n with
  | 0 => None
  | S n' =>
      match k (drop n s) with
      | Some m => Some (n + m)
      | None => backtrack k s n'
      end
  end.

(** [match_here r s] matches [r] at the start of [s] and returns the length
    of the match. *)
Fixpoint match_here (r : regex) (s : text) : option nat :=
  match r with
  | [] => Some 0
  | Lit p :: r' =>
      if starts_with p s
      then match match_here r' (drop (length p) s) with
           | Some m => Some (length p + m)
           | None => None
           end
      else None
  | PlusNot c :: r' => backtrack (match_here r') s (span_not c s)
  end.

(** The leftmost position of [s], counted from [start], where [r] matches. *)
Fixpoint search_from (r : regex) (s : text) (start : nat) : option (nat * nat) :=
  match match_here r s with
  | Some m => Some (start, start + m)
  | None =>
      match s with
      | [] => None
      | _ :: s' => search_from r s' (S start)
      end
  end.

(** [re.search(r, s)]: the match object's [(start(), end())], or [None]. *)
Definition re_search (r : regex) (s : text) : option (nat * nat) :=
  search_from r s 0.

(** [content[:pos] + new + content[pos:]] *)
Definition insert_at (pos : nat) (new content : text) : text :=
  take pos content ++ new ++ drop pos content.

(** ** The patterns *)

Definition main_target_pat : regex :=
  [Lit (lit "5224F5F42EED89A600A4DEB4 /* PaykitDemo */")].
Definition file_ref_section_pat : regex :=
  [Lit (lit "/* Begin PBXFileReference section */")].
Definition group_section_pat : regex :=
  [Lit (lit "/* Begin PBXGroup section */")].
Definition main_group_pat : regex :=
  [Lit (lit "5224F5EC2EED89A600A4DEB4 = {"); PlusNot "}"; Lit (lit "children = (")].
Definition group_end_pat : regex :=
  [Lit (lit "/* End PBXGroup section */")].
Definition products_group_pat : regex :=
  [Lit (lit "5224F5F62EED89A600A4DEB4 /* Products */ = {"); PlusNot "}";
   Lit (lit "children = (")].
Definition sources_phase_end_pat : regex :=
  [Lit (lit "/* End PBXSourcesBuildPhase section */")].
Definition frameworks_phase_end_pat : regex :=
  [Lit (lit "/* End PBXFrameworksBuildPhase section */")].
Definition native_target_end_pat : regex :=
  [Lit (lit "/* End PBXNativeTarget section */")].
Definition targets_pat : regex :=
  [Lit (lit "targets = (")].
Definition config_list_end_pat : regex :=
  [Lit (lit "/* End XCConfigurationList section */")].
Definition target_attrs_pat : regex :=
  [Lit (lit "TargetAttributes = {")].

(** ** The inserted blocks (the script's f-strings) *)

Definition test_file_ref (test_product_id : text) : text :=
  ln 2 (test_product_id ++ lit " /* PaykitDemoTests.xctest */ = {isa = PBXFileReference; explicitFileType = wrapper.cfbundle; includeInIndex = 0; path = PaykitDemoTests.xctest; sourceTree = BUILT_PRODUCTS_DIR; };").

Definition test_group_ref (test_group_id : text) : text :=
  ln 4 (test_group_id ++ lit " /* PaykitDemoTests */,").

Definition test_group_def (test_group_id : text) : text :=
  ln 2 (test_group_id ++ lit " /* PaykitDemoTests */ = {") ++
  ln 3 (lit "isa = PBXGroup;") ++
  ln 3 (lit "children = (") ++
  ln 3 (lit ");") ++
  ln 3 (lit "path = PaykitDemoTests;") ++
  ln 3 (lit "sourceTree = " ++ quoted "<group>" ++ lit ";") ++
  ln 2 (lit "};").

Definition test_product_ref (test_product_id : text) : text :=
  ln 4 (test_product_id ++ lit " /* PaykitDemoTests.xctest */,").

Definition test_sources_phase (test_sources_phase_id : text) : text :=
  ln 2 (test_sources_phase_id ++ lit " /* Sources */ = {") ++
  ln 3 (lit "isa = PBXSourcesBuildPhase;") ++
  ln 3 (lit "buildActionMask = 2147483647;") ++
  ln 3 (lit "files = (") ++
  ln 3 (lit ");") ++
  ln 3 (lit "runOnlyForDeploymentPostprocessing = 0;") ++
  ln 2 (lit "};").

Definition test_frameworks_phase (test_frameworks_phase_id : text) : text :=
  ln 2 (test_frameworks_phase_id ++ lit " /* Frameworks */ = {") ++
  ln 3 (lit "isa = PBXFrameworksBuildPhase;") ++
  ln 3 (lit "buildActionMask = 2147483647;") ++
  ln 3 (lit "files = (") ++
  ln 3 (lit ");") ++
  ln 3 (lit "runOnlyForDeploymentPostprocessing = 0;") ++
  ln 2 (lit "};").

(** [dependency_id] is the value of the [generate_id()] call inside the
    f-string. *)
Definition test_target
    (test_target_id test_build_config_list_id test_sources_phase_id
     test_frameworks_phase_id dependency_id test_product_id : text) : text :=
  ln 2 (test_target_id ++ lit " /* PaykitDemoTests */ = {") ++
  ln 3 (lit "isa = PBXNativeTarget;") ++
  ln 3 (lit "buildConfigurationList = " ++ test_build_config_list_id ++
        lit " /* Build configuration list for PBXNativeTarget " ++
        quoted "PaykitDemoTests" ++ lit " */;") ++
  ln 3 (lit "buildPhases = (") ++
  ln 4 (test_sources_phase_id ++ lit " /* Sources */,") ++
  ln 4 (test_frameworks_phase_id ++ lit " /* Frameworks */,") ++
  ln 3 (lit ");") ++
  ln 3 (lit "buildRules = (") ++
  ln 3 (lit ");") ++
  ln 3 (lit "dependencies = (") ++
  ln 4 (dependency_id ++ lit " /* PBXTargetDependency */,") ++
  ln 3 (lit ");") ++
  ln 3 (lit "name = PaykitDemoTests;") ++
  ln 3 (lit "packageProductDependencies = (") ++
  ln 3 (lit ");") ++
  ln 3 (lit "productName = PaykitDemoTests;") ++
  ln 3 (lit "productReference = " ++ test_product_id ++
        lit " /* PaykitDemoTests.xctest */;") ++
  ln 3 (lit "productType = " ++
        quoted "com.apple.product-type.bundle.unit-test" ++ lit ";") ++
  ln 2 (lit "};").

Definition test_target_ref (test_target_id : text) : text :=
  ln 4 (test_target_id ++ lit " /* PaykitDemoTests */,").

(** The build settings both configurations start with. *)
Definition build_settings_head : text :=
  ln 3 (lit "isa = XCBuildConfiguration;") ++
  ln 3 (lit "buildSettings = {") ++
  ln 4 (lit "BUNDLE_LOADER = " ++ quoted "$(TEST_HOST)" ++ lit ";") ++
  ln 4 (lit "CODE_SIGN_STYLE = Automatic;") ++
  ln 4 (lit "CURRENT_PROJECT_VERSION = 1;") ++
  ln 4 (lit "GENERATE_INFOPLIST_FILE = YES;") ++
  ln 4 (lit "INFOPLIST_KEY_UIApplicationSupportsIndirectInputEvents = YES;") ++
  ln 4 (lit "IPHONEOS_DEPLOYMENT_TARGET = 16.6;") ++
  ln 4 (lit "LD_RUNPATH_SEARCH_PATHS = (") ++
  ln 5 (quoted "$(inherited)" ++ lit ",") ++
  ln 5 (quoted "@executable_path/Frameworks" ++ lit ",").

(** The build settings both configurations end with. *)
Definition build_settings_tail : text :=
  ln 4 (lit "MARKETING_VERSION = 1.0;") ++
  ln 4 (lit "PRODUCT_BUNDLE_IDENTIFIER = synonym.PaykitDemoTests;") ++
  ln 4 (lit "PRODUCT_NAME = " ++ quoted "$(TARGET_NAME)" ++ lit ";") ++
  ln 4 (lit "SWIFT_EMIT_LOC_STRINGS = NO;") ++
  ln 4 (lit "SWIFT_VERSION = 5.0;") ++
  ln 4 (lit "TEST_HOST = " ++
        quoted "$(BUILT_PRODUCTS_DIR)/PaykitDemo.app/$(BUNDLE_EXECUTABLE_FOLDER_PATH)/PaykitDemo" ++
        lit ";") ++
  ln 3 (lit "};").

(** The one f-string the script names [test_debug_config]: the Debug
    configuration, the Release configuration (whose last search path and
    closing parenthesis are indented one tab less in the source) and the
    configuration list. *)
Definition test_debug_config
    (test_debug_config_id test_release_config_id
     test_build_config_list_id : text) : text :=
  ln 2 (test_debug_config_id ++ lit " /* Debug */ = {") ++
  build_settings_head ++
  ln 5 (quoted "@loader_path/Frameworks" ++ lit ",") ++
  ln 4 (lit ");") ++
  build_settings_tail ++
  ln 3 (lit "name = Debug;") ++
  ln 2 (lit "};") ++
  ln 2 (test_release_config_id ++ lit " /* Release */ = {") ++
  build_settings_head ++
  ln 4 (quoted "@loader_path/Frameworks" ++ lit ",") ++
  ln 3 (lit ");") ++
  build_settings_tail ++
  ln 3 (lit "name = Release;") ++
  ln 2 (lit "};") ++
  ln 2 (test_build_config_list_id ++
        lit " /* Build configuration list for PBXNativeTarget " ++
        quoted "PaykitDemoTests" ++ lit " */ = {") ++
  ln 3 (lit "isa = XCConfigurationList;") ++
  ln 3 (lit "buildConfigurations = (") ++
  ln 4 (test_debug_config_id ++ lit " /* Debug */,") ++
  ln 4 (test_release_config_id ++ lit " /* Release */,") ++
  ln 3 (lit ");") ++
  ln 3 (lit "defaultConfigurationIsVisible = 0;") ++
  ln 3 (lit "defaultConfigurationName = Release;") ++
  ln 2 (lit "};").

Definition test_target_attrs (test_target_id : text) : text :=
  ln 4 (test_target_id ++ lit " = {") ++
  ln 5 (lit "CreatedOnToolsVersion = 26.1.1;") ++
  ln 5 (lit "TestTargetID = 5224F5F42EED89A600A4DEB4;") ++
  ln 4 (lit "};").

(** ** [add_test_target], edit by edit *)

(** An edit that puts [new] behind the match of [r]. *)
Definition insert_after (r : regex) (new content : text) : text :=
  match re_search r content with
  | Some (_, e) => insert_at e new content
  | None => content
  end.

(** An edit that puts [new] in front of the match of [r]. *)
Definition insert_before (r : regex) (new content : text) : text :=
  match re_search r content with
  | Some (s, _) => insert_at s new content
  | None => content
  end.

(** Add test target file reference *)
Definition add_file_ref (test_product_id content : text) : text :=
  insert_after file_ref_section_pat (test_file_ref test_product_id) content.

(** Add test group: both edits sit under the test for the section's
    begin marker. *)
Definition add_group (test_group_id content : text) : text :=
  match re_search group_section_pat content with
  | Some _ =>
      let content :=
        insert_after main_group_pat (test_group_ref test_group_id) content in
      insert_before group_end_pat (test_group_def test_group_id) content
  | None => content
  end.

(** Add test target to Products group *)
Definition add_product_ref (test_product_id content : text) : text :=
  insert_after products_group_pat (test_product_ref test_product_id) content.

(** Add build phases for test target *)
Definition add_sources_phase (test_sources_phase_id content : text) : text :=
  insert_before sources_phase_end_pat
    (test_sources_phase test_sources_phase_id) content.

Definition add_frameworks_phase
    (test_frameworks_phase_id content : text) : text :=
  insert_before frameworks_phase_end_pat
    (test_frameworks_phase test_frameworks_phase_id) content.

(** Add test target: the f-string calls [generate_id] once more, and only
    when the marker was found. *)
Definition add_native_target
    (test_target_id test_build_config_list_id test_sources_phase_id
     test_frameworks_phase_id test_product_id content : text) : M text :=
  match re_search native_target_end_pat content with
  | Some (s, _) =>
      do dependency_id <- generate_id;
      ret (insert_at s
             (test_target test_target_id test_build_config_list_id
                test_sources_phase_id test_frameworks_phase_id
                dependency_id test_product_id)
             content)
  | None => ret content
  end.

(** Add test target to project targets list *)
Definition add_target_ref (test_target_id content : text) : text :=
  insert_after targets_pat (test_target_ref test_target_id) content.

(** Add build configurations for test target *)
Definition add_build_configs
    (test_debug_config_id test_release_config_id test_build_config_list_id
     content : text) : text :=
  insert_before config_list_end_pat
    (test_debug_config test_debug_config_id test_release_config_id
       test_build_config_list_id)
    content.

(** Update target attributes *)
Definition add_target_attrs (test_target_id content : text) : text :=
  insert_after target_attrs_pat (test_target_attrs test_target_id) content.

Definition add_test_target (project_path : string) : M bool :=
  do content <- read_file project_path;
  do test_target_id <- generate_id;
  do test_product_id <- generate_id;
  do test_sources_phase_id <- generate_id;
  do test_frameworks_phase_id <- generate_id;
  do test_build_config_list_id <- generate_id;
  do test_debug_config_id <- generate_id;
  do test_release_config_id <- generate_id;
  do test_group_id <- generate_id;
  match re_search main_target_pat content with
  | None =>
      do _ <- print (lit "Error: Could not find main target");
      ret false
  | Some _ =>
      let content := add_file_ref test_product_id content in
      let content := add_group test_group_id content in
      let content := add_product_ref test_product_id content in
      let content := add_sources_phase test_sources_phase_id content in
      let content := add_frameworks_phase test_frameworks_phase_id content in
      do content <-
        add_native_target test_target_id test_build_config_list_id
          test_sources_phase_id test_frameworks_phase_id test_product_id
          content;
      let content := add_target_ref test_target_id content in
      let content :=
        add_build_configs test_debug_config_id test_release_config_id
          test_build_config_list_id content in
      let content := add_target_attrs test_target_id content in
      do _ <- write_file project_path content;
      do _ <- print (lit "Added PaykitDemoTests target to project");
      do _ <- print (lit "Test target ID: " ++ test_target_id);
      ret true
  end.

(** ** The script's [__main__] block *)

Definition project_path : string := "PaykitDemo.xcodeproj/project.pbxproj".

Definition main : M unit :=
  do ok <- add_test_target project_path;
  if ok
  then do _ <- print (lit "Successfully added test target"); sys_exit 0%Z
  else do _ <- print (lit "Failed to add test target"); sys_exit 1%Z.

(** The interpreter's exit status: the code of [SystemExit], 1 for any
    other exception that reaches the top, 0 when the script runs off its
    end. *)
Definition exit_status {A} (r : result A) : Z :=
  match r with
  | Ret _ => 0
  | Raise (SystemExit code) => code
  | Raise _ => 1
  end.

(** * Properties *)

(** ** Occurrences and matches, stated without the matcher *)

(** [p] occurs in [s]. *)
Definition occurs (p s : text) : Prop :=
  ∃ pre post, s = pre ++ p ++ post.

(** [s] is [pre ++ p ++ post], and [p] occurs nowhere further left. *)
Definition first_occurrence (p pre post s : text) : Prop :=
  s = pre ++ p ++ post ∧
  ∀ pre' post', s = pre' ++ p ++ post' → length pre ≤ length pre'.

(** The texts a pattern matches. *)
Inductive matches : regex → text → Prop :=
  | matches_nil : matches [] []
  | matches_lit p r s :
      matches r s → matches (Lit p :: r) (p ++ s)
  | matches_plus c r x s :
      x ≠ [] → Forall (λ a, a ≠ c) x → matches r s →
      matches (PlusNot c :: r) (x ++ s).

(** Some piece of [s] matches [r]. *)
Definition has_match (r : regex) (s : text) : Prop :=
  ∃ pre m post, s = pre ++ m ++ post ∧ matches r m.

(** ** The matcher is sound and complete *)

Lemma starts_with_spec (p s : text) :
  starts_with p s = true ↔ ∃ t, s = p ++ t.
Proof.
  revert s. induction p as [|a p IH]; intros s; simpl.
  - split; [intros _; by exists s | done].
  - destruct s as [|b s].
    + split; [done | intros [t Ht]; discriminate].
    + rewrite andb_true_iff, Ascii.eqb_eq, IH. split.
      * intros [-> [t ->]]. by exists t.
      * intros [t Ht]. injection Ht as -> ->. split; [done | by exists t].
Qed.

Lemma starts_with_app (p t : text) : starts_with p (p ++ t) = true.
Proof. apply starts_with_spec. by exists t. Qed.

Lemma starts_with_take (p s : text) :
  starts_with p s = true → take (length p) s = p ∧ length p ≤ length s.
Proof.
  intros [t ->]%starts_with_spec. rewrite take_app_length, length_app.
  split; [done | lia].
Qed.

Lemma span_not_le (c : ascii) (s : text) : span_not c s ≤ length s.
Proof.
  induction s as [|x s IH]; simpl; [lia |].
  destruct (Ascii.eqb x c); simpl; lia.
Qed.

Lemma span_not_Forall (c : ascii) (s : text) (j : nat) :
  j ≤ span_not c s → Forall (λ a, a ≠ c) (take j s).
Proof.
  revert j. induction s as [|x s IH]; intros j Hj; simpl in *.
  - rewrite take_nil. constructor.
  - destruct j as [|j]; [constructor |].
    destruct (Ascii.eqb x c) eqn:E; [lia |].
    simpl. constructor; [by apply Ascii.eqb_neq | apply IH; lia].
Qed.

Lemma span_not_app (c : ascii) (x t : text) :
  Forall (λ a, a ≠ c) x → length x ≤ span_not c (x ++ t).
Proof.
  induction 1 as [|a x Ha _ IH]; simpl; [lia |].
  apply Ascii.eqb_neq in Ha. rewrite Ha. lia.
Qed.

Lemma backtrack_Some (k : text → option nat) (s : text) (n e : nat) :
  backtrack k s n = Some e →
  ∃ j m, 1 ≤ j ≤ n ∧ k (drop j s) = Some m ∧ e = j + m.
Proof.
  induction n as [|n IH]; simpl; [done |].
  destruct (k (drop (S n) s)) as [m|] eqn:E.
  - intros [= <-]. exists (S n), m. split; [lia | done].
  - intros (j & m & Hj & Hk & ->)%IH. exists j, m. split; [lia | done].
Qed.

Lemma backtrack_is_Some (k : text → option nat) (s : text) (n j : nat) :
  1 ≤ j ≤ n → is_Some (k (drop j s)) → is_Some (backtrack k s n).
Proof.
  induction n as [|n IH]; intros Hj Hk; [lia |]. simpl.
  destruct (k (drop (S n) s)) as [m|] eqn:E; [by eexists |].
  apply IH; [|done].
  destruct (decide (j = S n)) as [->|]; [|lia].
  rewrite E in Hk. by destruct Hk.
Qed.

Lemma match_here_sound (r : regex) (s : text) (n : nat) :
  match_here r s = Some n → n ≤ length s ∧ matches r (take n s).
Proof.
  revert s n. induction r as [|[p|c] r IH]; intros s n; simpl.
  - intros [= <-]. split; [lia |]. rewrite take_0. constructor.
  - destruct (starts_with p s) eqn:Hp; [|done].
    apply starts_with_spec in Hp as [t ->].
    rewrite drop_app_length.
    destruct (match_here r t) as [m|] eqn:Hm; [|done].
    intros [= <-]. apply IH in Hm as [Hle Hm].
    rewrite length_app. split; [lia |].
    rewrite take_app_add'; [|done]. by constructor.
  - intros (j & m & Hj & Hm & ->)%backtrack_Some.
    apply IH in Hm as [Hle Hm]. rewrite length_drop in Hle.
    pose proof (span_not_le c s).
    split; [lia |].
    rewrite <- (take_drop j s) at 1.
    rewrite take_app_add'; [|rewrite length_take; lia].
    constructor; [| apply span_not_Forall; lia | done].
    intros Hnil. apply (f_equal length) in Hnil.
    rewrite length_take in Hnil. simpl in Hnil. lia.
Qed.

Lemma match_here_complete (r : regex) (m post : text) :
  matches r m → is_Some (match_here r (m ++ post)).
Proof.
  induction 1 as [|p r s _ IH|c r x s Hx Hc _ IH]; simpl.
  - by eexists.
  - rewrite <- app_assoc, starts_with_app, drop_app_length.
    destruct IH as [n ->]. by eexists.
  - rewrite <- app_assoc.
    apply backtrack_is_Some with (j := length x).
    + split; [destruct x; [done | simpl; lia] | by apply span_not_app].
    + by rewrite drop_app_length.
Qed.

Lemma search_from_Some (r : regex) (s : text) (k a e : nat) :
  search_from r s k = Some (a, e) →
  ∃ i n, a = k + i ∧ e = a + n ∧ i ≤ length s ∧
         match_here r (drop i s) = Some n ∧
         ∀ j, j < i → match_here r (drop j s) = None.
Proof.
  revert k. induction s as [|x s IH]; intros k; simpl.
  - destruct (match_here r []) as [n|] eqn:E; [|done].
    intros [= <- <-]. exists 0, n. split_and!; [lia | lia | simpl; lia | done | lia].
  - destruct (match_here r (x :: s)) as [n|] eqn:E.
    + intros [= <- <-]. exists 0, n. split_and!; [lia | lia | simpl; lia | done | lia].
    + intros (i & n & -> & -> & Hi & Hn & Hlt)%IH.
      exists (S i), n. split_and!; [lia | lia | simpl; lia | done |].
      intros [|j] Hj; [done | apply Hlt; lia].
Qed.

Lemma search_from_None (r : regex) (s : text) (k : nat) :
  search_from r s k = None ↔
  ∀ i, i ≤ length s → match_here r (drop i s) = None.
Proof.
  revert k. induction s as [|x s IH]; intros k; simpl.
  - destruct (match_here r []) as [n|] eqn:E.
    + split; [done |]. intros H. specialize (H 0 (Nat.le_0_l _)).
      simpl in H. congruence.
    + split; [|done]. intros _ i Hi. by rewrite drop_nil.
  - destruct (match_here r (x :: s)) as [n|] eqn:E.
    + split; [done |]. intros H. specialize (H 0 (Nat.le_0_l _)).
      simpl in H. congruence.
    + rewrite IH. split.
      * intros H [|i] Hi; [done | apply H; lia].
      * intros H i Hi. apply (H (S i)). lia.
Qed.

Lemma search_from_first (r : regex) (s : text) (k i n : nat) :
  i ≤ length s → match_here r (drop i s) = Some n →
  (∀ j, j < i → match_here r (drop j s) = None) →
  search_from r s k = Some (k + i, k + i + n).
Proof.
  revert k i. induction s as [|x s IH]; intros k i Hi Hn Hlt; simpl in *.
  - rewrite drop_nil in Hn. rewrite Hn.
    assert (i = 0) as -> by lia. by rewrite Nat.add_0_r.
  - destruct i as [|i]; simpl in Hn.
    + rewrite Hn. by rewrite Nat.add_0_r.
    + pose proof (Hlt 0 (Nat.lt_0_succ _)) as H0. simpl in H0. rewrite H0.
      rewrite (IH (S k) i); [f_equal; f_equal; lia | lia | done |].
      intros j Hj. apply (Hlt (S j)). lia.
Qed.

Lemma re_search_None (r : regex) (s : text) :
  re_search r s = None ↔ ¬ has_match r s.
Proof.
  unfold re_search. split.
  - intros Hnone (pre & m & post & -> & Hm).
    rewrite search_from_None in Hnone.
    destruct (match_here_complete r m post Hm) as [n Hn].
    specialize (Hnone (length pre)).
    rewrite drop_app_length, Hn in Hnone.
    rewrite length_app in Hnone. discriminate Hnone. lia.
  - intros Hno. destruct (search_from r s 0) as [[a e]|] eqn:E; [|done].
    exfalso. apply Hno.
    apply search_from_Some in E as (i & n & _ & _ & Hi & Hn & _).
    apply match_here_sound in Hn as [_ Hn].
    exists (take i s), (take n (drop i s)), (drop n (drop i s)).
    by rewrite !take_drop.
Qed.

Lemma re_search_Some (r : regex) (s : text) (a e : nat) :
  re_search r s = Some (a, e) →
  a ≤ e ∧ e ≤ length s ∧ matches r (take (e - a) (drop a s)) ∧
  ∀ j, j < a → match_here r (drop j s) = None.
Proof.
  intros (i & n & -> & -> & Hi & Hn & Hlt)%search_from_Some. simpl.
  pose proof Hn as [Hle Hm]%match_here_sound. rewrite length_drop in Hle.
  replace (i + n - i) with n by lia.
  split_and!; [lia | lia | done | done].
Qed.

Lemma has_match_lit (p s : text) : has_match [Lit p] s ↔ occurs p s.
Proof.
  split.
  - intros (pre & m & post & -> & Hm).
    inversion Hm as [|p' r' s' Hnil|]; subst. inversion Hnil; subst.
    rewrite app_nil_r. by exists pre, post.
  - intros (pre & post & ->). exists pre, p, post. split; [done |].
    rewrite <- (app_nil_r p) at 2. repeat constructor.
Qed.

Lemma match_here_lit (p s : text) :
  match_here [Lit p] s = if starts_with p s then Some (length p) else None.
Proof. simpl. destruct (starts_with p s); [by rewrite Nat.add_0_r | done]. Qed.

Lemma re_search_lit (p pre post s : text) :
  first_occurrence p pre post s →
  re_search [Lit p] s = Some (length pre, length pre + length p).
Proof.
  intros [-> Hfirst]. unfold re_search.
  apply (search_from_first _ _ 0 (length pre) (length p)).
  - rewrite length_app. lia.
  - by rewrite drop_app_length, match_here_lit, starts_with_app.
  - intros j Hj. rewrite match_here_lit.
    destruct (starts_with p (drop j (pre ++ p ++ post))) eqn:E; [|done].
    apply starts_with_spec in E as [t Ht].
    specialize (Hfirst (take j (pre ++ p ++ post)) t).
    rewrite <- Ht, take_drop, length_take in Hfirst.
    specialize (Hfirst eq_refl). lia.
Qed.

Lemma re_search_lit_inv (p s : text) (a e : nat) :
  re_search [Lit p] s = Some (a, e) →
  e = a + length p ∧ first_occurrence p (take a s) (drop e s) s.
Proof.
  intros (i & n & -> & -> & Hi & Hn & Hlt)%search_from_Some. simpl.
  rewrite match_here_lit in Hn.
  destruct (starts_with p (drop i s)) eqn:E; [|done].
  injection Hn as <-. apply starts_with_spec in E as [t Ht].
  assert (drop (i + length p) s = t) as Hdrop.
  { rewrite <- drop_drop, Ht. apply drop_app_length. }
  split; [done |]. split.
  - rewrite Hdrop, <- Ht. by rewrite take_drop.
  - intros pre' post' Hs. rewrite length_take.
    destruct (decide (length pre' < i)) as [Hlt'|]; [|lia].
    specialize (Hlt _ Hlt'). rewrite match_here_lit in Hlt.
    rewrite Hs, drop_app_length, starts_with_app in Hlt. done.
Qed.

(** ** Insertions *)

Lemma insert_at_app (pre post new : text) :
  insert_at (length pre) new (pre ++ post) = pre ++ new ++ post.
Proof. unfold insert_at. by rewrite take_app_length, drop_app_length. Qed.

Lemma insert_at_length (pos : nat) (new content : text) :
  length (insert_at pos new content) = length content + length new.
Proof.
  unfold insert_at. rewrite !length_app.
  rewrite <- (take_drop pos content) at 3. rewrite length_app. lia.
Qed.

Lemma insert_at_sublist (pos : nat) (new content : text) :
  content `sublist_of` insert_at pos new content.
Proof.
  unfold insert_at. rewrite <- (take_drop pos content) at 1.
  apply sublist_app; [done |]. by apply sublist_inserts_l.
Qed.

Lemma insert_after_lit (p pre post new s : text) :
  first_occurrence p pre post s →
  insert_after [Lit p] new s = pre ++ p ++ new ++ post.
Proof.
  intros Hfirst. unfold insert_after. rewrite (re_search_lit _ _ _ _ Hfirst).
  destruct Hfirst as [-> _].
  rewrite <- length_app, app_assoc, insert_at_app.
  by rewrite <- app_assoc.
Qed.

Lemma insert_before_lit (p pre post new s : text) :
  first_occurrence p pre post s →
  insert_before [Lit p] new s = pre ++ new ++ p ++ post.
Proof.
  intros Hfirst. unfold insert_before. rewrite (re_search_lit _ _ _ _ Hfirst).
  destruct Hfirst as [-> _]. apply insert_at_app.
Qed.



(** ** What a run of [add_test_target] computes *)

(** The identifier the [k]-th call of [generate_id] from [w] returns
    (counting from 0). *)
Definition nth_id (w : world) (k : nat) : text :=
  upper (take 24 (format_032x (uuid4_int (entropy w (k + draws w) mod 2 ^ 128)))).

(** [w] after [k] more draws of entropy. *)
Definition advance (k : nat) (w : world) : world :=
  {| fs := fs w; stdout := stdout w; entropy := entropy w;
     draws := k + draws w |}.

Lemma generate_id_run (w : world) :
  generate_id w = (Ret (nth_id w 0), advance 1 w).
Proof. reflexivity. Qed.

(** The value of the variable [content] after each edit of a run that
    starts in [w] on a file that holds [content]. The identifiers are, in
    the order the script draws them: target, product, sources phase,
    frameworks phase, configuration list, Debug, Release, group, and the
    dependency of the native-target block. *)
Section Run.
Variable w : world.
Variable content : text.

Definition after_file_ref : text :=
  add_file_ref (nth_id w 1) content.
Definition after_group : text :=
  add_group (nth_id w 7) after_file_ref.
Definition after_product_ref : text :=
  add_product_ref (nth_id w 1) after_group.
Definition after_sources_phase : text :=
  add_sources_phase (nth_id w 2) after_product_ref.
Definition after_frameworks_phase : text :=
  add_frameworks_phase (nth_id w 3) after_sources_phase.
Definition after_native_target : text :=
  insert_before native_target_end_pat
    (test_target (nth_id w 0) (nth_id w 4) (nth_id w 2) (nth_id w 3)
       (nth_id w 8) (nth_id w 1))
    after_frameworks_phase.
Definition after_target_ref : text :=
  add_target_ref (nth_id w 0) after_native_target.
Definition after_build_configs : text :=
  add_build_configs (nth_id w 5) (nth_id w 6) (nth_id w 4) after_target_ref.
Definition after_target_attrs : text :=
  add_target_attrs (nth_id w 0) after_build_configs.

(** The calls of [generate_id] in the run. *)
Definition ids_drawn : nat :=
  match re_search native_target_end_pat after_frameworks_phase with
  | Some _ => 9
  | None => 8
  end.
End Run.

Lemma add_native_target_run
    (w : world) (a b c d e content : text) :
  add_native_target a b c d e content w =
  match re_search native_target_end_pat content with
  | Some _ =>
      (Ret (insert_before native_target_end_pat
              (test_target a b c d (nth_id w 0) e) content),
       advance 1 w)
  | None => (Ret content, w)
  end.
Proof.
  unfold add_native_target, insert_before.
  destruct (re_search native_target_end_pat content) as [[s e']|]; reflexivity.
Qed.

Lemma add_test_target_run (path : string) (w : world) (content : text) :
  fs w !! path = Some content →
  add_test_target path w =
  match re_search main_target_pat content with
  | None =>
      (Ret false,
       {| fs := fs w;
          stdout := stdout w ++ [lit "Error: Could not find main target"];
          entropy := entropy w; draws := 8 + draws w |})
  | Some _ =>
      (Ret true,
       {| fs := <[path := after_target_attrs w content]> (fs w);
          stdout := (stdout w ++ [lit "Added PaykitDemoTests target to project"])
                    ++ [lit "Test target ID: " ++ nth_id w 0];
          entropy := entropy w; draws := ids_drawn w content + draws w |})
  end.
Proof.
  intros Hfile.
  unfold add_test_target, read_file, bind at 1. rewrite Hfile.
  do 8 (unfold bind at 1; rewrite generate_id_run).
  destruct (re_search main_target_pat content) as [m|]; [|reflexivity].
  unfold bind at 1. rewrite add_native_target_run.
  unfold ids_drawn, after_target_attrs, after_build_configs, after_target_ref,
    after_native_target, after_frameworks_phase, after_sources_phase,
    after_product_ref, after_group, after_file_ref.
  change (nth_id (advance 1 (advance 1 (advance 1 (advance 1 (advance 1
            (advance 1 (advance 1 (advance 1 w)))))))) 0)
    with (nth_id w 8).
  change (nth_id (advance 1 (advance 1 (advance 1 (advance 1 (advance 1
            (advance 1 (advance 1 w))))))) 0) with (nth_id w 7).
  change (nth_id (advance 1 (advance 1 (advance 1 (advance 1 (advance 1
            (advance 1 w)))))) 0) with (nth_id w 6).
  change (nth_id (advance 1 (advance 1 (advance 1 (advance 1
            (advance 1 w))))) 0) with (nth_id w 5).
  change (nth_id (advance 1 (advance 1 (advance 1 (advance 1 w)))) 0)
    with (nth_id w 4).
  change (nth_id (advance 1 (advance 1 (advance 1 w))) 0) with (nth_id w 3).
  change (nth_id (advance 1 (advance 1 w)) 0) with (nth_id w 2).
  change (nth_id (advance 1 w) 0) with (nth_id w 1).
  match goal with
  | |- context [re_search native_target_end_pat ?c] =>
      destruct (re_search native_target_end_pat c) as [m'|] eqn:E
  end; [reflexivity |].
  unfold insert_before at 1. rewrite E. reflexivity.
Qed.

(** ** Checking occurrences by running the matcher *)

Lemma not_occurs_by_search (p s : text) :
  re_search [Lit p] s = None → ¬ occurs p s.
Proof. rewrite <- has_match_lit. apply re_search_None. Qed.

Lemma occurs_by_search (p s : text) :
  is_Some (re_search [Lit p] s) → occurs p s.
Proof.
  intros [[a e] Hm]. apply re_search_lit_inv in Hm as [_ [Hs _]].
  by exists (take a s), (drop e s).
Qed.

Lemma occurs_trans (x b s : text) : occurs x b → occurs b s → occurs x s.
Proof.
  intros (u & v & ->) (u' & v' & ->). exists (u' ++ u), (v ++ v').
  by rewrite <- !app_assoc.
Qed.

Lemma re_search_is_Some (r : regex) (s : text) :
  has_match r s → is_Some (re_search r s).
Proof.
  intros Hm. destruct (re_search r s) as [m|] eqn:E; [by eexists |].
  by apply re_search_None in E.
Qed.

Lemma first_occurrence_by_search (p s : text) (a e : nat) :
  re_search [Lit p] s = Some (a, e) →
  first_occurrence p (take a s) (drop e s) s.
Proof. by intros [_ H]%re_search_lit_inv. Qed.

(** ** A small project file and a world to run the script in *)

Definition sample_project : text :=
  ln 0 (lit "/* Begin PBXFileReference section */") ++
  ln 2 (lit "5224F5F42EED89A600A4DEB4 /* PaykitDemo */ = {isa = PBXFileReference; };") ++
  ln 0 (lit "/* End PBXFileReference section */") ++
  ln 0 (lit "/* Begin PBXGroup section */") ++
  ln 2 (lit "5224F5EC2EED89A600A4DEB4 = {") ++
  ln 3 (lit "isa = PBXGroup;") ++
  ln 3 (lit "children = (") ++
  ln 4 (lit "5224F5F62EED89A600A4DEB4 /* Products */,") ++
  ln 3 (lit ");") ++
  ln 2 (lit "};") ++
  ln 2 (lit "5224F5F62EED89A600A4DEB4 /* Products */ = {") ++
  ln 3 (lit "isa = PBXGroup;") ++
  ln 3 (lit "children = (") ++
  ln 4 (lit "5224F5F42EED89A600A4DEB4 /* PaykitDemo */,") ++
  ln 3 (lit ");") ++
  ln 2 (lit "};") ++
  ln 0 (lit "/* End PBXGroup section */") ++
  ln 0 (lit "/* Begin PBXSourcesBuildPhase section */") ++
  ln 0 (lit "/* End PBXSourcesBuildPhase section */") ++
  ln 0 (lit "/* Begin PBXFrameworksBuildPhase section */") ++
  ln 0 (lit "/* End PBXFrameworksBuildPhase section */") ++
  ln 0 (lit "/* Begin PBXNativeTarget section */") ++
  ln 0 (lit "/* End PBXNativeTarget section */") ++
  ln 3 (lit "TargetAttributes = {") ++
  ln 3 (lit "};") ++
  ln 3 (lit "targets = (") ++
  ln 3 (lit ");") ++
  ln 0 (lit "/* Begin XCConfigurationList section */") ++
  ln 0 (lit "/* End XCConfigurationList section */").

(** A project file without any of the anchors. *)
Definition bare_project : text :=
  ln 0 (lit "// !$*UTF8*$!") ++ ln 0 (lit "{") ++ ln 0 (lit "}").

Definition sample_entropy (k : nat) : N :=
  (N.of_nat k * 1234567891234567891234567891234567 + 2 ^ 127 + 99)%N.

Definition sample_world : world :=
  {| fs := {[ project_path := sample_project ]}; stdout := [];
     entropy := sample_entropy; draws := 0 |}.

Definition bare_world : world :=
  {| fs := {[ project_path := bare_project ]}; stdout := [];
     entropy := sample_entropy; draws := 0 |}.

(** A project file with the main-target anchor and no other. *)
Definition main_only_project : text :=
  ln 2 (lit "5224F5F42EED89A600A4DEB4 /* PaykitDemo */ = {") ++ ln 2 (lit "};").

Definition main_only_world : world :=
  {| fs := {[ project_path := main_only_project ]}; stdout := [];
     entropy := sample_entropy; draws := 0 |}.

Definition empty_world : world :=
  {| fs := ∅; stdout := []; entropy := sample_entropy; draws := 0 |}.

(** ** The statements of the specification *)

(** C1. If the main-target anchor
    [5224F5F42EED89A600A4DEB4 /* PaykitDemo */] does not occur in the
    project file, [add_test_target] prints an error and returns [False]
    without writing: the file system, and the project file in it, are as
    before. *)
Theorem add_test_target_aborts_without_main_target
    (path : string) (w : world) (content : text) :
  fs w !! path = Some content →
  ¬ occurs (lit "5224F5F42EED89A600A4DEB4 /* PaykitDemo */") content →
  fst (add_test_target path w) = Ret false ∧
  fs (snd (add_test_target path w)) = fs w ∧
  fs (snd (add_test_target path w)) !! path = Some content ∧
  stdout (snd (add_test_target path w)) =
    stdout w ++ [lit "Error: Could not find main target"].
Proof.
  intros Hfile Hno. rewrite (add_test_target_run _ _ _ Hfile).
  rewrite <- has_match_lit in Hno. apply re_search_None in Hno.
  change (re_search main_target_pat content = None) in Hno.
  rewrite Hno. simpl. done.
Qed.

Lemma add_test_target_aborts_without_main_target_witness :
  fst (add_test_target project_path bare_world) = Ret false ∧
  fs (snd (add_test_target project_path bare_world)) = fs bare_world ∧
  fs (snd (add_test_target project_path bare_world)) !! project_path =
    Some bare_project ∧
  stdout (snd (add_test_target project_path bare_world)) =
    [lit "Error: Could not find main target"].
Proof.
  apply (add_test_target_aborts_without_main_target
           project_path bare_world bare_project).
  - apply lookup_singleton_eq.
  - apply not_occurs_by_search. vm_compute. reflexivity.
Defined.

(** ** Identifiers *)

Definition lower_hex : text := lit "0123456789abcdef".
Definition upper_hex : text := lit "0123456789ABCDEF".

(** [c] is one of [0-9] or [A-F]. *)
Definition is_upper_hex (c : ascii) : Prop := c ∈ upper_hex.

(** Membership in a closed text, by running through it. *)
Ltac elem_of_text :=
  apply list_elem_of_In; vm_compute;
  repeat first [left; reflexivity | right].

Lemma string_of_uint_lower_hex (d : Hexadecimal.uint) :
  Forall (λ c, c ∈ lower_hex) (lit (NilEmpty.string_of_uint d)).
Proof.
  induction d; simpl; try constructor; try done; elem_of_text.
Qed.

Lemma hex_of_N_lower_hex (n : N) : Forall (λ c, c ∈ lower_hex) (hex_of_N n).
Proof.
  unfold hex_of_N, NilZero.string_of_uint.
  destruct (N.to_hex_uint n); try apply string_of_uint_lower_hex.
  repeat constructor.
Qed.

Lemma format_032x_lower_hex (n : N) :
  Forall (λ c, c ∈ lower_hex) (format_032x n).
Proof.
  unfold format_032x. apply Forall_app. split.
  - apply Forall_forall. intros c Hc%list_elem_of_In%repeat_spec. subst c.
    elem_of_text.
  - apply hex_of_N_lower_hex.
Qed.

Lemma format_032x_length (n : N) : 32 ≤ length (format_032x n).
Proof. unfold format_032x. rewrite length_app, repeat_length. lia. Qed.

Lemma upper_char_hex (c : ascii) : c ∈ lower_hex → is_upper_hex (upper_char c).
Proof.
  unfold lower_hex, is_upper_hex, upper_hex. intros H. simpl in H.
  rewrite !elem_of_cons in H.
  repeat (destruct H as [->|H]; [elem_of_text |]).
  by apply elem_of_nil in H.
Qed.

Lemma upper_hex_Forall (s : text) :
  Forall (λ c, c ∈ lower_hex) s → Forall is_upper_hex (upper s).
Proof.
  unfold upper. intros H. apply Forall_fmap.
  eapply Forall_impl; [exact H |]. intros c Hc. by apply upper_char_hex.
Qed.

Lemma nth_id_length (w : world) (k : nat) : length (nth_id w k) = 24.
Proof.
  unfold nth_id, upper. rewrite length_map, length_take.
  pose proof (format_032x_length
                (uuid4_int (entropy w (k + draws w) mod 2 ^ 128))).
  lia.
Qed.

Lemma nth_id_hex (w : world) (k : nat) : Forall is_upper_hex (nth_id w k).
Proof.
  unfold nth_id. apply upper_hex_Forall, Forall_take, format_032x_lower_hex.
Qed.

(** C9. Every call of [generate_id] returns a string of exactly 24
    characters, each an upper-case hexadecimal digit. *)
Theorem generate_id_24_upper_hex (w : world) :
  ∃ id, fst (generate_id w) = Ret id ∧
        length id = 24 ∧ Forall is_upper_hex id.
Proof.
  exists (nth_id w 0). rewrite generate_id_run.
  split_and!; [done | apply nth_id_length | apply nth_id_hex].
Qed.

(** ** The script *)

Lemma main_run (w : world) :
  main w =
  match add_test_target project_path w with
  | (Ret true, w') =>
      (Raise (SystemExit 0),
       {| fs := fs w';
          stdout := stdout w' ++ [lit "Successfully added test target"];
          entropy := entropy w'; draws := draws w' |})
  | (Ret false, w') =>
      (Raise (SystemExit 1),
       {| fs := fs w';
          stdout := stdout w' ++ [lit "Failed to add test target"];
          entropy := entropy w'; draws := draws w' |})
  | (Raise e, w') => (Raise e, w')
  end.
Proof.
  unfold main, bind at 1.
  destruct (add_test_target project_path w) as [[[|]|e] w']; reflexivity.
Qed.

(** C8. Run as a script: when [add_test_target] returns [True] the script
    prints [Successfully added test target] and exits with status 0; when
    it returns [False] it prints [Failed to add test target] and exits
    with status 1. Nothing else is handled: an exception of
    [add_test_target] (the project file cannot be opened) leaves the
    script as it is, with nothing printed. *)
Theorem main_prints_and_exits (w w' : world) :
  (add_test_target project_path w = (Ret true, w') →
     exit_status (fst (main w)) = 0%Z ∧
     stdout (snd (main w)) =
       stdout w' ++ [lit "Successfully added test target"] ∧
     fs (snd (main w)) = fs w') ∧
  (add_test_target project_path w = (Ret false, w') →
     exit_status (fst (main w)) = 1%Z ∧
     stdout (snd (main w)) = stdout w' ++ [lit "Failed to add test target"] ∧
     fs (snd (main w)) = fs w') ∧
  (∀ e, add_test_target project_path w = (Raise e, w') →
     main w = (Raise e, w')) ∧
  (fs w !! project_path = None →
     main w = (Raise (FileNotFoundError project_path), w)).
Proof.
  rewrite main_run. split_and!.
  - intros ->. done.
  - intros ->. done.
  - intros e ->. done.
  - intros Hnone. unfold add_test_target, bind at 1, read_file.
    by rewrite Hnone.
Qed.

Example main_on_sample_project :
  exit_status (fst (main sample_world)) = 0%Z ∧
  last (stdout (snd (main sample_world))) =
    Some (lit "Successfully added test target").
Proof. vm_compute. done. Qed.

Example main_on_bare_project :
  exit_status (fst (main bare_world)) = 1%Z ∧
  stdout (snd (main bare_world)) =
    [lit "Error: Could not find main target";
     lit "Failed to add test target"].
Proof. vm_compute. done. Qed.

Example main_without_project_file :
  fst (main empty_world) = Raise (FileNotFoundError project_path) ∧
  exit_status (fst (main empty_world)) = 1%Z ∧
  stdout (snd (main empty_world)) = [].
Proof. vm_compute. done. Qed.

(** ** Insertion only *)

(** [spliced s blocks out]: [out] is [s] after the texts of [blocks] were
    inserted one after the other, each somewhere in the text reached so
    far. *)
Inductive spliced : text → list text → text → Prop :=
  | spliced_nil s : spliced s [] s
  | spliced_snoc s blocks mid pos new :
      spliced s blocks mid →
      spliced s (blocks ++ [new]) (insert_at pos new mid).

Lemma spliced_one (pos : nat) (new s : text) :
  spliced s [new] (insert_at pos new s).
Proof. apply (spliced_snoc s [] s). constructor. Qed.

Lemma spliced_trans (a b c : text) (bs cs : list text) :
  spliced a bs b → spliced b cs c → spliced a (bs ++ cs) c.
Proof.
  intros Hab Hbc. induction Hbc as [b|b cs mid pos new _ IH].
  - by rewrite app_nil_r.
  - rewrite app_assoc. constructor. by apply IH.
Qed.

Lemma spliced_sublist (s out : text) (blocks : list text) :
  spliced s blocks out → s `sublist_of` out.
Proof.
  induction 1 as [s|s blocks mid pos new _ IH]; [done |].
  etrans; [exact IH | apply insert_at_sublist].
Qed.

Lemma spliced_length (s out : text) (blocks : list text) :
  spliced s blocks out →
  length out = length s + sum_list (length <$> blocks).
Proof.
  induction 1 as [s|s blocks mid pos new _ IH]; simpl; [lia |].
  rewrite insert_at_length, IH, fmap_app, sum_list_with_app. simpl. lia.
Qed.

(** The block an edit inserts: [new] when its pattern matches. *)
Definition fired (r : regex) (content new : text) : list text :=
  match re_search r content with
  | Some _ => [new]
  | None => []
  end.

Lemma insert_after_spliced (r : regex) (new s : text) :
  spliced s (fired r s new) (insert_after r new s).
Proof.
  unfold fired, insert_after.
  destruct (re_search r s) as [[a e]|]; [apply spliced_one | constructor].
Qed.

Lemma insert_before_spliced (r : regex) (new s : text) :
  spliced s (fired r s new) (insert_before r new s).
Proof.
  unfold fired, insert_before.
  destruct (re_search r s) as [[a e]|]; [apply spliced_one | constructor].
Qed.

(** The blocks the two edits of [add_group] insert. *)
Definition group_blocks (test_group_id content : text) : list text :=
  match re_search group_section_pat content with
  | Some _ =>
      fired main_group_pat content (test_group_ref test_group_id) ++
      fired group_end_pat
        (insert_after main_group_pat (test_group_ref test_group_id) content)
        (test_group_def test_group_id)
  | None => []
  end.

Lemma add_group_spliced (id s : text) :
  spliced s (group_blocks id s) (add_group id s).
Proof.
  unfold group_blocks, add_group.
  destruct (re_search group_section_pat s); [|constructor].
  eapply spliced_trans; [apply insert_after_spliced |].
  apply insert_before_spliced.
Qed.

(** The blocks a run inserts, in the order of the edits. *)
Definition inserted_blocks (w : world) (content : text) : list text :=
  match re_search main_target_pat content with
  | None => []
  | Some _ =>
      fired file_ref_section_pat content (test_file_ref (nth_id w 1)) ++
      group_blocks (nth_id w 7) (after_file_ref w content) ++
      fired products_group_pat (after_group w content)
        (test_product_ref (nth_id w 1)) ++
      fired sources_phase_end_pat (after_product_ref w content)
        (test_sources_phase (nth_id w 2)) ++
      fired frameworks_phase_end_pat (after_sources_phase w content)
        (test_frameworks_phase (nth_id w 3)) ++
      fired native_target_end_pat (after_frameworks_phase w content)
        (test_target (nth_id w 0) (nth_id w 4) (nth_id w 2) (nth_id w 3)
           (nth_id w 8) (nth_id w 1)) ++
      fired targets_pat (after_native_target w content)
        (test_target_ref (nth_id w 0)) ++
      fired config_list_end_pat (after_target_ref w content)
        (test_debug_config (nth_id w 5) (nth_id w 6) (nth_id w 4)) ++
      fired target_attrs_pat (after_build_configs w content)
        (test_target_attrs (nth_id w 0))
  end.

Lemma edits_spliced (w : world) (content : text) (m : nat * nat) :
  re_search main_target_pat content = Some m →
  spliced content (inserted_blocks w content) (after_target_attrs w content).
Proof.
  intros Hm. unfold inserted_blocks. rewrite Hm.
  eapply spliced_trans; [apply insert_after_spliced |].
  eapply spliced_trans; [apply add_group_spliced |].
  eapply spliced_trans; [apply insert_after_spliced |].
  eapply spliced_trans; [apply insert_before_spliced |].
  eapply spliced_trans; [apply insert_before_spliced |].
  eapply spliced_trans; [apply insert_before_spliced |].
  eapply spliced_trans; [apply insert_after_spliced |].
  eapply spliced_trans; [apply insert_before_spliced |].
  apply insert_after_spliced.
Qed.

Lemma written_content (path : string) (w : world) (content : text) :
  fs w !! path = Some content →
  has_match main_target_pat content →
  fst (add_test_target path w) = Ret true ∧
  fs (snd (add_test_target path w)) =
    <[path := after_target_attrs w content]> (fs w) ∧
  fs (snd (add_test_target path w)) !! path =
    Some (after_target_attrs w content).
Proof.
  intros Hfile [m Hm]%re_search_is_Some.
  rewrite (add_test_target_run _ _ _ Hfile), Hm. simpl.
  split_and!; [done | done | apply lookup_insert_eq].
Qed.

(** C2. [add_test_target] only inserts: whatever the project file holds,
    what the file holds afterwards is that content with the inserted
    blocks spliced in, so the content's characters are all there in their
    order, and the length is the content's plus the lengths of the
    inserted blocks. *)
Theorem add_test_target_insertion_only
    (path : string) (w : world) (content : text) :
  fs w !! path = Some content →
  ∃ out,
    fs (snd (add_test_target path w)) !! path = Some out ∧
    spliced content (inserted_blocks w content) out ∧
    content `sublist_of` out ∧
    length out = length content + sum_list (length <$> inserted_blocks w content).
Proof.
  intros Hfile.
  assert (∃ out, fs (snd (add_test_target path w)) !! path = Some out ∧
                 spliced content (inserted_blocks w content) out)
    as (out & Hout & Hsp).
  { rewrite (add_test_target_run _ _ _ Hfile).
    destruct (re_search main_target_pat content) as [m|] eqn:Hm.
    - exists (after_target_attrs w content). split.
      + apply lookup_insert_eq.
      + by apply edits_spliced with m.
    - exists content. split; [done |].
      unfold inserted_blocks. rewrite Hm. constructor. }
  exists out. split_and!; [done | done | |].
  - by apply spliced_sublist in Hsp.
  - by apply spliced_length in Hsp.
Qed.

Lemma add_test_target_insertion_only_witness :
  ∃ out,
    fs (snd (add_test_target project_path sample_world)) !! project_path =
      Some out ∧
    spliced sample_project (inserted_blocks sample_world sample_project) out ∧
    sample_project `sublist_of` out ∧
    length out =
      length sample_project +
      sum_list (length <$> inserted_blocks sample_world sample_project).
Proof.
  apply (add_test_target_insertion_only project_path sample_world).
  apply lookup_singleton_eq.
Defined.

Example sample_project_blocks :
  length <$> inserted_blocks sample_world sample_project =
    [207; 52; 153; 59; 176; 182; 667; 52; 1881; 123] ∧
  length sample_project = 828 ∧
  length <$> fs (snd (add_test_target project_path sample_world)) !! project_path
    = Some 4380.
Proof. vm_compute. done. Qed.

(** ** Missing anchors *)








(** ** Counting the occurrences of an identifier *)

(** The number of positions of [s] at which [p] occurs. *)
Fixpoint count_sub (p s : text) : nat :=
  match s with
  | [] => 0
  | _ :: s' => (if starts_with p s then 1 else 0) + count_sub p s'
  end.

Definition is_upper_hex_b (c : ascii) : bool :=
  existsb (Ascii.eqb c) upper_hex.

Lemma is_upper_hex_b_spec (c : ascii) :
  is_upper_hex_b c = true ↔ is_upper_hex c.
Proof.
  unfold is_upper_hex_b, is_upper_hex. rewrite existsb_exists. split.
  - intros (x & Hin & ->%Ascii.eqb_eq). by apply list_elem_of_In.
  - intros Hin%list_elem_of_In. exists c. by rewrite Ascii.eqb_refl.
Qed.

(** An identifier-like word: not empty, upper-case hexadecimal digits
    only. *)
Definition hex_word (p : text) : Prop := p ≠ [] ∧ Forall is_upper_hex p.

Lemma count_sub_zero (p s : text) :
  p ≠ [] → (count_sub p s = 0 ↔ ¬ occurs p s).
Proof.
  intros Hp. induction s as [|x s IH]; simpl.
  - split; [|done]. intros _ (pre & post & H).
    destruct pre; [destruct p; [done | discriminate H] | discriminate H].
  - destruct (starts_with p (x :: s)) eqn:E.
    + split; [done |]. intros Hno. exfalso. apply Hno.
      apply starts_with_spec in E as [t ->]. by exists [], t.
    + simpl. rewrite IH. split.
      * intros Hno (pre & post & H). destruct pre as [|y pre].
        -- simpl in H. rewrite H, starts_with_app in E. done.
        -- injection H as _ ->. apply Hno. by exists pre, post.
      * intros Hno (pre & post & ->). apply Hno. by exists (x :: pre), post.
Qed.

Lemma count_sub_short (p s : text) :
  length s < length p → count_sub p s = 0.
Proof.
  intros Hlen. apply count_sub_zero.
  - intros ->. simpl in Hlen. lia.
  - intros (pre & post & ->). rewrite !length_app in Hlen. lia.
Qed.

Lemma count_sub_same_length (p s : text) :
  p ≠ [] → length s = length p →
  count_sub p s = if decide (p = s) then 1 else 0.
Proof.
  intros Hp Hlen. destruct s as [|x s]; [by destruct p |]. simpl.
  rewrite (count_sub_short p s) by (simpl in Hlen; lia).
  destruct (starts_with p (x :: s)) eqn:E.
  - apply starts_with_spec in E as [t Ht].
    assert (t = []) as ->.
    { apply (f_equal length) in Ht. rewrite length_app in Ht.
      destruct t; [done | simpl in *; lia]. }
    rewrite app_nil_r in Ht. by rewrite decide_True.
  - rewrite decide_False; [done |]. intros ->.
    rewrite <- (app_nil_r (x :: s)) in E at 2.
    by rewrite starts_with_app in E.
Qed.

(** A word of hexadecimal digits does not reach over a character that is
    none. *)
Lemma starts_with_before_non_hex (p a b : text) (c : ascii) :
  Forall is_upper_hex p → ¬ is_upper_hex c →
  starts_with p (a ++ c :: b) = starts_with p a.
Proof.
  intros Hp Hc. revert a. induction Hp as [|y p Hy _ IH]; intros a.
  - by destruct a.
  - destruct a as [|x a]; simpl.
    + destruct (Ascii.eqb y c) eqn:E; [|done].
      apply Ascii.eqb_eq in E. by subst.
    + by rewrite IH.
Qed.

Lemma count_sub_app_r (p a b : text) (c : ascii) :
  hex_word p → ¬ is_upper_hex c →
  count_sub p (a ++ c :: b) = count_sub p a + count_sub p (c :: b).
Proof.
  intros [Hne Hp] Hc. remember (count_sub p (c :: b)) as k eqn:Hk.
  induction a as [|x a IH]; [by subst |].
  cbn [app count_sub]. rewrite IH.
  change (x :: a ++ c :: b) with ((x :: a) ++ c :: b).
  rewrite (starts_with_before_non_hex p (x :: a) b c Hp Hc). lia.
Qed.

Lemma count_sub_non_hex_cons (p b : text) (c : ascii) :
  hex_word p → ¬ is_upper_hex c →
  count_sub p (c :: b) = count_sub p b.
Proof.
  intros [Hne Hp] Hc. cbn [count_sub].
  pose proof (starts_with_before_non_hex p [] b c Hp Hc) as H.
  simpl in H. rewrite H. by destruct p.
Qed.

Lemma count_sub_app_l (p a b : text) (c : ascii) :
  hex_word p → ¬ is_upper_hex c →
  count_sub p ((a ++ [c]) ++ b) = count_sub p (a ++ [c]) + count_sub p b.
Proof.
  intros Hp Hc. rewrite <- app_assoc. simpl.
  rewrite !(count_sub_app_r p a _ c Hp Hc).
  rewrite !(count_sub_non_hex_cons p _ c Hp Hc). simpl. lia.
Qed.

Lemma count_sub_app_le (p a b : text) :
  count_sub p a + count_sub p b ≤ count_sub p (a ++ b).
Proof.
  induction a as [|x a IH]; [simpl; lia |].
  cbn [app count_sub].
  assert (starts_with p (x :: a) = true → starts_with p (x :: a ++ b) = true)
    as Himp.
  { intros [t Ht]%starts_with_spec. apply starts_with_spec.
    exists (t ++ b). change (x :: a ++ b) with ((x :: a) ++ b).
    by rewrite Ht, app_assoc. }
  destruct (starts_with p (x :: a)); [rewrite Himp by done |];
    destruct (starts_with p (x :: a ++ b)); lia.
Qed.

(** *** Cuts that split no identifier *)

(** [b] starts and ends with a character that is no hexadecimal digit. *)
Definition sealed (b : text) : Prop :=
  (∃ c b', b = c :: b' ∧ ¬ is_upper_hex c) ∧
  (∃ b' c, b = b' ++ [c] ∧ ¬ is_upper_hex c).

(** The character before position [pos] of [s], or the one at it, is no
    hexadecimal digit. *)
Definition clean_cut (s : text) (pos : nat) : Prop :=
  (∃ a c, take pos s = a ++ [c] ∧ ¬ is_upper_hex c) ∨
  (∃ c b, drop pos s = c :: b ∧ ¬ is_upper_hex c).

Lemma count_sub_clean_cut (p s : text) (pos : nat) :
  hex_word p → clean_cut s pos →
  count_sub p (take pos s) + count_sub p (drop pos s) = count_sub p s.
Proof.
  intros Hp [(a & c & Ha & Hc)|(c & b & Hb & Hc)];
    rewrite <- (take_drop pos s) at 3.
  - rewrite Ha. by rewrite count_sub_app_l.
  - rewrite Hb. by rewrite count_sub_app_r.
Qed.

Lemma count_sub_insert_at (p new s : text) (pos : nat) :
  hex_word p → sealed new → clean_cut s pos →
  count_sub p (insert_at pos new s) = count_sub p s + count_sub p new.
Proof.
  intros Hp [(c & b & Hb & Hc) (b' & c' & Hb' & Hc')] Hcut.
  unfold insert_at.
  assert (new ++ drop pos s = c :: (b ++ drop pos s)) as Hcons
    by (by rewrite Hb).
  rewrite Hcons, (count_sub_app_r p _ _ c Hp Hc), <- Hcons.
  rewrite Hb' at 1. rewrite (count_sub_app_l p _ _ c' Hp Hc'), <- Hb'.
  rewrite <- (count_sub_clean_cut p s pos Hp Hcut). lia.
Qed.

Lemma matches_last (r : regex) (m : text) :
  matches r m →
  ∀ r0 l c, r = r0 ++ [Lit (l ++ [c])] → ∃ m', m = m' ++ [c].
Proof.
  induction 1 as [|p r s Hs IH|c' r x s Hx Hc Hs IH]; intros r0 l c Hr.
  - by destruct r0.
  - destruct r0 as [|i r0]; simpl in Hr.
    + injection Hr as Hp Hr'. subst p r. inversion Hs; subst.
      exists l. by rewrite app_nil_r.
    + injection Hr as _ ->. destruct (IH _ _ _ eq_refl) as [m' ->].
      exists (p ++ m'). by rewrite app_assoc.
  - destruct r0 as [|i r0]; simpl in Hr; [discriminate Hr |].
    injection Hr as _ ->. destruct (IH _ _ _ eq_refl) as [m' ->].
    exists (x ++ m'). by rewrite app_assoc.
Qed.

Lemma matches_head (c : ascii) (l : text) (r : regex) (m : text) :
  matches (Lit (c :: l) :: r) m → ∃ m', m = c :: m'.
Proof. inversion 1; subst. by eexists. Qed.

Lemma re_search_clean_end (r r0 : regex) (l : text) (c : ascii) (s : text)
    (a e : nat) :
  r = r0 ++ [Lit (l ++ [c])] → ¬ is_upper_hex c →
  re_search r s = Some (a, e) → clean_cut s e.
Proof.
  intros Hr Hc (Hae & He & Hm & _)%re_search_Some.
  destruct (matches_last _ _ Hm _ _ _ Hr) as [m' Hm'].
  left. exists (take a s ++ m'), c. split; [|done].
  rewrite <- app_assoc, <- Hm', take_take_drop. f_equal. lia.
Qed.

Lemma re_search_clean_start (r r' : regex) (l : text) (c : ascii) (s : text)
    (a e : nat) :
  r = Lit (c :: l) :: r' → ¬ is_upper_hex c →
  re_search r s = Some (a, e) → clean_cut s a.
Proof.
  intros -> Hc (Hae & He & Hm & _)%re_search_Some.
  destruct (matches_head _ _ _ _ Hm) as [m' Hm'].
  right. exists c, (m' ++ drop (e - a) (drop a s)). split; [|done].
  rewrite <- (take_drop (e - a) (drop a s)) at 1. by rewrite Hm'.
Qed.

Lemma count_sub_insert_after
    (p : text) (r r0 : regex) (l : text) (c : ascii) (new s : text) :
  hex_word p → sealed new →
  r = r0 ++ [Lit (l ++ [c])] → ¬ is_upper_hex c →
  count_sub p (insert_after r new s) =
  count_sub p s + sum_list (count_sub p <$> fired r s new).
Proof.
  intros Hp Hnew Hr Hc. unfold insert_after, fired.
  destruct (re_search r s) as [[a e]|] eqn:E; simpl; [|lia].
  rewrite count_sub_insert_at; [lia | done | done |].
  by eapply re_search_clean_end.
Qed.

Lemma count_sub_insert_before
    (p : text) (r r' : regex) (l : text) (c : ascii) (new s : text) :
  hex_word p → sealed new →
  r = Lit (c :: l) :: r' → ¬ is_upper_hex c →
  count_sub p (insert_before r new s) =
  count_sub p s + sum_list (count_sub p <$> fired r s new).
Proof.
  intros Hp Hnew Hr Hc. unfold insert_before, fired.
  destruct (re_search r s) as [[a e]|] eqn:E; simpl; [|lia].
  rewrite count_sub_insert_at; [lia | done | done |].
  by eapply re_search_clean_start.
Qed.

(** *** Blocks as fixed text around identifiers *)

Inductive piece : Type :=
  | Txt (t : text)
  | Id (i : text).

Fixpoint flatten (ps : list piece) : text :=
  match ps with
  | [] => []
  | Txt t :: ps' => t ++ flatten ps'
  | Id i :: ps' => i ++ flatten ps'
  end.

(** The first [n] characters of [s] are there and are hexadecimal digits. *)
Fixpoint all_hex_prefix (n : nat) (s : text) : bool :=
  match n with
  | 0 => true
  | S n' =>
      match s with
      | [] => false
      | c :: s' => is_upper_hex_b c && all_hex_prefix n' s'
      end
  end.

(** The number of positions of [s] where [n] hexadecimal digits start. *)
Fixpoint hex_windows (n : nat) (s : text) : nat :=
  match s with
  | [] => 0
  | _ :: s' => (if all_hex_prefix n s then 1 else 0) + hex_windows n s'
  end.

(** A fixed text between identifiers of [n] digits: it starts and ends
    with a character that is no digit and has no [n] digits in a row. *)
Definition sep_ok (n : nat) (t : text) : bool :=
  match t with
  | [] => false
  | c :: _ => negb (is_upper_hex_b c)
  end &&
  match last t with
  | Some c => negb (is_upper_hex_b c)
  | None => false
  end &&
  (hex_windows n t =? 0).

(** Every fixed text is a separator, and every identifier is followed by
    one. *)
Fixpoint wf_pieces (n : nat) (ps : list piece) : bool :=
  match ps with
  | [] => true
  | Txt t :: ps' => sep_ok n t && wf_pieces n ps'
  | Id _ :: ps' =>
      match ps' with
      | Txt _ :: _ => wf_pieces n ps'
      | _ => false
      end
  end.

Definition is_txt (p : option piece) : bool :=
  match p with
  | Some (Txt _) => true
  | _ => false
  end.

(** The identifiers among the pieces that are [p]. *)
Fixpoint id_hits (p : text) (ps : list piece) : nat :=
  match ps with
  | [] => 0
  | Txt _ :: ps' => id_hits p ps'
  | Id i :: ps' => (if decide (p = i) then 1 else 0) + id_hits p ps'
  end.

Definition ids_of_length (n : nat) (ps : list piece) : Prop :=
  Forall (λ p, match p with Id i => length i = n | Txt _ => True end) ps.

Lemma all_hex_prefix_starts_with (p s : text) :
  Forall is_upper_hex p → starts_with p s = true →
  all_hex_prefix (length p) s = true.
Proof.
  intros Hp. revert s. induction Hp as [|c p Hc _ IH]; intros s; [done |].
  destruct s as [|x s]; [done |]. simpl.
  intros [->%Ascii.eqb_eq H]%andb_true_iff.
  apply andb_true_iff. split; [by apply is_upper_hex_b_spec | by apply IH].
Qed.

Lemma count_sub_hex_windows (p s : text) :
  Forall is_upper_hex p → count_sub p s ≤ hex_windows (length p) s.
Proof.
  intros Hp. induction s as [|x s IH]; [done |]. cbn [count_sub hex_windows].
  destruct (starts_with p (x :: s)) eqn:E.
  - rewrite (all_hex_prefix_starts_with _ _ Hp E). lia.
  - destruct (all_hex_prefix (length p) (x :: s)); lia.
Qed.

Lemma sep_ok_spec (n : nat) (t : text) :
  sep_ok n t = true →
  sealed t ∧ hex_windows n t = 0.
Proof.
  unfold sep_ok. intros [[Hhead Hlast]%andb_true_iff Hwin%Nat.eqb_eq]%andb_true_iff.
  split; [|done]. split.
  - destruct t as [|c t]; [done |]. exists c, t. split; [done |].
    intros H%is_upper_hex_b_spec. by rewrite H in Hhead.
  - destruct (last t) as [c|] eqn:E; [|done].
    apply last_Some in E as [t' ->]. exists t', c. split; [done |].
    intros H%is_upper_hex_b_spec. by rewrite H in Hlast.
Qed.

Lemma count_sub_flatten (p : text) (ps : list piece) :
  hex_word p → wf_pieces (length p) ps = true →
  ids_of_length (length p) ps →
  count_sub p (flatten ps) = id_hits p ps.
Proof.
  intros Hp. induction ps as [|[t|i] ps IH]; intros Hwf Hids; [done | |].
  - simpl in Hwf. apply andb_true_iff in Hwf as [Ht Hwf].
    apply sep_ok_spec in Ht as [[_ (t' & c & -> & Hc)] Hwin].
    simpl. rewrite (count_sub_app_l p _ _ c Hp Hc).
    rewrite IH; [|done | by inversion Hids].
    pose proof (count_sub_hex_windows p (t' ++ [c]) (proj2 Hp)). lia.
  - simpl in Hwf. destruct ps as [|[t|j] ps]; [done | |done].
    inversion Hids as [|? ? Hlen Hids']; subst.
    specialize (IH Hwf Hids').
    pose proof Hwf as Hwf'. simpl in Hwf'.
    apply andb_true_iff in Hwf' as [Ht _].
    apply sep_ok_spec in Ht as [[(c & t' & -> & Hc) _] _].
    cbn [flatten id_hits] in *. cbn [app] in *.
    rewrite (count_sub_app_r p _ _ c Hp Hc), IH.
    rewrite count_sub_same_length; [done | apply Hp | done].
Qed.

Lemma flatten_app (ps qs : list piece) :
  flatten (ps ++ qs) = flatten ps ++ flatten qs.
Proof.
  induction ps as [|[t|i] ps IH]; simpl; [done | |]; by rewrite IH, app_assoc.
Qed.

Lemma wf_pieces_app_r (n : nat) (ps qs : list piece) :
  wf_pieces n (ps ++ qs) = true → wf_pieces n qs = true.
Proof.
  induction ps as [|[t|i] ps IH]; simpl; [done | |].
  - intros [_ H]%andb_true_iff. by apply IH.
  - destruct (ps ++ qs) as [|[t|j] l] eqn:E; [done | |done].
    intros H. by apply IH.
Qed.

Lemma sealed_flatten (n : nat) (ps : list piece) :
  wf_pieces n ps = true →
  is_txt (head ps) = true → is_txt (last ps) = true →
  sealed (flatten ps).
Proof.
  intros Hwf Hhead Hlast. split.
  - destruct ps as [|[t|i] ps]; [done | |done]. simpl in Hwf.
    apply andb_true_iff in Hwf as [Ht _].
    apply sep_ok_spec in Ht as [[(c & t' & -> & Hc) _] _].
    exists c, (t' ++ flatten ps). by split.
  - destruct (last ps) as [[t|i]|] eqn:E; [|done..].
    apply last_Some in E as [ps' ->].
    apply wf_pieces_app_r in Hwf. simpl in Hwf.
    apply andb_true_iff in Hwf as [Ht _].
    apply sep_ok_spec in Ht as [[_ (t' & c & -> & Hc)] _].
    exists (flatten ps' ++ t'), c. split; [|done].
    rewrite flatten_app. simpl. by rewrite app_nil_r, app_assoc.
Qed.

(** The blocks, cut at their identifiers. *)

Definition one_id_pieces (tabs : nat) (id rest : text) : list piece :=
  [Txt (repeat tab tabs); Id id; Txt rest].

Definition test_file_ref_pieces (test_product_id : text) : list piece :=
  one_id_pieces 2 test_product_id
    (lit " /* PaykitDemoTests.xctest */ = {isa = PBXFileReference; explicitFileType = wrapper.cfbundle; includeInIndex = 0; path = PaykitDemoTests.xctest; sourceTree = BUILT_PRODUCTS_DIR; };" ++ [nl]).

Definition test_group_ref_pieces (test_group_id : text) : list piece :=
  one_id_pieces 4 test_group_id (lit " /* PaykitDemoTests */," ++ [nl]).

Definition test_group_def_pieces (test_group_id : text) : list piece :=
  one_id_pieces 2 test_group_id
    (lit " /* PaykitDemoTests */ = {" ++ [nl] ++
     ln 3 (lit "isa = PBXGroup;") ++
     ln 3 (lit "children = (") ++
     ln 3 (lit ");") ++
     ln 3 (lit "path = PaykitDemoTests;") ++
     ln 3 (lit "sourceTree = " ++ quoted "<group>" ++ lit ";") ++
     ln 2 (lit "};")).

Definition test_product_ref_pieces (test_product_id : text) : list piece :=
  one_id_pieces 4 test_product_id
    (lit " /* PaykitDemoTests.xctest */," ++ [nl]).

Definition test_sources_phase_pieces (test_sources_phase_id : text)
    : list piece :=
  one_id_pieces 2 test_sources_phase_id
    (lit " /* Sources */ = {" ++ [nl] ++
     ln 3 (lit "isa = PBXSourcesBuildPhase;") ++
     ln 3 (lit "buildActionMask = 2147483647;") ++
     ln 3 (lit "files = (") ++
     ln 3 (lit ");") ++
     ln 3 (lit "runOnlyForDeploymentPostprocessing = 0;") ++
     ln 2 (lit "};")).

Definition test_frameworks_phase_pieces (test_frameworks_phase_id : text)
    : list piece :=
  one_id_pieces 2 test_frameworks_phase_id
    (lit " /* Frameworks */ = {" ++ [nl] ++
     ln 3 (lit "isa = PBXFrameworksBuildPhase;") ++
     ln 3 (lit "buildActionMask = 2147483647;") ++
     ln 3 (lit "files = (") ++
     ln 3 (lit ");") ++
     ln 3 (lit "runOnlyForDeploymentPostprocessing = 0;") ++
     ln 2 (lit "};")).

Definition test_target_pieces
    (test_target_id test_build_config_list_id test_sources_phase_id
     test_frameworks_phase_id dependency_id test_product_id : text)
    : list piece :=
  [Txt (repeat tab 2);
   Id test_target_id;
   Txt (lit " /* PaykitDemoTests */ = {" ++ [nl] ++
        ln 3 (lit "isa = PBXNativeTarget;") ++
        repeat tab 3 ++ lit "buildConfigurationList = ");
   Id test_build_config_list_id;
   Txt (lit " /* Build configuration list for PBXNativeTarget " ++
        quoted "PaykitDemoTests" ++ lit " */;" ++ [nl] ++
        ln 3 (lit "buildPhases = (") ++
        repeat tab 4);
   Id test_sources_phase_id;
   Txt (lit " /* Sources */," ++ [nl] ++ repeat tab 4);
   Id test_frameworks_phase_id;
   Txt (lit " /* Frameworks */," ++ [nl] ++
        ln 3 (lit ");") ++
        ln 3 (lit "buildRules = (") ++
        ln 3 (lit ");") ++
        ln 3 (lit "dependencies = (") ++
        repeat tab 4);
   Id dependency_id;
   Txt (lit " /* PBXTargetDependency */," ++ [nl] ++
        ln 3 (lit ");") ++
        ln 3 (lit "name = PaykitDemoTests;") ++
        ln 3 (lit "packageProductDependencies = (") ++
        ln 3 (lit ");") ++
        ln 3 (lit "productName = PaykitDemoTests;") ++
        repeat tab 3 ++ lit "productReference = ");
   Id test_product_id;
   Txt (lit " /* PaykitDemoTests.xctest */;" ++ [nl] ++
        ln 3 (lit "productType = " ++
              quoted "com.apple.product-type.bundle.unit-test" ++ lit ";") ++
        ln 2 (lit "};"))].

Definition test_target_ref_pieces (test_target_id : text) : list piece :=
  one_id_pieces 4 test_target_id (lit " /* PaykitDemoTests */," ++ [nl]).

Definition test_debug_config_pieces
    (test_debug_config_id test_release_config_id
     test_build_config_list_id : text) : list piece :=
  [Txt (repeat tab 2);
   Id test_debug_config_id;
   Txt (lit " /* Debug */ = {" ++ [nl] ++
        build_settings_head ++
        ln 5 (quoted "@loader_path/Frameworks" ++ lit ",") ++
        ln 4 (lit ");") ++
        build_settings_tail ++
        ln 3 (lit "name = Debug;") ++
        ln 2 (lit "};") ++
        repeat tab 2);
   Id test_release_config_id;
   Txt (lit " /* Release */ = {" ++ [nl] ++
        build_settings_head ++
        ln 4 (quoted "@loader_path/Frameworks" ++ lit ",") ++
        ln 3 (lit ");") ++
        build_settings_tail ++
        ln 3 (lit "name = Release;") ++
        ln 2 (lit "};") ++
        repeat tab 2);
   Id test_build_config_list_id;
   Txt (lit " /* Build configuration list for PBXNativeTarget " ++
        quoted "PaykitDemoTests" ++ lit " */ = {" ++ [nl] ++
        ln 3 (lit "isa = XCConfigurationList;") ++
        ln 3 (lit "buildConfigurations = (") ++
        repeat tab 4);
   Id test_debug_config_id;
   Txt (lit " /* Debug */," ++ [nl] ++ repeat tab 4);
   Id test_release_config_id;
   Txt (lit " /* Release */," ++ [nl] ++
        ln 3 (lit ");") ++
        ln 3 (lit "defaultConfigurationIsVisible = 0;") ++
        ln 3 (lit "defaultConfigurationName = Release;") ++
        ln 2 (lit "};"))].

(** The main target's identifier, which the attributes block names. *)
Definition main_target_id : text := lit "5224F5F42EED89A600A4DEB4".

Definition test_target_attrs_pieces (test_target_id : text) : list piece :=
  [Txt (repeat tab 4);
   Id test_target_id;
   Txt (lit " = {" ++ [nl] ++
        ln 5 (lit "CreatedOnToolsVersion = 26.1.1;") ++
        repeat tab 5 ++ lit "TestTargetID = ");
   Id main_target_id;
   Txt (lit ";" ++ [nl] ++ ln 4 (lit "};"))].

(** Both sides are the same characters around the same identifiers. *)
Ltac same_text :=
  cbv [flatten one_id_pieces ln quoted build_settings_head build_settings_tail
       main_target_id];
  repeat (simpl; rewrite <- ?app_assoc);
  rewrite ?app_nil_r; reflexivity.

Lemma test_file_ref_flat (a : text) :
  test_file_ref a = flatten (test_file_ref_pieces a).
Proof. unfold test_file_ref, test_file_ref_pieces. same_text. Qed.

Lemma test_group_ref_flat (a : text) :
  test_group_ref a = flatten (test_group_ref_pieces a).
Proof. unfold test_group_ref, test_group_ref_pieces. same_text. Qed.

Lemma test_group_def_flat (a : text) :
  test_group_def a = flatten (test_group_def_pieces a).
Proof. unfold test_group_def, test_group_def_pieces. same_text. Qed.

Lemma test_product_ref_flat (a : text) :
  test_product_ref a = flatten (test_product_ref_pieces a).
Proof. unfold test_product_ref, test_product_ref_pieces. same_text. Qed.

Lemma test_sources_phase_flat (a : text) :
  test_sources_phase a = flatten (test_sources_phase_pieces a).
Proof. unfold test_sources_phase, test_sources_phase_pieces. same_text. Qed.

Lemma test_frameworks_phase_flat (a : text) :
  test_frameworks_phase a = flatten (test_frameworks_phase_pieces a).
Proof.
  unfold test_frameworks_phase, test_frameworks_phase_pieces. same_text.
Qed.

Lemma test_target_flat (a b c d e f : text) :
  test_target a b c d e f = flatten (test_target_pieces a b c d e f).
Proof. unfold test_target, test_target_pieces. same_text. Qed.

Lemma test_target_ref_flat (a : text) :
  test_target_ref a = flatten (test_target_ref_pieces a).
Proof. unfold test_target_ref, test_target_ref_pieces. same_text. Qed.

Lemma test_debug_config_flat (a b c : text) :
  test_debug_config a b c = flatten (test_debug_config_pieces a b c).
Proof. unfold test_debug_config, test_debug_config_pieces. same_text. Qed.

Lemma test_target_attrs_flat (a : text) :
  test_target_attrs a = flatten (test_target_attrs_pieces a).
Proof. unfold test_target_attrs, test_target_attrs_pieces. same_text. Qed.

(** *** Every edit cuts at a character that is no digit *)

(** [r] ends with a literal whose last character is no hexadecimal digit. *)
Definition ends_non_hex (r : regex) : bool :=
  match last r with
  | Some (Lit t) =>
      match last t with
      | Some c => negb (is_upper_hex_b c)
      | None => false
      end
  | _ => false
  end.

(** [r] starts with a literal whose first character is no hexadecimal
    digit. *)
Definition starts_non_hex (r : regex) : bool :=
  match r with
  | Lit (c :: _) :: _ => negb (is_upper_hex_b c)
  | _ => false
  end.

Lemma ends_non_hex_spec (r : regex) :
  ends_non_hex r = true →
  ∃ r0 l c, r = r0 ++ [Lit (l ++ [c])] ∧ ¬ is_upper_hex c.
Proof.
  unfold ends_non_hex. destruct (last r) as [[t|c]|] eqn:Er; [|done..].
  destruct (last t) as [c|] eqn:Et; [|done].
  apply last_Some in Er as [r0 ->]. apply last_Some in Et as [l ->].
  intros H. exists r0, l, c. split; [done |].
  intros Hc%is_upper_hex_b_spec. by rewrite Hc in H.
Qed.

Lemma starts_non_hex_spec (r : regex) :
  starts_non_hex r = true →
  ∃ c l r', r = Lit (c :: l) :: r' ∧ ¬ is_upper_hex c.
Proof.
  destruct r as [|[[|c l]|c] r']; [done.. | | done]. simpl.
  intros H. exists c, l, r'. split; [done |].
  intros Hc%is_upper_hex_b_spec. by rewrite Hc in H.
Qed.

Lemma count_sub_after (p : text) (r : regex) (new s : text) :
  hex_word p → sealed new → ends_non_hex r = true →
  count_sub p (insert_after r new s) =
  count_sub p s + sum_list (count_sub p <$> fired r s new).
Proof.
  intros Hp Hnew (r0 & l & c & Hr & Hc)%ends_non_hex_spec.
  by eapply count_sub_insert_after.
Qed.

Lemma count_sub_before (p : text) (r : regex) (new s : text) :
  hex_word p → sealed new → starts_non_hex r = true →
  count_sub p (insert_before r new s) =
  count_sub p s + sum_list (count_sub p <$> fired r s new).
Proof.
  intros Hp Hnew (c & l & r' & Hr & Hc)%starts_non_hex_spec.
  by eapply count_sub_insert_before.
Qed.

(** The blocks are sealed. *)
Lemma sealed_pieces (b : text) (ps : list piece) :
  b = flatten ps →
  wf_pieces 24 ps && is_txt (head ps) && is_txt (last ps) = true →
  sealed b.
Proof.
  intros -> [[Hwf Hhead]%andb_true_iff Hlast]%andb_true_iff.
  by apply sealed_flatten with 24.
Qed.

Lemma test_file_ref_sealed (a : text) : sealed (test_file_ref a).
Proof. by apply (sealed_pieces _ _ (test_file_ref_flat a)). Qed.

Lemma test_group_ref_sealed (a : text) : sealed (test_group_ref a).
Proof. by apply (sealed_pieces _ _ (test_group_ref_flat a)). Qed.

Lemma test_group_def_sealed (a : text) : sealed (test_group_def a).
Proof. by apply (sealed_pieces _ _ (test_group_def_flat a)). Qed.

Lemma test_product_ref_sealed (a : text) : sealed (test_product_ref a).
Proof. by apply (sealed_pieces _ _ (test_product_ref_flat a)). Qed.

Lemma test_sources_phase_sealed (a : text) : sealed (test_sources_phase a).
Proof. by apply (sealed_pieces _ _ (test_sources_phase_flat a)). Qed.

Lemma test_frameworks_phase_sealed (a : text) :
  sealed (test_frameworks_phase a).
Proof. by apply (sealed_pieces _ _ (test_frameworks_phase_flat a)). Qed.

Lemma test_target_sealed (a b c d e f : text) :
  sealed (test_target a b c d e f).
Proof. by apply (sealed_pieces _ _ (test_target_flat a b c d e f)). Qed.

Lemma test_target_ref_sealed (a : text) : sealed (test_target_ref a).
Proof. by apply (sealed_pieces _ _ (test_target_ref_flat a)). Qed.

Lemma test_debug_config_sealed (a b c : text) :
  sealed (test_debug_config a b c).
Proof. by apply (sealed_pieces _ _ (test_debug_config_flat a b c)). Qed.

Lemma test_target_attrs_sealed (a : text) : sealed (test_target_attrs a).
Proof. by apply (sealed_pieces _ _ (test_target_attrs_flat a)). Qed.

(** The occurrences of an identifier in what a run writes: those in the
    project file that no insertion split, and those in the inserted
    blocks. *)
Lemma count_sub_add_group (p id s : text) :
  hex_word p →
  count_sub p (add_group id s) =
  count_sub p s + sum_list (count_sub p <$> group_blocks id s).
Proof.
  intros Hp. unfold add_group, group_blocks.
  destruct (re_search group_section_pat s); [|simpl; lia].
  rewrite count_sub_before; [|done | apply test_group_def_sealed | done].
  rewrite count_sub_after; [|done | apply test_group_ref_sealed | done].
  rewrite fmap_app, sum_list_with_app. lia.
Qed.

Lemma count_sub_edits (p : text) (w : world) (content : text) (m : nat * nat) :
  hex_word p →
  re_search main_target_pat content = Some m →
  count_sub p (after_target_attrs w content) =
  count_sub p content +
  sum_list (count_sub p <$> inserted_blocks w content).
Proof.
  intros Hp Hm. unfold inserted_blocks. rewrite Hm.
  rewrite !fmap_app, !sum_list_with_app.
  unfold after_target_attrs, add_target_attrs.
  rewrite count_sub_after; [|done | apply test_target_attrs_sealed | done].
  unfold after_build_configs at 1, add_build_configs.
  rewrite count_sub_before; [|done | apply test_debug_config_sealed | done].
  unfold after_target_ref at 1, add_target_ref.
  rewrite count_sub_after; [|done | apply test_target_ref_sealed | done].
  unfold after_native_target at 1.
  rewrite count_sub_before; [|done | apply test_target_sealed | done].
  unfold after_frameworks_phase at 1, add_frameworks_phase.
  rewrite count_sub_before;
    [|done | apply test_frameworks_phase_sealed | done].
  unfold after_sources_phase at 1, add_sources_phase.
  rewrite count_sub_before; [|done | apply test_sources_phase_sealed | done].
  unfold after_product_ref at 1, add_product_ref.
  rewrite count_sub_after; [|done | apply test_product_ref_sealed | done].
  unfold after_group at 1. rewrite count_sub_add_group by done.
  unfold after_file_ref at 1, add_file_ref.
  rewrite count_sub_after; [|done | apply test_file_ref_sealed | done].
  lia.
Qed.

(** *** The identifiers in each block *)

Lemma count_sub_pieces (p b : text) (ps : list piece) :
  hex_word p → length p = 24 →
  b = flatten ps → wf_pieces 24 ps = true → ids_of_length 24 ps →
  count_sub p b = id_hits p ps.
Proof.
  intros Hp Hlen -> Hwf Hids. apply count_sub_flatten; by rewrite ?Hlen.
Qed.

Lemma one_id_count (p : text) (tabs : nat) (id rest b : text) :
  hex_word p → length p = 24 → length id = 24 →
  b = flatten (one_id_pieces tabs id rest) →
  wf_pieces 24 (one_id_pieces tabs id rest) = true →
  p ≠ id → count_sub p b = 0.
Proof.
  intros Hp Hlen Hid Hb Hwf Hne.
  rewrite (count_sub_pieces p b _ Hp Hlen Hb Hwf).
  - simpl. by rewrite decide_False.
  - unfold one_id_pieces. by repeat constructor.
Qed.

Lemma fired_count_zero (p : text) (r : regex) (s new : text) :
  count_sub p new = 0 → sum_list (count_sub p <$> fired r s new) = 0.
Proof. intros H. unfold fired. destruct (re_search r s); simpl; lia. Qed.

Lemma fired_Forall (P : text → Prop) (r : regex) (s new : text) :
  P new → Forall P (fired r s new).
Proof. intros H. unfold fired. destruct (re_search r s); by repeat constructor. Qed.

Section Dependency.
Variable w : world.
Variable content : text.

Let dependency_id : text := nth_id w 8.

Hypothesis fresh_in_content : ¬ occurs dependency_id content.
Hypothesis fresh_among_ids : ∀ k, k < 8 → nth_id w k ≠ dependency_id.
Hypothesis main_target :
  occurs (lit "5224F5F42EED89A600A4DEB4 /* PaykitDemo */") content.

Lemma dependency_id_hex_word : hex_word dependency_id.
Proof.
  split; [|apply nth_id_hex].
  intros H. pose proof (nth_id_length w 8) as Hlen.
  unfold dependency_id in H. rewrite H in Hlen. done.
Qed.

Lemma dependency_id_other (k : nat) : k < 8 → dependency_id ≠ nth_id w k.
Proof. intros Hk H. by apply (fresh_among_ids k Hk). Qed.

Lemma dependency_id_not_main : dependency_id ≠ main_target_id.
Proof.
  intros H. apply fresh_in_content. destruct main_target as (pre & post & ->).
  exists pre, (lit " /* PaykitDemo */" ++ post). rewrite H.
  by rewrite (app_assoc main_target_id).
Qed.

Lemma dependency_count_one_id (tabs k : nat) (rest b : text) :
  k < 8 →
  b = flatten (one_id_pieces tabs (nth_id w k) rest) →
  wf_pieces 24 (one_id_pieces tabs (nth_id w k) rest) = true →
  count_sub dependency_id b = 0.
Proof.
  intros Hk Hb Hwf.
  apply (one_id_count dependency_id tabs (nth_id w k) rest b);
    [apply dependency_id_hex_word | apply nth_id_length | apply nth_id_length
    | done | done | by apply dependency_id_other].
Qed.

(** The other identifiers are not the dependency identifier. *)
Ltac other_ids :=
  repeat match goal with
  | |- context [decide (dependency_id = nth_id w ?k)] =>
      rewrite (decide_False (P := dependency_id = nth_id w k))
        by (apply dependency_id_other; lia)
  end.

Lemma dependency_count_debug_config :
  count_sub dependency_id
    (test_debug_config (nth_id w 5) (nth_id w 6) (nth_id w 4)) = 0.
Proof.
  rewrite (count_sub_pieces _ _ _ dependency_id_hex_word (nth_id_length w 8)
             (test_debug_config_flat _ _ _) eq_refl).
  - simpl. by other_ids.
  - repeat constructor; apply nth_id_length.
Qed.

Lemma dependency_count_target_attrs :
  count_sub dependency_id (test_target_attrs (nth_id w 0)) = 0.
Proof.
  rewrite (count_sub_pieces _ _ _ dependency_id_hex_word (nth_id_length w 8)
             (test_target_attrs_flat _) eq_refl).
  - simpl. other_ids.
    by rewrite decide_False by apply dependency_id_not_main.
  - repeat constructor; apply nth_id_length.
Qed.

Lemma dependency_count_target :
  count_sub dependency_id
    (test_target (nth_id w 0) (nth_id w 4) (nth_id w 2) (nth_id w 3)
       dependency_id (nth_id w 1)) = 1.
Proof.
  rewrite (count_sub_pieces _ _ _ dependency_id_hex_word (nth_id_length w 8)
             (test_target_flat _ _ _ _ _ _) eq_refl).
  - simpl. other_ids. by rewrite decide_True.
  - repeat constructor; apply nth_id_length.
Qed.

(** Every inserted block but the native target has no occurrence of the
    dependency identifier. *)
Lemma dependency_in_blocks :
  Forall (λ b,
            b = test_target (nth_id w 0) (nth_id w 4) (nth_id w 2)
                  (nth_id w 3) dependency_id (nth_id w 1) ∨
            count_sub dependency_id b = 0)
    (inserted_blocks w content).
Proof.
  unfold inserted_blocks.
  destruct (re_search main_target_pat content); [|constructor].
  repeat apply Forall_app_2; try apply fired_Forall.
  - right. by apply (dependency_count_one_id _ 1 _ _ ltac:(lia)
                       (test_file_ref_flat _)).
  - unfold group_blocks.
    destruct (re_search group_section_pat _); [|constructor].
    apply Forall_app_2; apply fired_Forall; right.
    + by apply (dependency_count_one_id _ 7 _ _ ltac:(lia)
                  (test_group_ref_flat _)).
    + by apply (dependency_count_one_id _ 7 _ _ ltac:(lia)
                  (test_group_def_flat _)).
  - right. by apply (dependency_count_one_id _ 1 _ _ ltac:(lia)
                       (test_product_ref_flat _)).
  - right. by apply (dependency_count_one_id _ 2 _ _ ltac:(lia)
                       (test_sources_phase_flat _)).
  - right. by apply (dependency_count_one_id _ 3 _ _ ltac:(lia)
                       (test_frameworks_phase_flat _)).
  - by left.
  - right. by apply (dependency_count_one_id _ 0 _ _ ltac:(lia)
                       (test_target_ref_flat _)).
  - right. apply dependency_count_debug_config.
  - right. apply dependency_count_target_attrs.
Qed.

Lemma dependency_count_blocks :
  has_match native_target_end_pat (after_frameworks_phase w content) →
  sum_list (count_sub dependency_id <$> inserted_blocks w content) = 1.
Proof.
  intros [m Hnative]%re_search_is_Some.
  pose proof main_target as [m' Hm]%has_match_lit%re_search_is_Some.
  unfold inserted_blocks.
  change (re_search main_target_pat content = Some m') in Hm. rewrite Hm.
  rewrite !fmap_app, !sum_list_with_app.
  rewrite (fired_count_zero _ file_ref_section_pat)
    by (by apply (dependency_count_one_id _ 1 _ _ ltac:(lia)
                    (test_file_ref_flat _))).
  rewrite (fired_count_zero _ products_group_pat)
    by (by apply (dependency_count_one_id _ 1 _ _ ltac:(lia)
                    (test_product_ref_flat _))).
  rewrite (fired_count_zero _ sources_phase_end_pat)
    by (by apply (dependency_count_one_id _ 2 _ _ ltac:(lia)
                    (test_sources_phase_flat _))).
  rewrite (fired_count_zero _ frameworks_phase_end_pat)
    by (by apply (dependency_count_one_id _ 3 _ _ ltac:(lia)
                    (test_frameworks_phase_flat _))).
  rewrite (fired_count_zero _ targets_pat)
    by (by apply (dependency_count_one_id _ 0 _ _ ltac:(lia)
                    (test_target_ref_flat _))).
  rewrite (fired_count_zero _ config_list_end_pat)
    by apply dependency_count_debug_config.
  rewrite (fired_count_zero _ target_attrs_pat)
    by apply dependency_count_target_attrs.
  assert (sum_list (count_sub dependency_id <$>
                      group_blocks (nth_id w 7) (after_file_ref w content)) = 0)
    as ->.
  { unfold group_blocks.
    destruct (re_search group_section_pat _); [|done].
    rewrite fmap_app, sum_list_with_app.
    rewrite (fired_count_zero _ main_group_pat)
      by (by apply (dependency_count_one_id _ 7 _ _ ltac:(lia)
                      (test_group_ref_flat _))).
    by rewrite (fired_count_zero _ group_end_pat)
      by (by apply (dependency_count_one_id _ 7 _ _ ltac:(lia)
                      (test_group_def_flat _))). }
  unfold fired at 1. rewrite Hnative.
  assert (∀ b, sum_list (count_sub dependency_id <$> [b]) =
               count_sub dependency_id b) as ->
    by (intros b; cbn [fmap list_fmap sum_list_with]; unfold id; lia).
  fold dependency_id. rewrite dependency_count_target. lia.
Qed.

Lemma dependency_count_written :
  has_match native_target_end_pat (after_frameworks_phase w content) →
  count_sub dependency_id (after_target_attrs w content) = 1.
Proof.
  intros Hnative.
  pose proof main_target as [m Hm]%has_match_lit%re_search_is_Some.
  rewrite (count_sub_edits _ _ _ m dependency_id_hex_word Hm).
  rewrite (dependency_count_blocks Hnative).
  apply count_sub_zero in fresh_in_content; [lia |].
  apply dependency_id_hex_word.
Qed.
End Dependency.

(** ** Inserted text that later edits do not cut

    A text with identifiers in it is abstracted to its fixed characters,
    with [None] at the positions of the identifiers' digits. *)

Abbreviation shape := (list (option ascii)).

Definition fits (o : option ascii) (c : ascii) : Prop :=
  match o with
  | Some x => c = x
  | None => is_upper_hex c
  end.

Definition may_be (o : option ascii) (c : ascii) : bool :=
  match o with
  | Some x => Ascii.eqb c x
  | None => is_upper_hex_b c
  end.

Fixpoint shape_of (n : nat) (ps : list piece) : shape :=
  match ps with
  | [] => []
  | Txt t :: ps' => map Some t ++ shape_of n ps'
  | Id _ :: ps' => repeat None n ++ shape_of n ps'
  end.

(** The identifiers have [n] hexadecimal digits. *)
Definition ids_hex (n : nat) (ps : list piece) : Prop :=
  Forall (λ p, match p with
               | Id i => length i = n ∧ Forall is_upper_hex i
               | Txt _ => True
               end) ps.

(** [l] can start a text of shape [a], as far as [a] reaches. *)
Fixpoint may_start (l : text) (a : shape) : bool :=
  match l, a with
  | [], _ => true
  | _ :: _, [] => true
  | c :: l', o :: a' => may_be o c && may_start l' a'
  end.

(** No match of the literal [l] starts inside a text of shape [a]. *)
Definition no_cut_before (l : text) (a : shape) : bool :=
  forallb (λ k, negb (may_start l (drop k a))) (seq 1 (length a - 1)).

(** No match of the literal [l] ends inside a text of shape [a]. *)
Definition no_cut_after (l : text) (a : shape) : bool :=
  forallb (λ k, negb (may_start (reverse l) (reverse (take k a))))
    (seq 1 (length a - 1)).

Lemma shape_of_fits (n : nat) (ps : list piece) :
  ids_hex n ps → Forall2 fits (shape_of n ps) (flatten ps).
Proof.
  induction 1 as [|[t|i] ps Hp _ IH]; simpl; [constructor | |].
  - apply Forall2_app; [|done].
    apply Forall2_fmap_l, Forall_Forall2_diag, Forall_true. by intros c.
  - destruct Hp as [<- Hhex]. apply Forall2_app; [|done].
    clear IH. induction Hhex; simpl; by constructor.
Qed.

Lemma may_start_sound (l : text) (a : shape) (x v : text) :
  Forall2 fits a x → starts_with l (x ++ v) = true → may_start l a = true.
Proof.
  intros Hfit. revert l. induction Hfit as [|o c a x Hoc _ IH]; intros l.
  - by destruct l.
  - destruct l as [|c' l]; [done |]. simpl.
    intros [->%Ascii.eqb_eq Hl]%andb_true_iff.
    apply andb_true_iff. split; [|by apply IH].
    destruct o as [y|]; simpl in *.
    + subst. apply Ascii.eqb_refl.
    + by apply is_upper_hex_b_spec.
Qed.

Lemma no_cut_before_sound (l : text) (a : shape) (x u v : text) (pos : nat) :
  Forall2 fits a x → no_cut_before l a = true →
  starts_with l (drop pos (u ++ x ++ v)) = true →
  pos ≤ length u ∨ length u + length x ≤ pos.
Proof.
  intros Hfit Hno Hl.
  destruct (decide (pos ≤ length u)) as [|Hlt]; [by left |].
  destruct (decide (length u + length x ≤ pos)) as [|Hgt]; [by right |].
  exfalso. unfold no_cut_before in Hno. rewrite forallb_forall in Hno.
  pose proof (Forall2_length _ _ _ Hfit) as Hlen.
  specialize (Hno (pos - length u)).
  rewrite negb_true_iff in Hno.
  rewrite (may_start_sound l (drop (pos - length u) a)
             (drop (pos - length u) x) v) in Hno.
  - discriminate Hno. apply in_seq. lia.
  - by apply Forall2_drop.
  - rewrite drop_app_ge in Hl by lia.
    rewrite drop_app_le in Hl by lia. done.
Qed.

Lemma starts_with_reverse_suffix (l t s : text) :
  s = t ++ l → starts_with (reverse l) (reverse s) = true.
Proof. intros ->. rewrite reverse_app. apply starts_with_app. Qed.

Lemma no_cut_after_sound
    (l : text) (a : shape) (x u v t : text) (pos : nat) :
  Forall2 fits a x → no_cut_after l a = true →
  take pos (u ++ x ++ v) = t ++ l →
  pos ≤ length u ∨ length u + length x ≤ pos.
Proof.
  intros Hfit Hno Hl.
  destruct (decide (pos ≤ length u)) as [|Hlt]; [by left |].
  destruct (decide (length u + length x ≤ pos)) as [|Hgt]; [by right |].
  exfalso. unfold no_cut_after in Hno. rewrite forallb_forall in Hno.
  pose proof (Forall2_length _ _ _ Hfit) as Hlen.
  specialize (Hno (pos - length u)).
  rewrite negb_true_iff in Hno.
  rewrite (may_start_sound (reverse l) (reverse (take (pos - length u) a))
             (reverse (take (pos - length u) x)) (reverse u)) in Hno.
  - discriminate Hno. apply in_seq. lia.
  - by apply Forall2_reverse, Forall2_take.
  - rewrite take_app_ge in Hl by lia.
    rewrite take_app_le in Hl by lia.
    rewrite <- reverse_app. by apply starts_with_reverse_suffix with t.
Qed.

Lemma occurs_insert_at (x s new : text) (pos : nat) :
  (∀ u v, s = u ++ x ++ v → pos ≤ length u ∨ length u + length x ≤ pos) →
  occurs x s → occurs x (insert_at pos new s).
Proof.
  intros Hcut (u & v & ->). unfold insert_at.
  destruct (Hcut u v eq_refl) as [Hle|Hge].
  - exists (take pos u ++ new ++ drop pos u), v.
    rewrite take_app_le, drop_app_le by done. by rewrite <- !app_assoc.
  - exists u, (take (pos - length u - length x) v ++ new ++
               drop (pos - length u - length x) v).
    rewrite (app_assoc u x v).
    rewrite take_app_ge, drop_app_ge by (rewrite length_app; lia).
    rewrite length_app.
    replace (pos - (length u + length x)) with (pos - length u - length x)
      by lia.
    by rewrite <- !app_assoc.
Qed.

(** The last literal of a pattern, and its first. *)
Definition last_lit (r : regex) : text :=
  match last r with
  | Some (Lit t) => t
  | _ => []
  end.

Definition first_lit (r : regex) : text :=
  match r with
  | Lit t :: _ => t
  | _ => []
  end.

Lemma matches_last_lit (r : regex) (m : text) :
  matches r m → ∃ t, m = t ++ last_lit r.
Proof.
  unfold last_lit.
  induction 1 as [|p r s Hs IH|c r x s Hx Hc Hs IH].
  - by exists [].
  - destruct r as [|i r].
    + inversion Hs; subst. exists []. by rewrite app_nil_r.
    + destruct IH as [t Ht]. exists (p ++ t). rewrite <- app_assoc.
      f_equal. exact Ht.
  - destruct r as [|i r].
    + exists (x ++ s). by rewrite app_nil_r.
    + destruct IH as [t Ht]. exists (x ++ t). rewrite <- app_assoc.
      f_equal. exact Ht.
Qed.

Lemma matches_first_lit (r : regex) (m : text) :
  matches r m → ∃ t, m = first_lit r ++ t.
Proof. unfold first_lit. destruct 1; by eexists. Qed.

Lemma occurs_insert_after (x : text) (a : shape) (r : regex) (new s : text) :
  Forall2 fits a x → no_cut_after (last_lit r) a = true →
  occurs x s → occurs x (insert_after r new s).
Proof.
  intros Hfit Hno Hx. unfold insert_after.
  destruct (re_search r s) as [[b e]|] eqn:E; [|done].
  apply occurs_insert_at; [|done]. intros u v ->.
  apply re_search_Some in E as (Hbe & He & Hm & _).
  destruct (matches_last_lit _ _ Hm) as [t Ht].
  apply (no_cut_after_sound (last_lit r) a x u v
           (take b (u ++ x ++ v) ++ t)); [done | done |].
  rewrite <- app_assoc, <- Ht, take_take_drop. f_equal. lia.
Qed.

Lemma occurs_insert_before (x : text) (a : shape) (r : regex) (new s : text) :
  Forall2 fits a x → no_cut_before (first_lit r) a = true →
  occurs x s → occurs x (insert_before r new s).
Proof.
  intros Hfit Hno Hx. unfold insert_before.
  destruct (re_search r s) as [[b e]|] eqn:E; [|done].
  apply occurs_insert_at; [|done]. intros u v ->.
  apply re_search_Some in E as (Hbe & He & Hm & _).
  destruct (matches_first_lit _ _ Hm) as [t Ht].
  apply (no_cut_before_sound (first_lit r) a x u v); [done | done |].
  apply starts_with_spec. exists (t ++ drop (e - b) (drop b (u ++ x ++ v))).
  rewrite (app_assoc (first_lit r)), <- Ht. by rewrite take_drop.
Qed.

(** *** What stays in one piece

    For each edit, the test that it cuts no text of shape [a]; then the
    edits from the first up to one, and from one to the last. *)

Definition kept_over_file_ref (a : shape) : bool :=
  no_cut_after (last_lit file_ref_section_pat) a.
Definition kept_over_group (a : shape) : bool :=
  no_cut_after (last_lit main_group_pat) a &&
  no_cut_before (first_lit group_end_pat) a.
Definition kept_over_product_ref (a : shape) : bool :=
  no_cut_after (last_lit products_group_pat) a.
Definition kept_over_sources_phase (a : shape) : bool :=
  no_cut_before (first_lit sources_phase_end_pat) a.
Definition kept_over_frameworks_phase (a : shape) : bool :=
  no_cut_before (first_lit frameworks_phase_end_pat) a.
Definition kept_over_native_target (a : shape) : bool :=
  no_cut_before (first_lit native_target_end_pat) a.
Definition kept_over_target_ref (a : shape) : bool :=
  no_cut_after (last_lit targets_pat) a.
Definition kept_over_build_configs (a : shape) : bool :=
  no_cut_before (first_lit config_list_end_pat) a.
Definition kept_over_target_attrs (a : shape) : bool :=
  no_cut_after (last_lit target_attrs_pat) a.

(** From the project file to the content an edit searches. *)
Definition kept_until_product_ref (a : shape) : bool :=
  kept_over_file_ref a && kept_over_group a && kept_over_product_ref a.
Definition kept_until_sources_phase (a : shape) : bool :=
  kept_until_product_ref a && kept_over_sources_phase a.
Definition kept_until_frameworks_phase (a : shape) : bool :=
  kept_until_sources_phase a && kept_over_frameworks_phase a.
Definition kept_until_target_ref (a : shape) : bool :=
  kept_until_frameworks_phase a && kept_over_native_target a &&
  kept_over_target_ref a.

(** From the content an edit leaves to the file that is written. *)
Definition kept_after_build_configs (a : shape) : bool :=
  kept_over_target_attrs a.
Definition kept_after_target_ref (a : shape) : bool :=
  kept_over_build_configs a && kept_after_build_configs a.
Definition kept_after_native_target (a : shape) : bool :=
  kept_over_target_ref a && kept_after_target_ref a.
Definition kept_after_frameworks_phase (a : shape) : bool :=
  kept_over_native_target a && kept_after_native_target a.
Definition kept_after_sources_phase (a : shape) : bool :=
  kept_over_frameworks_phase a && kept_after_frameworks_phase a.
Definition kept_after_product_ref (a : shape) : bool :=
  kept_over_sources_phase a && kept_after_sources_phase a.
Definition kept_after_group (a : shape) : bool :=
  kept_over_product_ref a && kept_after_product_ref a.
Definition kept_after_file_ref (a : shape) : bool :=
  kept_over_group a && kept_after_group a.

Section Kept.
Variable w : world.
Variable content : text.
Variable x : text.
Variable a : shape.
Hypothesis x_fits : Forall2 fits a x.

Lemma over_file_ref :
  kept_over_file_ref a = true →
  occurs x content → occurs x (after_file_ref w content).
Proof. intros Hk. by apply occurs_insert_after with a. Qed.

Lemma over_group :
  kept_over_group a = true →
  occurs x (after_file_ref w content) → occurs x (after_group w content).
Proof.
  intros [H1 H2]%andb_true_iff Hx. unfold after_group, add_group.
  destruct (re_search group_section_pat _); [|done].
  apply occurs_insert_before with a; [done | done |].
  by apply occurs_insert_after with a.
Qed.

Lemma over_product_ref :
  kept_over_product_ref a = true →
  occurs x (after_group w content) → occurs x (after_product_ref w content).
Proof. intros Hk. by apply occurs_insert_after with a. Qed.

Lemma over_sources_phase :
  kept_over_sources_phase a = true →
  occurs x (after_product_ref w content) →
  occurs x (after_sources_phase w content).
Proof. intros Hk. by apply occurs_insert_before with a. Qed.

Lemma over_frameworks_phase :
  kept_over_frameworks_phase a = true →
  occurs x (after_sources_phase w content) →
  occurs x (after_frameworks_phase w content).
Proof. intros Hk. by apply occurs_insert_before with a. Qed.

Lemma over_native_target :
  kept_over_native_target a = true →
  occurs x (after_frameworks_phase w content) →
  occurs x (after_native_target w content).
Proof. intros Hk. by apply occurs_insert_before with a. Qed.

Lemma over_target_ref :
  kept_over_target_ref a = true →
  occurs x (after_native_target w content) →
  occurs x (after_target_ref w content).
Proof. intros Hk. by apply occurs_insert_after with a. Qed.

Lemma over_build_configs :
  kept_over_build_configs a = true →
  occurs x (after_target_ref w content) →
  occurs x (after_build_configs w content).
Proof. intros Hk. by apply occurs_insert_before with a. Qed.

Lemma over_target_attrs :
  kept_over_target_attrs a = true →
  occurs x (after_build_configs w content) →
  occurs x (after_target_attrs w content).
Proof. intros Hk. by apply occurs_insert_after with a. Qed.

Lemma kept_to_product_ref :
  kept_until_product_ref a = true →
  occurs x content → occurs x (after_product_ref w content).
Proof.
  intros [[H1 H2]%andb_true_iff H3]%andb_true_iff Hx.
  by apply over_product_ref, over_group, over_file_ref.
Qed.

Lemma kept_to_sources_phase :
  kept_until_sources_phase a = true →
  occurs x content → occurs x (after_sources_phase w content).
Proof.
  intros [Hk H]%andb_true_iff Hx.
  by apply over_sources_phase, kept_to_product_ref.
Qed.

Lemma kept_to_frameworks_phase :
  kept_until_frameworks_phase a = true →
  occurs x content → occurs x (after_frameworks_phase w content).
Proof.
  intros [Hk H]%andb_true_iff Hx.
  by apply over_frameworks_phase, kept_to_sources_phase.
Qed.

Lemma kept_to_target_ref :
  kept_until_target_ref a = true →
  occurs x content → occurs x (after_target_ref w content).
Proof.
  intros [[Hk H1]%andb_true_iff H2]%andb_true_iff Hx.
  by apply over_target_ref, over_native_target, kept_to_frameworks_phase.
Qed.

Lemma kept_from_build_configs :
  kept_after_build_configs a = true →
  occurs x (after_build_configs w content) →
  occurs x (after_target_attrs w content).
Proof. apply over_target_attrs. Qed.

Lemma kept_from_target_ref :
  kept_after_target_ref a = true →
  occurs x (after_target_ref w content) →
  occurs x (after_target_attrs w content).
Proof.
  intros [H Hk]%andb_true_iff Hx.
  by apply (kept_from_build_configs Hk), over_build_configs.
Qed.

Lemma kept_from_native_target :
  kept_after_native_target a = true →
  occurs x (after_native_target w content) →
  occurs x (after_target_attrs w content).
Proof.
  intros [H Hk]%andb_true_iff Hx.
  by apply (kept_from_target_ref Hk), over_target_ref.
Qed.

Lemma kept_from_frameworks_phase :
  kept_after_frameworks_phase a = true →
  occurs x (after_frameworks_phase w content) →
  occurs x (after_target_attrs w content).
Proof.
  intros [H Hk]%andb_true_iff Hx.
  by apply (kept_from_native_target Hk), over_native_target.
Qed.

Lemma kept_from_sources_phase :
  kept_after_sources_phase a = true →
  occurs x (after_sources_phase w content) →
  occurs x (after_target_attrs w content).
Proof.
  intros [H Hk]%andb_true_iff Hx.
  by apply (kept_from_frameworks_phase Hk), over_frameworks_phase.
Qed.

Lemma kept_from_product_ref :
  kept_after_product_ref a = true →
  occurs x (after_product_ref w content) →
  occurs x (after_target_attrs w content).
Proof.
  intros [H Hk]%andb_true_iff Hx.
  by apply (kept_from_sources_phase Hk), over_sources_phase.
Qed.

Lemma kept_from_group :
  kept_after_group a = true →
  occurs x (after_group w content) →
  occurs x (after_target_attrs w content).
Proof.
  intros [H Hk]%andb_true_iff Hx.
  by apply (kept_from_product_ref Hk), over_product_ref.
Qed.

Lemma kept_from_file_ref :
  kept_after_file_ref a = true →
  occurs x (after_file_ref w content) →
  occurs x (after_target_attrs w content).
Proof.
  intros [H Hk]%andb_true_iff Hx.
  by apply (kept_from_group Hk), over_group.
Qed.
End Kept.

(** A marker on a line of its own: the marker between two line feeds. All
    its characters are fixed. *)
Definition own_line (marker : text) : text := nl :: marker ++ [nl].

Lemma fits_fixed (x : text) : Forall2 fits (map Some x) x.
Proof. apply Forall2_fmap_l, Forall_Forall2_diag, Forall_true. by intros c. Qed.

Lemma occurs_own_line (marker s : text) :
  occurs (own_line marker) s → occurs marker s.
Proof.
  apply occurs_trans. exists [nl], [nl]. reflexivity.
Qed.

Lemma occurs_first (p s : text) :
  occurs p s → ∃ pre post, first_occurrence p pre post s.
Proof.
  intros [[b e] H]%has_match_lit%re_search_is_Some.
  apply first_occurrence_by_search in H. by eexists _, _.
Qed.

Lemma ids_hex_nth_id (w : world) (k : nat) :
  length (nth_id w k) = 24 ∧ Forall is_upper_hex (nth_id w k).
Proof. split; [apply nth_id_length | apply nth_id_hex]. Qed.

(** The shapes of the inserted texts. *)
Definition file_ref_line_pieces (test_product_id : text) : list piece :=
  [Txt (lit "/* Begin PBXFileReference section */" ++ [tab; tab]);
   Id test_product_id;
   Txt (lit " /* PaykitDemoTests.xctest */ = {isa = PBXFileReference; explicitFileType = wrapper.cfbundle; includeInIndex = 0; path = PaykitDemoTests.xctest; sourceTree = BUILT_PRODUCTS_DIR; };" ++ [nl])].

Definition dependency_line_pieces (dependency_id : text) : list piece :=
  one_id_pieces 4 dependency_id (lit " /* PBXTargetDependency */," ++ [nl]).

(** The inserted texts pass the tests, whatever their identifiers are: a
    shape does not depend on them. *)
Example kept_shapes :
  kept_after_file_ref (shape_of 24 (file_ref_line_pieces [])) = true ∧
  kept_after_sources_phase (shape_of 24 (test_sources_phase_pieces [])) = true ∧
  kept_after_frameworks_phase
    (shape_of 24 (test_frameworks_phase_pieces [])) = true ∧
  kept_after_native_target
    (shape_of 24 (test_target_pieces [] [] [] [] [] [])) = true ∧
  kept_after_build_configs
    (shape_of 24 (test_debug_config_pieces [] [] [])) = true ∧
  kept_after_native_target (shape_of 24 (dependency_line_pieces [])) = true.
Proof. vm_compute. done. Qed.

Lemma fits_pieces (x : text) (ps : list piece) :
  x = flatten ps → ids_hex 24 ps → Forall2 fits (shape_of 24 ps) x.
Proof. intros -> Hids. by apply shape_of_fits. Qed.

(** ** The edits, one by one *)



Lemma sample_project_file :
  fs sample_world !! project_path = Some sample_project.
Proof. apply lookup_singleton_eq. Qed.

Lemma sample_project_main_target :
  occurs (lit "5224F5F42EED89A600A4DEB4 /* PaykitDemo */") sample_project.
Proof. apply occurs_by_search. vm_compute. by eexists. Qed.






(** C5. With the main-target anchor in the project file: when
    [/* End PBXSourcesBuildPhase section */] occurs in the content the
    edit searches, [add_test_target] inserts right in front of
    its first occurrence a PBXSourcesBuildPhase block, and likewise a
    PBXFrameworksBuildPhase block in front of the first
    [/* End PBXFrameworksBuildPhase section */]; each block has an empty
    [files] list and an identifier of its own, the third and the fourth
    the run generates. Each block is in the file that is written. The
    content an edit searches is the project file after the earlier
    edits; a marker that stands on a line of its own in the project file
    is still there when its edit searches for it. *)
Theorem build_phases_inserted
    (path : string) (w : world) (content : text) :
  fs w !! path = Some content →
  occurs (lit "5224F5F42EED89A600A4DEB4 /* PaykitDemo */") content →
  let test_sources_phase_id := nth_id w 2 in
  let test_frameworks_phase_id := nth_id w 3 in
  let sources_block :=
    ln 2 (test_sources_phase_id ++ lit " /* Sources */ = {") ++
    ln 3 (lit "isa = PBXSourcesBuildPhase;") ++
    ln 3 (lit "buildActionMask = 2147483647;") ++
    ln 3 (lit "files = (") ++
    ln 3 (lit ");") ++
    ln 3 (lit "runOnlyForDeploymentPostprocessing = 0;") ++
    ln 2 (lit "};") in
  let frameworks_block :=
    ln 2 (test_frameworks_phase_id ++ lit " /* Frameworks */ = {") ++
    ln 3 (lit "isa = PBXFrameworksBuildPhase;") ++
    ln 3 (lit "buildActionMask = 2147483647;") ++
    ln 3 (lit "files = (") ++
    ln 3 (lit ");") ++
    ln 3 (lit "runOnlyForDeploymentPostprocessing = 0;") ++
    ln 2 (lit "};") in
  (fst (generate_id (advance 2 w)) = Ret test_sources_phase_id ∧
   fst (generate_id (advance 3 w)) = Ret test_frameworks_phase_id) ∧
  (∀ pre post,
     first_occurrence (lit "/* End PBXSourcesBuildPhase section */")
       pre post (after_product_ref w content) →
     after_sources_phase w content =
       pre ++ sources_block ++
       lit "/* End PBXSourcesBuildPhase section */" ++ post ∧
     occurs sources_block (after_target_attrs w content)) ∧
  (∀ pre post,
     first_occurrence (lit "/* End PBXFrameworksBuildPhase section */")
       pre post (after_sources_phase w content) →
     after_frameworks_phase w content =
       pre ++ frameworks_block ++
       lit "/* End PBXFrameworksBuildPhase section */" ++ post ∧
     occurs frameworks_block (after_target_attrs w content)) ∧
  (occurs ([nl] ++ lit "/* End PBXSourcesBuildPhase section */" ++ [nl])
     content →
   ∃ pre post,
     first_occurrence (lit "/* End PBXSourcesBuildPhase section */")
       pre post (after_product_ref w content)) ∧
  (occurs ([nl] ++ lit "/* End PBXFrameworksBuildPhase section */" ++ [nl])
     content →
   ∃ pre post,
     first_occurrence (lit "/* End PBXFrameworksBuildPhase section */")
       pre post (after_sources_phase w content)) ∧
  fs (snd (add_test_target path w)) !! path =
    Some (after_target_attrs w content).
Proof.
  intros Hfile Hmain%has_match_lit sid fid sources_block frameworks_block.
  destruct (written_content _ _ _ Hfile Hmain) as (_ & _ & Hout).
  split_and!; [done | done | | | | | done];
    [| | intros Hline; apply occurs_first, occurs_own_line;
         by eapply kept_to_product_ref; [apply fits_fixed | |]
       | intros Hline; apply occurs_first, occurs_own_line;
         by eapply kept_to_sources_phase; [apply fits_fixed | |]].
  - intros pre post Hfirst.
    assert (after_sources_phase w content =
              pre ++ sources_block ++
              lit "/* End PBXSourcesBuildPhase section */" ++ post) as Heq.
    { unfold after_sources_phase, add_sources_phase, sources_phase_end_pat.
      by rewrite (insert_before_lit _ _ _ _ _ Hfirst). }
    split; [done |].
    apply kept_from_sources_phase
      with (a := shape_of 24 (test_sources_phase_pieces sid)); [|done |].
    + apply fits_pieces; [apply test_sources_phase_flat |].
      repeat constructor; apply ids_hex_nth_id.
    + rewrite Heq. by eexists _, _.
  - intros pre post Hfirst.
    assert (after_frameworks_phase w content =
              pre ++ frameworks_block ++
              lit "/* End PBXFrameworksBuildPhase section */" ++ post)
      as Heq.
    { unfold after_frameworks_phase, add_frameworks_phase,
        frameworks_phase_end_pat.
      by rewrite (insert_before_lit _ _ _ _ _ Hfirst). }
    split; [done |].
    apply kept_from_frameworks_phase
      with (a := shape_of 24 (test_frameworks_phase_pieces fid)); [|done |].
    + apply fits_pieces; [apply test_frameworks_phase_flat |].
      repeat constructor; apply ids_hex_nth_id.
    + rewrite Heq. by eexists _, _.
Qed.

Lemma build_phases_inserted_witness :
  (nth_id sample_world 2 = lit "800079BCE00144F8A53BCA02" ∧
   nth_id sample_world 3 = lit "8000B69B50014774B7D9AF03") ∧
  (after_sources_phase sample_world sample_project =
     take 975 (after_product_ref sample_world sample_project) ++
     test_sources_phase (nth_id sample_world 2) ++
     lit "/* End PBXSourcesBuildPhase section */" ++
     drop 1013 (after_product_ref sample_world sample_project) ∧
   occurs (test_sources_phase (nth_id sample_world 2))
     (after_target_attrs sample_world sample_project)) ∧
  (after_frameworks_phase sample_world sample_project =
     take 1234 (after_sources_phase sample_world sample_project) ++
     test_frameworks_phase (nth_id sample_world 3) ++
     lit "/* End PBXFrameworksBuildPhase section */" ++
     drop 1275 (after_sources_phase sample_world sample_project) ∧
   occurs (test_frameworks_phase (nth_id sample_world 3))
     (after_target_attrs sample_world sample_project)).
Proof.
  split; [vm_compute; done |].
  destruct (build_phases_inserted project_path sample_world sample_project
              sample_project_file sample_project_main_target)
    as (_ & Hsources & Hframeworks & _).
  split.
  - apply Hsources, first_occurrence_by_search. vm_compute. reflexivity.
  - apply Hframeworks, first_occurrence_by_search. vm_compute. reflexivity.
Defined.

(** Two project files with both markers: one without the main target,
    one in which the last character of the Frameworks marker is the first
    of the Sources marker. *)
Definition build_phases_only_project : text :=
  ln 0 (lit "/* End PBXSourcesBuildPhase section */") ++
  ln 0 (lit "/* End PBXFrameworksBuildPhase section */").

Definition build_phases_only_world : world :=
  {| fs := {[ project_path := build_phases_only_project ]}; stdout := [];
     entropy := sample_entropy; draws := 0 |}.

Definition frameworks_into_sources_project : text :=
  ln 0 (lit "5224F5F42EED89A600A4DEB4 /* PaykitDemo */") ++
  ln 0 (lit "/* End PBXFrameworksBuildPhase section */* End PBXSourcesBuildPhase section */").

Definition frameworks_into_sources_world : world :=
  {| fs := {[ project_path := frameworks_into_sources_project ]};
     stdout := []; entropy := sample_entropy; draws := 0 |}.

(** C5 as the specification states it asks for the two markers to be
    present. Without the main-target anchor nothing is inserted. With it,
    and both markers in the project file, the Sources block can go
    between the last two characters of the Frameworks marker: the
    Frameworks edit then finds no marker, and the run writes a file with
    the Sources block alone. *)
Lemma frameworks_marker_cut_by_sources_block :
  (occurs (lit "/* End PBXSourcesBuildPhase section */")
     build_phases_only_project ∧
   occurs (lit "/* End PBXFrameworksBuildPhase section */")
     build_phases_only_project ∧
   fst (add_test_target project_path build_phases_only_world) = Ret false ∧
   fs (snd (add_test_target project_path build_phases_only_world))
     !! project_path = Some build_phases_only_project) ∧
  (occurs (lit "5224F5F42EED89A600A4DEB4 /* PaykitDemo */")
     frameworks_into_sources_project ∧
   occurs (lit "/* End PBXSourcesBuildPhase section */")
     frameworks_into_sources_project ∧
   occurs (lit "/* End PBXFrameworksBuildPhase section */")
     frameworks_into_sources_project ∧
   fst (add_test_target project_path frameworks_into_sources_world) =
     Ret true ∧
   fs (snd (add_test_target project_path frameworks_into_sources_world))
     !! project_path =
     Some (ln 0 (lit "5224F5F42EED89A600A4DEB4 /* PaykitDemo */") ++
           lit "/* End PBXFrameworksBuildPhase section *" ++
           test_sources_phase (lit "800079BCE00144F8A53BCA02") ++
           ln 0 (lit "/* End PBXSourcesBuildPhase section */")) ∧
   inserted_blocks frameworks_into_sources_world
       frameworks_into_sources_project =
     [test_sources_phase (lit "800079BCE00144F8A53BCA02")]).
Proof.
  split; split_and!.
  - apply occurs_by_search. vm_compute. by eexists.
  - apply occurs_by_search. vm_compute. by eexists.
  - vm_compute. reflexivity.
  - vm_compute. reflexivity.
  - apply occurs_by_search. vm_compute. by eexists.
  - apply occurs_by_search. vm_compute. by eexists.
  - apply occurs_by_search. vm_compute. by eexists.
  - vm_compute. reflexivity.
  - vm_compute. reflexivity.
  - vm_compute. reflexivity.
Qed.

(** C6. With the main-target anchor in the project file: when
    [/* End PBXNativeTarget section */] occurs in the content the edit
    searches, [add_test_target] inserts right in front of its
    first occurrence the PBXNativeTarget block of PaykitDemoTests: its
    [buildConfigurationList] is the generated configuration-list
    identifier, its [buildPhases] are the generated Sources and Frameworks
    identifiers in that order and nothing else, and its
    [productReference] is the generated product identifier. The block is
    in the file that is written. The content the edit searches is the
    project file after the earlier edits; a marker that stands on a line
    of its own in the project file is still there when the edit searches
    for it. *)
Theorem native_target_inserted
    (path : string) (w : world) (content : text) :
  fs w !! path = Some content →
  occurs (lit "5224F5F42EED89A600A4DEB4 /* PaykitDemo */") content →
  let test_target_id := nth_id w 0 in
  let test_product_id := nth_id w 1 in
  let test_sources_phase_id := nth_id w 2 in
  let test_frameworks_phase_id := nth_id w 3 in
  let test_build_config_list_id := nth_id w 4 in
  let dependency_id := nth_id w 8 in
  let block :=
    ln 2 (test_target_id ++ lit " /* PaykitDemoTests */ = {") ++
    ln 3 (lit "isa = PBXNativeTarget;") ++
    ln 3 (lit "buildConfigurationList = " ++ test_build_config_list_id ++
          lit " /* Build configuration list for PBXNativeTarget " ++
          quoted "PaykitDemoTests" ++ lit " */;") ++
    ln 3 (lit "buildPhases = (") ++
    ln 4 (test_sources_phase_id ++ lit " /* Sources */,") ++
    ln 4 (test_frameworks_phase_id ++ lit " /* Frameworks */,") ++
    ln 3 (lit ");") ++
    ln 3 (lit "buildRules = (") ++
    ln 3 (lit ");") ++
    ln 3 (lit "dependencies = (") ++
    ln 4 (dependency_id ++ lit " /* PBXTargetDependency */,") ++
    ln 3 (lit ");") ++
    ln 3 (lit "name = PaykitDemoTests;") ++
    ln 3 (lit "packageProductDependencies = (") ++
    ln 3 (lit ");") ++
    ln 3 (lit "productName = PaykitDemoTests;") ++
    ln 3 (lit "productReference = " ++ test_product_id ++
          lit " /* PaykitDemoTests.xctest */;") ++
    ln 3 (lit "productType = " ++
          quoted "com.apple.product-type.bundle.unit-test" ++ lit ";") ++
    ln 2 (lit "};") in
  (fst (generate_id w) = Ret test_target_id ∧
   fst (generate_id (advance 1 w)) = Ret test_product_id ∧
   fst (generate_id (advance 2 w)) = Ret test_sources_phase_id ∧
   fst (generate_id (advance 3 w)) = Ret test_frameworks_phase_id ∧
   fst (generate_id (advance 4 w)) = Ret test_build_config_list_id ∧
   fst (generate_id (advance 8 w)) = Ret dependency_id) ∧
  (∀ pre post,
     first_occurrence (lit "/* End PBXNativeTarget section */")
       pre post (after_frameworks_phase w content) →
     after_native_target w content =
       pre ++ block ++ lit "/* End PBXNativeTarget section */" ++ post ∧
     ids_drawn w content = 9 ∧
     occurs block (after_target_attrs w content)) ∧
  (occurs ([nl] ++ lit "/* End PBXNativeTarget section */" ++ [nl]) content →
   ∃ pre post,
     first_occurrence (lit "/* End PBXNativeTarget section */")
       pre post (after_frameworks_phase w content)) ∧
  fs (snd (add_test_target path w)) !! path =
    Some (after_target_attrs w content).
Proof.
  intros Hfile Hmain%has_match_lit tid pid sid fid lid did block.
  destruct (written_content _ _ _ Hfile Hmain) as (_ & _ & Hout).
  split_and!; try done.
  - intros pre post Hfirst.
    assert (after_native_target w content =
              pre ++ block ++ lit "/* End PBXNativeTarget section */" ++ post)
      as Heq.
    { unfold after_native_target, native_target_end_pat.
      by rewrite (insert_before_lit _ _ _ _ _ Hfirst). }
    split_and!; [done | |].
    + unfold ids_drawn, native_target_end_pat.
      by rewrite (re_search_lit _ _ _ _ Hfirst).
    + apply kept_from_native_target
        with (a := shape_of 24 (test_target_pieces tid lid sid fid did pid));
        [|done |].
      * apply fits_pieces; [apply test_target_flat |].
        repeat constructor; apply ids_hex_nth_id.
      * rewrite Heq. by eexists _, _.
  - intros Hline. apply occurs_first, occurs_own_line.
    by eapply kept_to_frameworks_phase; [apply fits_fixed | |].
Qed.

Lemma native_target_inserted_witness :
  after_native_target sample_world sample_project =
    take 1494 (after_frameworks_phase sample_world sample_project) ++
    test_target (lit "800000000000400080000000")
      (lit "8000F379C00249F18A779404") (lit "800079BCE00144F8A53BCA02")
      (lit "8000B69B50014774B7D9AF03") (lit "8001E6F3800443E294EF2808")
      (lit "80003CDE7000427C929DE501") ++
    lit "/* End PBXNativeTarget section */" ++
    drop 1527 (after_frameworks_phase sample_world sample_project).
Proof.
  assert (first_occurrence (lit "/* End PBXNativeTarget section */")
            (take 1494 (after_frameworks_phase sample_world sample_project))
            (drop 1527 (after_frameworks_phase sample_world sample_project))
            (after_frameworks_phase sample_world sample_project)) as Hfirst.
  { apply first_occurrence_by_search. vm_compute. reflexivity. }
  destruct (native_target_inserted project_path sample_world sample_project
              sample_project_file sample_project_main_target)
    as (_ & Hblock & _).
  destruct (Hblock _ _ Hfirst) as (Heq & _).
  rewrite Heq. vm_compute. reflexivity.
Defined.

(** An earlier edit can cut a marker that runs into another one. Here
    the last character of the native-target marker is the first of the
    Sources marker: the Sources block goes in between, and the
    native-target marker, which is in the project file, is not in the
    content its edit searches. *)
Definition overlapping_project : text :=
  ln 0 (lit "5224F5F42EED89A600A4DEB4 /* PaykitDemo */") ++
  ln 0 (lit "/* End PBXNativeTarget section */* End PBXSourcesBuildPhase section */").

Example overlapping_markers :
  occurs (lit "/* End PBXNativeTarget section */") overlapping_project ∧
  ¬ occurs (lit "/* End PBXNativeTarget section */")
      (after_frameworks_phase sample_world overlapping_project) ∧
  ids_drawn sample_world overlapping_project = 8 ∧
  after_target_attrs sample_world overlapping_project =
    ln 0 (lit "5224F5F42EED89A600A4DEB4 /* PaykitDemo */") ++
    lit "/* End PBXNativeTarget section *" ++
    test_sources_phase (nth_id sample_world 2) ++
    ln 0 (lit "/* End PBXSourcesBuildPhase section */").
Proof.
  split_and!.
  - apply occurs_by_search. vm_compute. by eexists.
  - apply not_occurs_by_search. vm_compute. reflexivity.
  - vm_compute. reflexivity.
  - vm_compute. reflexivity.
Qed.

(** A project file with the native-target section and no main target;
    and [overlapping_project] in a world. *)
Definition native_target_only_project : text :=
  ln 0 (lit "/* Begin PBXNativeTarget section */") ++
  ln 0 (lit "/* End PBXNativeTarget section */").

Definition native_target_only_world : world :=
  {| fs := {[ project_path := native_target_only_project ]}; stdout := [];
     entropy := sample_entropy; draws := 0 |}.

Definition overlapping_world : world :=
  {| fs := {[ project_path := overlapping_project ]}; stdout := [];
     entropy := sample_entropy; draws := 0 |}.

(** C6 as the specification states it asks for the marker to be present.
    Without the main-target anchor nothing is inserted. With it, and the
    marker in the project file, the Sources block can cut the marker: the
    run writes a file without a PBXNativeTarget block. *)
Lemma native_target_marker_cut_by_sources_block :
  (occurs (lit "/* End PBXNativeTarget section */")
     native_target_only_project ∧
   fst (add_test_target project_path native_target_only_world) = Ret false ∧
   fs (snd (add_test_target project_path native_target_only_world))
     !! project_path = Some native_target_only_project) ∧
  (occurs (lit "5224F5F42EED89A600A4DEB4 /* PaykitDemo */")
     overlapping_project ∧
   occurs (lit "/* End PBXNativeTarget section */") overlapping_project ∧
   fst (add_test_target project_path overlapping_world) = Ret true ∧
   fs (snd (add_test_target project_path overlapping_world))
     !! project_path =
     Some (ln 0 (lit "5224F5F42EED89A600A4DEB4 /* PaykitDemo */") ++
           lit "/* End PBXNativeTarget section *" ++
           test_sources_phase (lit "800079BCE00144F8A53BCA02") ++
           ln 0 (lit "/* End PBXSourcesBuildPhase section */")) ∧
   inserted_blocks overlapping_world overlapping_project =
     [test_sources_phase (lit "800079BCE00144F8A53BCA02")]).
Proof.
  split; split_and!.
  - apply occurs_by_search. vm_compute. by eexists.
  - vm_compute. reflexivity.
  - vm_compute. reflexivity.
  - apply occurs_by_search. vm_compute. by eexists.
  - apply occurs_by_search. vm_compute. by eexists.
  - vm_compute. reflexivity.
  - vm_compute. reflexivity.
  - vm_compute. reflexivity.
Qed.

(** C7. With the main-target anchor in the project file: when
    [/* End XCConfigurationList section */] occurs in the content the
    edit searches, [add_test_target] inserts right in front of
    its first occurrence two XCBuildConfiguration blocks, named Debug and
    Release, and one XCConfigurationList block whose
    [buildConfigurations] are the identifiers of those two, Debug first,
    and nothing else, and whose [defaultConfigurationName] is Release.
    The three blocks are in the file that is written. The content the
    edit searches is the project file after the earlier edits; a marker
    that stands on a line of its own in the project file is still there
    when the edit searches for it. *)
Theorem build_configurations_inserted
    (path : string) (w : world) (content : text) :
  fs w !! path = Some content →
  occurs (lit "5224F5F42EED89A600A4DEB4 /* PaykitDemo */") content →
  let test_build_config_list_id := nth_id w 4 in
  let test_debug_config_id := nth_id w 5 in
  let test_release_config_id := nth_id w 6 in
  ∃ debug_settings release_settings : text,
    let debug_block :=
      ln 2 (test_debug_config_id ++ lit " /* Debug */ = {") ++
      ln 3 (lit "isa = XCBuildConfiguration;") ++
      ln 3 (lit "buildSettings = {") ++
      debug_settings ++
      ln 3 (lit "};") ++
      ln 3 (lit "name = Debug;") ++
      ln 2 (lit "};") in
    let release_block :=
      ln 2 (test_release_config_id ++ lit " /* Release */ = {") ++
      ln 3 (lit "isa = XCBuildConfiguration;") ++
      ln 3 (lit "buildSettings = {") ++
      release_settings ++
      ln 3 (lit "};") ++
      ln 3 (lit "name = Release;") ++
      ln 2 (lit "};") in
    let list_block :=
      ln 2 (test_build_config_list_id ++
            lit " /* Build configuration list for PBXNativeTarget " ++
            quoted "PaykitDemoTests" ++ lit " */ = {") ++
      ln 3 (lit "isa = XCConfigurationList;") ++
      ln 3 (lit "buildConfigurations = (") ++
      ln 4 (test_debug_config_id ++ lit " /* Debug */,") ++
      ln 4 (test_release_config_id ++ lit " /* Release */,") ++
      ln 3 (lit ");") ++
      ln 3 (lit "defaultConfigurationIsVisible = 0;") ++
      ln 3 (lit "defaultConfigurationName = Release;") ++
      ln 2 (lit "};") in
    (fst (generate_id (advance 4 w)) = Ret test_build_config_list_id ∧
     fst (generate_id (advance 5 w)) = Ret test_debug_config_id ∧
     fst (generate_id (advance 6 w)) = Ret test_release_config_id) ∧
    ¬ occurs (lit "};") debug_settings ∧
    ¬ occurs (lit "};") release_settings ∧
    (∀ pre post,
       first_occurrence (lit "/* End XCConfigurationList section */")
         pre post (after_target_ref w content) →
       after_build_configs w content =
         pre ++ (debug_block ++ release_block ++ list_block) ++
         lit "/* End XCConfigurationList section */" ++ post ∧
       occurs (debug_block ++ release_block ++ list_block)
         (after_target_attrs w content)) ∧
    (occurs ([nl] ++ lit "/* End XCConfigurationList section */" ++ [nl])
       content →
     ∃ pre post,
       first_occurrence (lit "/* End XCConfigurationList section */")
         pre post (after_target_ref w content)) ∧
    fs (snd (add_test_target path w)) !! path =
      Some (after_target_attrs w content).
Proof.
  intros Hfile Hmain%has_match_lit lid did rid.
  destruct (written_content _ _ _ Hfile Hmain) as (_ & _ & Hout).
  exists (drop (length (ln 3 (lit "isa = XCBuildConfiguration;") ++
                        ln 3 (lit "buildSettings = {")))
            build_settings_head ++
          ln 5 (quoted "@loader_path/Frameworks" ++ lit ",") ++
          ln 4 (lit ");") ++
          take (length build_settings_tail - length (ln 3 (lit "};")))
            build_settings_tail),
         (drop (length (ln 3 (lit "isa = XCBuildConfiguration;") ++
                        ln 3 (lit "buildSettings = {")))
            build_settings_head ++
          ln 4 (quoted "@loader_path/Frameworks" ++ lit ",") ++
          ln 3 (lit ");") ++
          take (length build_settings_tail - length (ln 3 (lit "};")))
            build_settings_tail).
  intros debug_block release_block list_block.
  assert (debug_block ++ release_block ++ list_block =
            test_debug_config did rid lid) as Hblock.
  { unfold test_debug_config.
    assert (build_settings_head =
              (ln 3 (lit "isa = XCBuildConfiguration;") ++
               ln 3 (lit "buildSettings = {")) ++
              drop (length (ln 3 (lit "isa = XCBuildConfiguration;") ++
                            ln 3 (lit "buildSettings = {")))
                build_settings_head) as Hhead by (vm_compute; reflexivity).
    assert (build_settings_tail =
              take (length build_settings_tail - length (ln 3 (lit "};")))
                build_settings_tail ++ ln 3 (lit "};"))
      as Htail by (vm_compute; reflexivity).
    rewrite Hhead at 1 2. rewrite Htail at 1 2.
    unfold debug_block, release_block, list_block.
    by rewrite <- !app_assoc. }
  split_and!; try done.
  - apply not_occurs_by_search. vm_compute. reflexivity.
  - apply not_occurs_by_search. vm_compute. reflexivity.
  - intros pre post Hfirst.
    assert (after_build_configs w content =
              pre ++ (debug_block ++ release_block ++ list_block) ++
              lit "/* End XCConfigurationList section */" ++ post) as Heq.
    { unfold after_build_configs, add_build_configs, config_list_end_pat.
      by rewrite (insert_before_lit _ _ _ _ _ Hfirst), Hblock. }
    split; [done |].
    apply kept_from_build_configs
      with (a := shape_of 24 (test_debug_config_pieces did rid lid));
      [|done |].
    + apply fits_pieces; [rewrite Hblock; apply test_debug_config_flat |].
      repeat constructor; apply ids_hex_nth_id.
    + rewrite Heq. by eexists _, _.
  - intros Hline. apply occurs_first, occurs_own_line.
    by eapply kept_to_target_ref; [apply fits_fixed | |].
Qed.

Lemma build_configurations_inserted_witness :
  ∃ debug_settings release_settings : text,
    ¬ occurs (lit "};") debug_settings ∧
    ¬ occurs (lit "};") release_settings ∧
    after_build_configs sample_world sample_project =
      take 2338 (after_target_ref sample_world sample_project) ++
      ((ln 2 (nth_id sample_world 5 ++ lit " /* Debug */ = {") ++
        ln 3 (lit "isa = XCBuildConfiguration;") ++
        ln 3 (lit "buildSettings = {") ++
        debug_settings ++
        ln 3 (lit "};") ++
        ln 3 (lit "name = Debug;") ++
        ln 2 (lit "};")) ++
       (ln 2 (nth_id sample_world 6 ++ lit " /* Release */ = {") ++
        ln 3 (lit "isa = XCBuildConfiguration;") ++
        ln 3 (lit "buildSettings = {") ++
        release_settings ++
        ln 3 (lit "};") ++
        ln 3 (lit "name = Release;") ++
        ln 2 (lit "};")) ++
       (ln 2 (nth_id sample_world 4 ++
              lit " /* Build configuration list for PBXNativeTarget " ++
              quoted "PaykitDemoTests" ++ lit " */ = {") ++
        ln 3 (lit "isa = XCConfigurationList;") ++
        ln 3 (lit "buildConfigurations = (") ++
        ln 4 (nth_id sample_world 5 ++ lit " /* Debug */,") ++
        ln 4 (nth_id sample_world 6 ++ lit " /* Release */,") ++
        ln 3 (lit ");") ++
        ln 3 (lit "defaultConfigurationIsVisible = 0;") ++
        ln 3 (lit "defaultConfigurationName = Release;") ++
        ln 2 (lit "};"))) ++
      lit "/* End XCConfigurationList section */" ++
      drop 2375 (after_target_ref sample_world sample_project).
Proof.
  assert (first_occurrence (lit "/* End XCConfigurationList section */")
            (take 2338 (after_target_ref sample_world sample_project))
            (drop 2375 (after_target_ref sample_world sample_project))
            (after_target_ref sample_world sample_project)) as Hfirst.
  { apply first_occurrence_by_search. vm_compute. reflexivity. }
  destruct (build_configurations_inserted
              project_path sample_world sample_project
              sample_project_file sample_project_main_target)
    as (ds & rs & _ & Hds & Hrs & Hblocks & _).
  exists ds, rs. split_and!; [exact Hds | exact Hrs |].
  exact (proj1 (Hblocks _ _ Hfirst)).
Defined.

(** Two project files with the marker: one without the main target, one
    in which the last character of the marker is the first of the Sources
    marker. *)
Definition configuration_lists_only_project : text :=
  ln 0 (lit "/* Begin XCConfigurationList section */") ++
  ln 0 (lit "/* End XCConfigurationList section */").

Definition configuration_lists_only_world : world :=
  {| fs := {[ project_path := configuration_lists_only_project ]};
     stdout := []; entropy := sample_entropy; draws := 0 |}.

Definition configurations_into_sources_project : text :=
  ln 0 (lit "5224F5F42EED89A600A4DEB4 /* PaykitDemo */") ++
  ln 0 (lit "/* End XCConfigurationList section */* End PBXSourcesBuildPhase section */").

Definition configurations_into_sources_world : world :=
  {| fs := {[ project_path := configurations_into_sources_project ]};
     stdout := []; entropy := sample_entropy; draws := 0 |}.

(** C7 as the specification states it asks for the marker to be present.
    Without the main-target anchor nothing is inserted. With it, and the
    marker in the project file, the Sources block can cut the marker: the
    run writes a file without any configuration block. *)
Lemma configuration_marker_cut_by_sources_block :
  (occurs (lit "/* End XCConfigurationList section */")
     configuration_lists_only_project ∧
   fst (add_test_target project_path configuration_lists_only_world) =
     Ret false ∧
   fs (snd (add_test_target project_path configuration_lists_only_world))
     !! project_path = Some configuration_lists_only_project) ∧
  (occurs (lit "5224F5F42EED89A600A4DEB4 /* PaykitDemo */")
     configurations_into_sources_project ∧
   occurs (lit "/* End XCConfigurationList section */")
     configurations_into_sources_project ∧
   fst (add_test_target project_path configurations_into_sources_world) =
     Ret true ∧
   fs (snd (add_test_target project_path configurations_into_sources_world))
     !! project_path =
     Some (ln 0 (lit "5224F5F42EED89A600A4DEB4 /* PaykitDemo */") ++
           lit "/* End XCConfigurationList section *" ++
           test_sources_phase (lit "800079BCE00144F8A53BCA02") ++
           ln 0 (lit "/* End PBXSourcesBuildPhase section */")) ∧
   inserted_blocks configurations_into_sources_world
       configurations_into_sources_project =
     [test_sources_phase (lit "800079BCE00144F8A53BCA02")]).
Proof.
  split; split_and!.
  - apply occurs_by_search. vm_compute. by eexists.
  - vm_compute. reflexivity.
  - vm_compute. reflexivity.
  - apply occurs_by_search. vm_compute. by eexists.
  - apply occurs_by_search. vm_compute. by eexists.
  - vm_compute. reflexivity.
  - vm_compute. reflexivity.
  - vm_compute. reflexivity.
Qed.

(** ** The dependency reference *)

Lemma count_sub_cons_le (p s : text) (c : ascii) :
  count_sub p s ≤ count_sub p (c :: s).
Proof. cbn [count_sub]. lia. Qed.

Lemma count_sub_at (p a b : text) :
  p ≠ [] → 1 ≤ count_sub p (a ++ p ++ b).
Proof.
  intros Hp. induction a as [|c a IH].
  - destruct p as [|x p]; [done |]. cbn [app count_sub].
    change (x :: p ++ b) with ((x :: p) ++ b).
    rewrite starts_with_app. lia.
  - etrans; [exact IH | apply count_sub_cons_le].
Qed.

Lemma count_sub_twice (p a d b : text) :
  p ≠ [] → d ≠ [] → p ++ b = d ++ p ++ a → 2 ≤ count_sub p (p ++ b).
Proof.
  intros Hp Hd Heq. destruct p as [|x p]; [done |].
  destruct d as [|y d]; [done |].
  assert (p ++ b = d ++ (x :: p) ++ a) as Htail
    by (simpl in Heq; by injection Heq).
  pose proof (count_sub_at (x :: p) d a Hp) as Hat.
  rewrite <- Htail in Hat.
  pose proof (starts_with_app (x :: p) b) as Hhead.
  change ((x :: p) ++ b) with (x :: (p ++ b)) in *.
  cbn [count_sub]. rewrite Hhead. lia.
Qed.

Lemma count_sub_unique (p s a b a' b' : text) :
  p ≠ [] → count_sub p s = 1 →
  s = a ++ p ++ b → s = a' ++ p ++ b' → a = a' ∧ b = b'.
Proof.
  intros Hp Hone Hs Hs'.
  assert (∀ a b a' b', s = a ++ p ++ b → s = a' ++ p ++ b' →
                       length a < length a' → False) as Hlt.
  { clear a b a' b' Hs Hs'. intros a b a' b' Hs Hs' Hlen.
    assert (a' = a ++ drop (length a) a') as Ha'.
    { rewrite <- (take_drop (length a) a') at 1. f_equal.
      apply (f_equal (take (length a))) in Hs'.
      rewrite Hs, take_app_length in Hs'.
      by rewrite take_app_le in Hs' by lia. }
    rewrite Ha', <- app_assoc in Hs'. rewrite Hs in Hs'.
    apply app_inv_head in Hs'.
    pose proof (count_sub_twice p b' (drop (length a) a') b Hp) as Htwice.
    pose proof (count_sub_app_le p a (p ++ b)) as Hle.
    rewrite <- Hs, Hone in Hle.
    assert (drop (length a) a' ≠ []) as Hd.
    { intros H. apply (f_equal length) in H.
      rewrite length_drop in H. simpl in H. lia. }
    specialize (Htwice Hd Hs'). lia. }
  assert (length a = length a') as Hlen.
  { destruct (Nat.lt_trichotomy (length a) (length a')) as [H|[H|H]];
      [exfalso; by eapply (Hlt a b a' b') | done
      | exfalso; by eapply (Hlt a' b' a b)]. }
  assert (a = a') as ->.
  { apply (f_equal (take (length a))) in Hs'.
    rewrite Hs, take_app_length, Hlen, take_app_length in Hs'. done. }
  split; [done |]. rewrite Hs in Hs'.
  by apply app_inv_head, app_inv_head in Hs'.
Qed.


(** C10. The native-target block that [add_test_target] inserts lists, as
    its only dependency, an identifier generated for it alone (the ninth
    of the run). Taken fresh, that is, not in the project file and none of
    the other eight identifiers, it occurs exactly once in the file that
    is written: as that list entry. No other inserted block holds it, so no
    PBXTargetDependency object of that identifier is ever inserted and the
    reference dangles. *)
Theorem dependency_reference_dangles
    (path : string) (w : world) (content : text) :
  fs w !! path = Some content →
  occurs (lit "5224F5F42EED89A600A4DEB4 /* PaykitDemo */") content →
  occurs (lit "/* End PBXNativeTarget section */")
    (after_frameworks_phase w content) →
  let dependency_id := nth_id w 8 in
  ¬ occurs dependency_id content →
  (∀ k, k < 8 → nth_id w k ≠ dependency_id) →
  let block :=
    test_target (nth_id w 0) (nth_id w 4) (nth_id w 2) (nth_id w 3)
      dependency_id (nth_id w 1) in
  let entry := ln 4 (dependency_id ++ lit " /* PBXTargetDependency */,") in
  let written := after_target_attrs w content in
  fst (generate_id (advance 8 w)) = Ret dependency_id ∧
  (∃ a b, block =
            a ++ ln 3 (lit "dependencies = (") ++ entry ++
            ln 3 (lit ");") ++ b) ∧
  block ∈ inserted_blocks w content ∧
  Forall (λ b, b = block ∨ ¬ occurs dependency_id b)
    (inserted_blocks w content) ∧
  fs (snd (add_test_target path w)) !! path = Some written ∧
  count_sub dependency_id written = 1 ∧
  occurs entry written ∧
  (∀ pre post,
     written = pre ++ dependency_id ++ post →
     ∃ post', post = lit " /* PBXTargetDependency */," ++ nl :: post').
Proof.
  intros Hfile Hmain Hnative did Hfresh Hother block entry written.
  pose proof Hmain as Hmain'%has_match_lit.
  pose proof Hnative as Hnative'%has_match_lit.
  destruct (written_content _ _ _ Hfile Hmain') as (_ & _ & Hout).
  pose proof (dependency_id_hex_word w) as Hword. fold did in Hword.
  assert (count_sub did written = 1) as Hone
    by (by apply dependency_count_written).
  assert (∃ a b, block =
                   a ++ ln 3 (lit "dependencies = (") ++ entry ++
                   ln 3 (lit ");") ++ b) as Hentry.
  { exists (ln 2 (nth_id w 0 ++ lit " /* PaykitDemoTests */ = {") ++
             ln 3 (lit "isa = PBXNativeTarget;") ++
             ln 3 (lit "buildConfigurationList = " ++ nth_id w 4 ++
                   lit " /* Build configuration list for PBXNativeTarget " ++
                   quoted "PaykitDemoTests" ++ lit " */;") ++
             ln 3 (lit "buildPhases = (") ++
             ln 4 (nth_id w 2 ++ lit " /* Sources */,") ++
             ln 4 (nth_id w 3 ++ lit " /* Frameworks */,") ++
             ln 3 (lit ");") ++
             ln 3 (lit "buildRules = (") ++
             ln 3 (lit ");")),
           (ln 3 (lit "name = PaykitDemoTests;") ++
            ln 3 (lit "packageProductDependencies = (") ++
            ln 3 (lit ");") ++
            ln 3 (lit "productName = PaykitDemoTests;") ++
            ln 3 (lit "productReference = " ++ nth_id w 1 ++
                  lit " /* PaykitDemoTests.xctest */;") ++
            ln 3 (lit "productType = " ++
                  quoted "com.apple.product-type.bundle.unit-test" ++
                  lit ";") ++
            ln 2 (lit "};")).
    unfold block, test_target, entry. by rewrite <- !app_assoc. }
  assert (block ∈ inserted_blocks w content) as Hin.
  { unfold inserted_blocks.
    destruct (re_search_is_Some _ _ Hmain') as [m Hm].
    change (re_search main_target_pat content = Some m) in Hm. rewrite Hm.
    destruct (re_search_is_Some _ _ Hnative') as [m' Hm'].
    change (re_search native_target_end_pat
              (after_frameworks_phase w content) = Some m') in Hm'.
    do 5 (apply elem_of_app; right). apply elem_of_app. left.
    unfold fired. rewrite Hm'. by apply list_elem_of_singleton. }
  assert (occurs entry written) as Hkept.
  { apply kept_from_native_target
      with (a := shape_of 24 (dependency_line_pieces did)); [|done |].
    - apply fits_pieces.
      + unfold entry, dependency_line_pieces. same_text.
      + repeat constructor; apply ids_hex_nth_id.
    - apply occurs_trans with block.
      + destruct Hentry as (a & b & ->).
        exists (a ++ ln 3 (lit "dependencies = (")), (ln 3 (lit ");") ++ b).
        by rewrite <- !app_assoc.
      + unfold after_native_target, insert_before.
        destruct (re_search_is_Some _ _ Hnative') as [[s e] Hm].
        change (re_search native_target_end_pat
                  (after_frameworks_phase w content) = Some (s, e)) in Hm.
        rewrite Hm. by eexists _, _. }
  split_and!; try done.
  - eapply Forall_impl; [by apply dependency_in_blocks |].
    intros b [->|Hzero]; [by left | right].
    by apply count_sub_zero in Hzero; [|apply Hword].
  - intros pre post Hpre. destruct Hkept as (u & v & Hu).
    unfold entry, ln in Hu.
    rewrite <- !app_assoc, (app_assoc u) in Hu.
    destruct (count_sub_unique did written _ _ _ _ (proj1 Hword) Hone
                Hpre Hu) as [_ ->].
    by exists v.
Qed.

Lemma dependency_reference_dangles_witness :
  nth_id sample_world 8 = lit "8001E6F3800443E294EF2808" ∧
  count_sub (nth_id sample_world 8)
    (after_target_attrs sample_world sample_project) = 1 ∧
  occurs (ln 4 (nth_id sample_world 8 ++ lit " /* PBXTargetDependency */,"))
    (after_target_attrs sample_world sample_project).
Proof.
  split; [vm_compute; reflexivity |].
  assert (occurs (lit "/* End PBXNativeTarget section */")
            (after_frameworks_phase sample_world sample_project)) as Hnative.
  { apply occurs_by_search. vm_compute. by eexists. }
  assert (¬ occurs (nth_id sample_world 8) sample_project) as Hfresh.
  { apply not_occurs_by_search. vm_compute. reflexivity. }
  assert (∀ k, k < 8 → nth_id sample_world k ≠ nth_id sample_world 8)
    as Hother.
  { intros k Hk.
    do 8 (destruct k as [|k]; [vm_compute; discriminate |]). lia. }
  destruct (dependency_reference_dangles
              project_path sample_world sample_project
              sample_project_file sample_project_main_target Hnative
              Hfresh Hother)
    as (_ & _ & _ & _ & _ & Hone & Hkept & _).
  split; [exact Hone | exact Hkept].
Defined.

(** The sample project with the ninth identifier of the run in a comment;
    and the sample project in a world whose entropy repeats. *)
Definition dependency_in_file_project : text :=
  sample_project ++ ln 0 (lit "// 8001E6F3800443E294EF2808").

Definition dependency_in_file_world : world :=
  {| fs := {[ project_path := dependency_in_file_project ]}; stdout := [];
     entropy := sample_entropy; draws := 0 |}.

Definition repeating_world : world :=
  {| fs := {[ project_path := sample_project ]}; stdout := [];
     entropy := λ _, 0%N; draws := 0 |}.

(** C10 as the specification states it has the dependency identifier
    exactly once in the output. Nothing in the script secures that: an
    identifier is not compared with the project file nor with the other
    identifiers. When the project file holds the ninth identifier it is
    twice in the output; when the entropy repeats, all nine identifiers
    are the same and it is there nineteen times, once of them as the
    identifier of the native target itself. *)
Lemma dependency_identifier_not_unique :
  (nth_id dependency_in_file_world 8 = lit "8001E6F3800443E294EF2808" ∧
   fst (add_test_target project_path dependency_in_file_world) = Ret true ∧
   ∃ out,
     fs (snd (add_test_target project_path dependency_in_file_world))
       !! project_path = Some out ∧
     occurs (ln 4 (lit "8001E6F3800443E294EF2808 /* PBXTargetDependency */,"))
       out ∧
     count_sub (lit "8001E6F3800443E294EF2808") out = 2) ∧
  (nth_id repeating_world 8 = lit "000000000000400080000000" ∧
   nth_id repeating_world 0 = nth_id repeating_world 8 ∧
   fst (add_test_target project_path repeating_world) = Ret true ∧
   ∃ out,
     fs (snd (add_test_target project_path repeating_world))
       !! project_path = Some out ∧
     occurs (ln 4 (lit "000000000000400080000000 /* PBXTargetDependency */,"))
       out ∧
     occurs (ln 2 (lit "000000000000400080000000 /* PaykitDemoTests */ = {") ++
             ln 3 (lit "isa = PBXNativeTarget;")) out ∧
     count_sub (lit "000000000000400080000000") out = 19).
Proof.
  split; split_and!; try (vm_compute; reflexivity).
  - eexists. split; [vm_compute; reflexivity |]. split.
    + apply occurs_by_search. vm_compute. by eexists.
    + vm_compute. reflexivity.
  - eexists. split; [vm_compute; reflexivity |]. split_and!.
    + apply occurs_by_search. vm_compute. by eexists.
    + apply occurs_by_search. vm_compute. by eexists.
    + vm_compute. reflexivity.
Qed.

(** * Further properties of the script *)

(** ** What a run leaves alone *)

(** X1. Whatever the project file holds, and whether it is there at all, a
    run of [add_test_target] touches no other file and creates none, leaves
    the source of entropy as it is, and only adds to what was printed. When
    there is no file at the path the run raises [FileNotFoundError] at
    once: nothing is printed and no identifier is generated. *)
Theorem add_test_target_frame (path : string) (w : world) :
  (∀ other, other ≠ path →
     fs (snd (add_test_target path w)) !! other = fs w !! other) ∧
  dom (fs (snd (add_test_target path w))) = dom (fs w) ∧
  entropy (snd (add_test_target path w)) = entropy w ∧
  stdout w `prefix_of` stdout (snd (add_test_target path w)) ∧
  draws w ≤ draws (snd (add_test_target path w)) ∧
  (fs w !! path = None →
     add_test_target path w = (Raise (FileNotFoundError path), w)).
Proof.
  destruct (fs w !! path) as [content|] eqn:Hfile.
  - rewrite (add_test_target_run _ _ _ Hfile).
    destruct (re_search main_target_pat content) as [m|]; simpl.
    + split_and!; [| | done | | lia | done].
      * intros other Hne. by rewrite lookup_insert_ne.
      * apply dom_insert_lookup_L. by eexists.
      * rewrite <- app_assoc. by apply prefix_app_r.
    + split_and!; [done | done | done | by apply prefix_app_r | lia | done].
  - assert (add_test_target path w = (Raise (FileNotFoundError path), w))
      as Hrun.
    { unfold add_test_target, bind at 1, read_file. by rewrite Hfile. }
    rewrite Hrun. simpl. split_and!; done.
Qed.

(** X2. A run generates its eight identifiers before it looks for the
    main target: a run that aborts has still drawn eight blocks of
    entropy. A run that goes on draws a ninth exactly when it finds the
    native-target marker, and none besides. *)
Theorem add_test_target_draws
    (path : string) (w : world) (content : text) :
  fs w !! path = Some content →
  (¬ occurs (lit "5224F5F42EED89A600A4DEB4 /* PaykitDemo */") content →
     draws (snd (add_test_target path w)) = 8 + draws w) ∧
  (occurs (lit "5224F5F42EED89A600A4DEB4 /* PaykitDemo */") content →
   occurs (lit "/* End PBXNativeTarget section */")
     (after_frameworks_phase w content) →
     draws (snd (add_test_target path w)) = 9 + draws w) ∧
  (occurs (lit "5224F5F42EED89A600A4DEB4 /* PaykitDemo */") content →
   ¬ occurs (lit "/* End PBXNativeTarget section */")
       (after_frameworks_phase w content) →
     draws (snd (add_test_target path w)) = 8 + draws w).
Proof.
  intros Hfile. rewrite (add_test_target_run _ _ _ Hfile). split_and!.
  - intros Hno.
    assert (re_search main_target_pat content = None) as ->; [|done].
    apply re_search_None. by intros H%has_match_lit.
  - intros [m Hm]%has_match_lit%re_search_is_Some
           [m' Hm']%has_match_lit%re_search_is_Some.
    change (re_search main_target_pat content = Some m) in Hm.
    rewrite Hm. simpl. unfold ids_drawn.
    change (re_search native_target_end_pat
              (after_frameworks_phase w content) = Some m') in Hm'.
    by rewrite Hm'.
  - intros [m Hm]%has_match_lit%re_search_is_Some Hno.
    change (re_search main_target_pat content = Some m) in Hm.
    rewrite Hm. simpl. unfold ids_drawn.
    assert (re_search native_target_end_pat
              (after_frameworks_phase w content) = None) as ->; [|done].
    apply re_search_None. by intros H%has_match_lit.
Qed.

Lemma add_test_target_draws_witness :
  draws (snd (add_test_target project_path bare_world)) = 8 ∧
  draws (snd (add_test_target project_path sample_world)) = 9 ∧
  draws (snd (add_test_target project_path main_only_world)) = 8.
Proof.
  split_and!.
  - destruct (add_test_target_draws project_path bare_world bare_project)
      as (H & _); [apply lookup_singleton_eq |].
    apply H, not_occurs_by_search. vm_compute. reflexivity.
  - destruct (add_test_target_draws project_path sample_world sample_project
                sample_project_file) as (_ & H & _).
    apply H; [exact sample_project_main_target |].
    apply occurs_by_search. vm_compute. by eexists.
  - destruct (add_test_target_draws project_path main_only_world
                main_only_project) as (_ & _ & H);
      [apply lookup_singleton_eq |].
    apply H.
    + apply occurs_by_search. vm_compute. by eexists.
    + apply not_occurs_by_search. vm_compute. reflexivity.
Defined.

(** ** Braces and parentheses *)

(** The number of [c] in a text. *)
Definition count_char (c : ascii) (s : text) : nat :=
  length (filter (λ x, x = c) s).

(** How many more [o] than [c] a text has. *)
Definition surplus (o c : ascii) (s : text) : Z :=
  Z.of_nat (count_char o s) - Z.of_nat (count_char c s).

Lemma count_char_app (c : ascii) (a b : text) :
  count_char c (a ++ b) = count_char c a + count_char c b.
Proof. unfold count_char. by rewrite filter_app, length_app. Qed.

Lemma surplus_app (o c : ascii) (a b : text) :
  surplus o c (a ++ b) = (surplus o c a + surplus o c b)%Z.
Proof. unfold surplus. rewrite !count_char_app. lia. Qed.

Lemma surplus_insert_at (o c : ascii) (pos : nat) (new s : text) :
  surplus o c new = 0%Z → surplus o c (insert_at pos new s) = surplus o c s.
Proof.
  intros Hnew. unfold insert_at. rewrite !surplus_app, Hnew.
  rewrite <- (take_drop pos s) at 3. rewrite surplus_app. lia.
Qed.

Lemma surplus_spliced (o c : ascii) (s out : text) (blocks : list text) :
  spliced s blocks out →
  Forall (λ b, surplus o c b = 0%Z) blocks →
  surplus o c out = surplus o c s.
Proof.
  induction 1 as [s|s blocks mid pos new _ IH]; [done |].
  intros [Hblocks Hnew]%Forall_app. inversion Hnew as [|? ? Hzero _]; subst.
  rewrite surplus_insert_at by exact Hzero. by apply IH.
Qed.

(** The number of [c] in the fixed text of a block. *)
Fixpoint txt_count (c : ascii) (ps : list piece) : nat :=
  match ps with
  | [] => 0
  | Txt t :: ps' => count_char c t + txt_count c ps'
  | Id _ :: ps' => txt_count c ps'
  end.

Lemma count_char_hex (c : ascii) (i : text) :
  ¬ is_upper_hex c → Forall is_upper_hex i → count_char c i = 0.
Proof.
  intros Hc. unfold count_char. induction 1 as [|x i Hx _ IH]; [done |].
  rewrite filter_cons_False; [done |]. by intros ->.
Qed.

Lemma count_char_flatten (c : ascii) (n : nat) (ps : list piece) :
  ¬ is_upper_hex c → ids_hex n ps →
  count_char c (flatten ps) = txt_count c ps.
Proof.
  intros Hc. induction 1 as [|[t|i] ps Hp _ IH]; simpl; [done | |];
    rewrite count_char_app, IH; [done |].
  by rewrite (count_char_hex c i Hc (proj2 Hp)).
Qed.

(** A block has as many opening as closing braces, and as many opening as
    closing parentheses. *)
Definition balanced (b : text) : Prop :=
  surplus "{" "}" b = 0%Z ∧ surplus "(" ")" b = 0%Z.

Lemma balanced_pieces (b : text) (ps : list piece) :
  b = flatten ps → ids_hex 24 ps →
  (txt_count "{" ps =? txt_count "}" ps) &&
  (txt_count "(" ps =? txt_count ")" ps) = true →
  balanced b.
Proof.
  intros -> Hids [Hb%Nat.eqb_eq Hp%Nat.eqb_eq]%andb_true_iff.
  assert (∀ c, c ∈ lit "{}()" → ¬ is_upper_hex c) as Hc.
  { intros c Hin Hhex%is_upper_hex_b_spec. revert Hin Hhex. simpl.
    rewrite !elem_of_cons, elem_of_nil.
    intros [->|[->|[->|[->|[]]]]]; by vm_compute. }
  unfold balanced, surplus.
  rewrite !(count_char_flatten _ 24 ps) by (try done; apply Hc; elem_of_text).
  lia.
Qed.

Lemma inserted_blocks_balanced (w : world) (content : text) :
  Forall balanced (inserted_blocks w content).
Proof.
  unfold inserted_blocks.
  destruct (re_search main_target_pat content); [|constructor].
  repeat apply Forall_app_2; try apply fired_Forall.
  - apply (balanced_pieces _ _ (test_file_ref_flat _)); [|done].
    repeat constructor; apply ids_hex_nth_id.
  - unfold group_blocks.
    destruct (re_search group_section_pat _); [|constructor].
    apply Forall_app_2; apply fired_Forall.
    + apply (balanced_pieces _ _ (test_group_ref_flat _)); [|done].
      repeat constructor; apply ids_hex_nth_id.
    + apply (balanced_pieces _ _ (test_group_def_flat _)); [|done].
      repeat constructor; apply ids_hex_nth_id.
  - apply (balanced_pieces _ _ (test_product_ref_flat _)); [|done].
    repeat constructor; apply ids_hex_nth_id.
  - apply (balanced_pieces _ _ (test_sources_phase_flat _)); [|done].
    repeat constructor; apply ids_hex_nth_id.
  - apply (balanced_pieces _ _ (test_frameworks_phase_flat _)); [|done].
    repeat constructor; apply ids_hex_nth_id.
  - apply (balanced_pieces _ _ (test_target_flat _ _ _ _ _ _)); [|done].
    repeat constructor; apply ids_hex_nth_id.
  - apply (balanced_pieces _ _ (test_target_ref_flat _)); [|done].
    repeat constructor; apply ids_hex_nth_id.
  - apply (balanced_pieces _ _ (test_debug_config_flat _ _ _)); [|done].
    repeat constructor; apply ids_hex_nth_id.
  - apply (balanced_pieces _ _ (test_target_attrs_flat _)); [|done].
    repeat constructor; try apply ids_hex_nth_id; elem_of_text.
Qed.

(** X3. Every block the script inserts has as many opening as closing
    braces and parentheses, so a run never changes how many braces or
    parentheses the project file has left open: if they were balanced
    before, they are balanced after. *)
Theorem braces_stay_balanced (path : string) (w : world) (content : text) :
  fs w !! path = Some content →
  Forall balanced (inserted_blocks w content) ∧
  ∃ out,
    fs (snd (add_test_target path w)) !! path = Some out ∧
    surplus "{" "}" out = surplus "{" "}" content ∧
    surplus "(" ")" out = surplus "(" ")" content.
Proof.
  intros Hfile. pose proof (inserted_blocks_balanced w content) as Hbal.
  split; [done |].
  assert (∃ out, fs (snd (add_test_target path w)) !! path = Some out ∧
                 spliced content (inserted_blocks w content) out)
    as (out & Hout & Hsp).
  { rewrite (add_test_target_run _ _ _ Hfile).
    destruct (re_search main_target_pat content) as [m|] eqn:Hm.
    - exists (after_target_attrs w content). split.
      + apply lookup_insert_eq.
      + by apply edits_spliced with m.
    - exists content. split; [done |].
      unfold inserted_blocks. rewrite Hm. constructor. }
  exists out. split_and!; [done | |].
  - apply (surplus_spliced _ _ _ _ _ Hsp).
    eapply Forall_impl; [exact Hbal |]. by intros b [H _].
  - apply (surplus_spliced _ _ _ _ _ Hsp).
    eapply Forall_impl; [exact Hbal |]. by intros b [_ H].
Qed.

Lemma braces_stay_balanced_witness :
  surplus "{" "}" sample_project = 0%Z ∧
  ∃ out,
    fs (snd (add_test_target project_path sample_world)) !! project_path =
      Some out ∧
    surplus "{" "}" out = 0%Z ∧
    surplus "(" ")" out = surplus "(" ")" sample_project.
Proof.
  split; [vm_compute; reflexivity |].
  destruct (braces_stay_balanced project_path sample_world sample_project
              sample_project_file) as (_ & out & Hout & Hb & Hp).
  exists out. split_and!; [exact Hout | | exact Hp].
  rewrite Hb. vm_compute. reflexivity.
Defined.

(** ** The identifiers of the project file *)

(** X4. No insertion cuts through an identifier or makes one across its
    border: a word of upper-case hexadecimal digits occurs in the file
    after the run as often as it did before, plus as often as it occurs in
    the inserted blocks. *)
Theorem identifiers_are_not_cut
    (path : string) (w : world) (content p : text) :
  fs w !! path = Some content →
  p ≠ [] → Forall is_upper_hex p →
  ∃ out,
    fs (snd (add_test_target path w)) !! path = Some out ∧
    count_sub p out =
      count_sub p content +
      sum_list (count_sub p <$> inserted_blocks w content).
Proof.
  intros Hfile Hne Hhex. rewrite (add_test_target_run _ _ _ Hfile).
  destruct (re_search main_target_pat content) as [m|] eqn:Hm.
  - exists (after_target_attrs w content). split.
    + apply lookup_insert_eq.
    + by apply count_sub_edits with m.
  - exists content. split; [done |].
    unfold inserted_blocks. rewrite Hm. simpl. lia.
Qed.

Lemma identifiers_are_not_cut_witness :
  ∃ out,
    fs (snd (add_test_target project_path sample_world)) !! project_path =
      Some out ∧
    count_sub (lit "5224F5F42EED89A600A4DEB4") out =
      count_sub (lit "5224F5F42EED89A600A4DEB4") sample_project + 1.
Proof.
  assert (lit "5224F5F42EED89A600A4DEB4" ≠ []) as Hne by done.
  assert (Forall is_upper_hex (lit "5224F5F42EED89A600A4DEB4")) as Hhex
    by (repeat constructor; elem_of_text).
  destruct (identifiers_are_not_cut project_path sample_world sample_project
              (lit "5224F5F42EED89A600A4DEB4") sample_project_file Hne Hhex)
    as (out & Hout & Hcount).
  exists out. split; [exact Hout |]. rewrite Hcount.
  vm_compute. reflexivity.
Defined.

(** ** The targets list and the target attributes *)









(** ** The two patterns with [[^}]+] *)

Lemma starts_with_before_char (p a b : text) (c : ascii) :
  Forall (λ x, x ≠ c) p →
  starts_with p (a ++ c :: b) = starts_with p a.
Proof.
  intros Hp. revert a. induction Hp as [|y p Hy _ IH]; intros a.
  - by destruct a.
  - destruct a as [|x a]; simpl.
    + destruct (Ascii.eqb y c) eqn:E; [|done].
      by apply Ascii.eqb_eq in E.
    + by rewrite IH.
Qed.

Lemma starts_with_length (p s : text) :
  starts_with p s = true → length p ≤ length s.
Proof. intros [t ->]%starts_with_spec. rewrite length_app. lia. Qed.

Lemma span_not_exact (c : ascii) (x rest : text) :
  Forall (λ a, a ≠ c) x → (rest = [] ∨ ∃ r, rest = c :: r) →
  span_not c (x ++ rest) = length x.
Proof.
  intros Hx Hrest. induction Hx as [|a x Ha _ IH]; simpl.
  - destruct Hrest as [->|[r ->]]; [done |]. simpl.
    by rewrite Ascii.eqb_refl.
  - apply Ascii.eqb_neq in Ha. by rewrite Ha, IH.
Qed.

Lemma backtrack_first
    (k : text → option nat) (s : text) (n j m : nat) :
  1 ≤ j ≤ n → k (drop j s) = Some m →
  (∀ j', j < j' ≤ n → k (drop j' s) = None) →
  backtrack k s n = Some (j + m).
Proof.
  intros Hj Hk Hnone. induction n as [|n IH]; [lia |]. cbn [backtrack].
  destruct (decide (j = S n)) as [<-|Hne]; [by rewrite Hk |].
  rewrite (Hnone (S n)) by lia. apply IH; [lia |].
  intros j' Hj'. apply Hnone. lia.
Qed.

Lemma first_occurrence_starts_with (p pre post s : text) (j : nat) :
  first_occurrence p pre post s → j < length pre →
  starts_with p (drop j s) = false.
Proof.
  intros [Hs Hfirst] Hj.
  destruct (starts_with p (drop j s)) eqn:E; [|done].
  apply starts_with_spec in E as [t Ht].
  specialize (Hfirst (take j s) t).
  rewrite <- Ht, take_drop, length_take in Hfirst.
  specialize (Hfirst eq_refl). lia.
Qed.

(** The first character of [l] does not come again in [l]: two occurrences
    of [l] do not overlap. *)
Definition head_fresh (l : text) : bool :=
  match l with
  | [] => false
  | c :: t => forallb (λ x, negb (Ascii.eqb c x)) t
  end.

Lemma head_fresh_spec (l t : text) (o : nat) :
  head_fresh l = true → 1 ≤ o → o < length l →
  starts_with l (drop o (l ++ t)) = false.
Proof.
  destruct l as [|c l]; [done |]. simpl. intros Hfresh Ho Hlt.
  destruct o as [|o]; [lia |]. simpl.
  rewrite drop_app_le by lia.
  destruct (drop o l) as [|x d] eqn:E.
  { apply (f_equal length) in E. rewrite length_drop in E. simpl in E. lia. }
  rewrite forallb_forall in Hfresh. specialize (Hfresh x).
  simpl. rewrite negb_true_iff in Hfresh. rewrite Hfresh; [done |].
  apply list_elem_of_In, (subseteq_drop o l). rewrite E. by left.
Qed.

Lemma match_here_lit_cons (p : text) (r : regex) (s : text) :
  match_here (Lit p :: r) s =
  if starts_with p s
  then match match_here r (drop (length p) s) with
       | Some m => Some (length p + m)
       | None => None
       end
  else None.
Proof. done. Qed.

Lemma match_here_plus (c : ascii) (r : regex) (s : text) :
  match_here (PlusNot c :: r) s = backtrack (match_here r) s (span_not c s).
Proof. done. Qed.

(** Where a pattern [p[^c]+l] matches: behind the first [p], over a
    stretch without [c], up to the last [l] before the next [c]. Here [l]
    stands once in that stretch. *)
Lemma re_search_braced (p l pre mid stretch rest : text) (c : ascii) :
  first_occurrence p pre (mid ++ l ++ stretch ++ rest)
    (pre ++ p ++ mid ++ l ++ stretch ++ rest) →
  mid ≠ [] →
  Forall (λ x, x ≠ c) mid → Forall (λ x, x ≠ c) l →
  Forall (λ x, x ≠ c) stretch →
  (rest = [] ∨ ∃ r, rest = c :: r) →
  head_fresh l = true → ¬ occurs l stretch →
  re_search [Lit p; PlusNot c; Lit l] (pre ++ p ++ mid ++ l ++ stretch ++ rest)
  = Some (length pre, length pre + (length p + (length mid + length l))).
Proof.
  intros Hfirst Hmid Hcm Hcl Hcs Hrest Hfresh Hno.
  set (s := pre ++ p ++ mid ++ l ++ stretch ++ rest) in *.
  assert (∀ j, length mid < j ≤ length mid + (length l + length stretch) →
            match_here [Lit l] (drop j (mid ++ l ++ stretch ++ rest)) = None)
    as Hlate.
  { intros j Hj. rewrite match_here_lit, drop_app_ge by lia.
    assert (starts_with l (drop (j - length mid) (l ++ stretch ++ rest))
            = false) as ->; [|done].
    destruct (decide (j - length mid < length l)) as [Hlt|Hge].
    { apply head_fresh_spec; [done | lia | done]. }
    rewrite drop_app_ge by lia.
    set (o := j - length mid - length l).
    assert (o ≤ length stretch) as Ho by (unfold o; lia).
    rewrite drop_app_le by done.
    assert (starts_with l (drop o stretch) = false) as Hin.
    { destruct (starts_with l (drop o stretch)) eqn:E; [|done].
      exfalso. apply Hno. apply starts_with_spec in E as [t Ht].
      exists (take o stretch), t. by rewrite <- Ht, take_drop. }
    destruct Hrest as [->|[r ->]]; [by rewrite app_nil_r |].
    by rewrite starts_with_before_char. }
  assert (match_here [Lit p; PlusNot c; Lit l] (drop (length pre) s)
          = Some (length p + (length mid + length l))) as Hhere.
  { unfold s. rewrite drop_app_length.
    rewrite match_here_lit_cons, starts_with_app, drop_app_length.
    rewrite match_here_plus.
    assert (span_not c (mid ++ l ++ stretch ++ rest) =
              length mid + (length l + length stretch)) as ->.
    { rewrite !app_assoc, <- (app_assoc mid l stretch).
      rewrite span_not_exact; [by rewrite !length_app | | done].
      by repeat apply Forall_app_2. }
    rewrite (backtrack_first _ _ _ (length mid) (length l)); [done | | |].
    - destruct mid; [done | simpl; lia].
    - rewrite drop_app_length, match_here_lit. by rewrite starts_with_app.
    - done. }
  unfold re_search.
  rewrite (search_from_first _ s 0 (length pre) _ ltac:(unfold s; rewrite length_app; lia) Hhere).
  - done.
  - intros j Hj. rewrite match_here_lit_cons.
    by rewrite (first_occurrence_starts_with _ _ _ _ _ Hfirst Hj).
Qed.

Lemma insert_after_braced
    (p l pre mid stretch rest new : text) (c : ascii) :
  first_occurrence p pre (mid ++ l ++ stretch ++ rest)
    (pre ++ p ++ mid ++ l ++ stretch ++ rest) →
  mid ≠ [] →
  Forall (λ x, x ≠ c) mid → Forall (λ x, x ≠ c) l →
  Forall (λ x, x ≠ c) stretch →
  (rest = [] ∨ ∃ r, rest = c :: r) →
  head_fresh l = true → ¬ occurs l stretch →
  insert_after [Lit p; PlusNot c; Lit l] new
    (pre ++ p ++ mid ++ l ++ stretch ++ rest)
  = pre ++ p ++ mid ++ l ++ new ++ stretch ++ rest.
Proof.
  intros. unfold insert_after. rewrite re_search_braced by done.
  replace (length pre + (length p + (length mid + length l)))
    with (length (pre ++ p ++ mid ++ l)) by (rewrite !length_app; lia).
  replace (pre ++ p ++ mid ++ l ++ stretch ++ rest)
    with ((pre ++ p ++ mid ++ l) ++ stretch ++ rest)
    by (by rewrite <- !app_assoc).
  rewrite insert_at_app. by rewrite <- !app_assoc.
Qed.

(** ** The Products group and the test group *)

(** X7. The Products group, in a run on a project file that has the
    main-target anchor: when, in the content the edit searches (the
    project file after the edits for the file reference and the test
    group), the first Products anchor, then a stretch without a closing
    brace, then [children = (] for the last time before the next closing
    brace stand, the script puts the entry of the test product right
    behind that [children = (],
    on the same line and before the children already listed, under the
    identifier of the file reference; [children = (] with the entry
    behind it is in the file that is written. *)
Theorem product_listed
    (path : string) (w : world) (content pre mid stretch rest : text) :
  fs w !! path = Some content →
  occurs (lit "5224F5F42EED89A600A4DEB4 /* PaykitDemo */") content →
  let group := lit "5224F5F62EED89A600A4DEB4 /* Products */ = {" in
  let children := lit "children = (" in
  let test_product_id := nth_id w 1 in
  let entry := ln 4 (test_product_id ++ lit " /* PaykitDemoTests.xctest */,") in
  first_occurrence group pre (mid ++ children ++ stretch ++ rest)
    (after_group w content) →
  mid ≠ [] → "}"%char ∉ mid → "}"%char ∉ stretch →
  ¬ occurs children stretch →
  (rest = [] ∨ ∃ r, rest = "}"%char :: r) →
  after_product_ref w content =
    pre ++ group ++ mid ++ children ++ entry ++ stretch ++ rest ∧
  ∃ out,
    fs (snd (add_test_target path w)) !! path = Some out ∧
    occurs (children ++ entry) out.
Proof.
  intros Hfile Hmain%has_match_lit group children pid entry
    Hfirst Hmid Hcm Hcs Hno Hrest.
  assert (after_product_ref w content =
            pre ++ group ++ mid ++ children ++ entry ++ stretch ++ rest)
    as Heq.
  { unfold after_product_ref, add_product_ref, products_group_pat.
    pose proof Hfirst as [Hs _]. rewrite Hs in Hfirst |- *.
    rewrite (insert_after_braced group children pre mid stretch rest);
      try done.
    - by apply Forall_forall; intros x Hx ->.
    - by vm_compute; repeat constructor.
    - by apply Forall_forall; intros x Hx ->. }
  split; [done |].
  destruct (written_content _ _ _ Hfile Hmain) as (_ & _ & Hout).
  eexists. split; [exact Hout |].
  apply kept_from_product_ref
    with (a := shape_of 24 (Txt children :: test_product_ref_pieces pid)).
  - apply fits_pieces;
      [unfold entry, children, test_product_ref_pieces; same_text |].
    repeat constructor; apply ids_hex_nth_id.
  - done.
  - rewrite Heq. exists (pre ++ group ++ mid), (stretch ++ rest).
    by rewrite <- !app_assoc.
Qed.

Lemma product_listed_witness :
  after_product_ref sample_world sample_project =
    take 636 (after_group sample_world sample_project) ++
    ln 4 (lit "80003CDE7000427C929DE501 /* PaykitDemoTests.xctest */,") ++
    drop 636 (after_group sample_world sample_project).
Proof.
  set (s := after_group sample_world sample_project).
  assert (first_occurrence
            (lit "5224F5F62EED89A600A4DEB4 /* Products */ = {")
            (take 558 s)
            (take 23 (drop 601 s) ++ lit "children = (" ++
             take 56 (drop 636 s) ++ drop 692 s) s) as Hfirst.
  { replace (take 23 (drop 601 s) ++ lit "children = (" ++
             take 56 (drop 636 s) ++ drop 692 s) with (drop 601 s)
      by (vm_compute; reflexivity).
    apply first_occurrence_by_search. vm_compute. reflexivity. }
  destruct (product_listed project_path sample_world sample_project
              (take 558 s) (take 23 (drop 601 s)) (take 56 (drop 636 s))
              (drop 692 s) sample_project_file sample_project_main_target
              Hfirst) as [Heq _].
  - vm_compute. discriminate.
  - vm_compute. intros H. repeat (inversion H as [|? ? ? H']; clear H; rename H' into H).
  - vm_compute. intros H. repeat (inversion H as [|? ? ? H']; clear H; rename H' into H).
  - apply not_occurs_by_search. vm_compute. reflexivity.
  - right. vm_compute. by eexists.
  - rewrite Heq. vm_compute. reflexivity.
Defined.



(** ** A second run *)

Lemma file_ref_line_written (w : world) (content : text) :
  occurs (lit "/* Begin PBXFileReference section */") content →
  occurs (lit "/* Begin PBXFileReference section */" ++
          test_file_ref (nth_id w 1)) (after_target_attrs w content).
Proof.
  intros (pre & post & Hfirst)%occurs_first.
  apply kept_from_file_ref
    with (a := shape_of 24 (file_ref_line_pieces (nth_id w 1))).
  - apply fits_pieces;
      [unfold test_file_ref, file_ref_line_pieces; same_text |].
    repeat constructor; apply ids_hex_nth_id.
  - done.
  - unfold after_file_ref, add_file_ref, file_ref_section_pat.
    rewrite (insert_after_lit _ _ _ _ _ Hfirst).
    exists pre, post. by rewrite <- !app_assoc.
Qed.

Lemma test_file_ref_length (w : world) (k : nat) :
  length (test_file_ref (nth_id w k)) = 207.
Proof.
  unfold test_file_ref, ln. rewrite !length_app, nth_id_length. reflexivity.
Qed.

Lemma run_grows (w : world) (content : text) (m : nat * nat) :
  re_search main_target_pat content = Some m →
  occurs (lit "/* Begin PBXFileReference section */") content →
  length content + 207 ≤ length (after_target_attrs w content).
Proof.
  intros Hm Hmarker%has_match_lit.
  rewrite (spliced_length _ _ _ (edits_spliced w content m Hm)).
  unfold inserted_blocks. rewrite Hm. unfold fired at 1.
  destruct (re_search_is_Some _ _ Hmarker) as [m' Hm'].
  change (re_search file_ref_section_pat content = Some m') in Hm'.
  rewrite Hm'.
  match goal with
  | |- context [sum_list (length <$> ([?x] ++ ?r))] =>
      change (sum_list (length <$> ([x] ++ r)))
        with (length x + sum_list (length <$> r))
  end.
  rewrite test_file_ref_length. lia.
Qed.

(** X9. With the main-target anchor followed by a space and
    [/* Begin PBXFileReference section */] in the project file, the
    script run again on the file it wrote succeeds again and inserts
    again, under the identifiers that come next: the file grows by at
    least the 207 characters of the file-reference line in each run, and
    after the second run the line of the first run is still in the file
    while the line of the second stands right behind the marker. *)
Theorem second_run_inserts_again
    (path : string) (w : world) (content : text) :
  fs w !! path = Some content →
  occurs (lit "5224F5F42EED89A600A4DEB4 /* PaykitDemo */ ") content →
  occurs (lit "/* Begin PBXFileReference section */") content →
  let once := snd (add_test_target path w) in
  let twice := snd (add_test_target path once) in
  fst (add_test_target path w) = Ret true ∧
  fst (add_test_target path once) = Ret true ∧
  nth_id once 1 = nth_id w (1 + ids_drawn w content) ∧
  ∃ out1 out2,
    fs once !! path = Some out1 ∧
    fs twice !! path = Some out2 ∧
    length content + 207 ≤ length out1 ∧
    length out1 + 207 ≤ length out2 ∧
    occurs (test_file_ref (nth_id w 1)) out2 ∧
    occurs (lit "/* Begin PBXFileReference section */" ++
            test_file_ref (nth_id once 1)) out2.
Proof.
  intros Hfile Hspace Hmarker once twice.
  assert (occurs (lit "5224F5F42EED89A600A4DEB4 /* PaykitDemo */") content)
    as Hmain%has_match_lit.
  { apply occurs_trans
      with (lit "5224F5F42EED89A600A4DEB4 /* PaykitDemo */ "); [|done].
    by exists [], (lit " "). }
  destruct (written_content _ _ _ Hfile Hmain) as (Hret & _ & Hout).
  fold once in Hout.
  set (out1 := after_target_attrs w content) in *.
  assert (∀ x, Forall2 fits (map Some x) x) as Hfixed
    by apply fits_fixed.
  assert (occurs (lit "5224F5F42EED89A600A4DEB4 /* PaykitDemo */") out1)
    as Hmain1%has_match_lit.
  { apply occurs_trans
      with (lit "5224F5F42EED89A600A4DEB4 /* PaykitDemo */ ");
      [by exists [], (lit " ") |].
    eapply kept_from_file_ref; [apply Hfixed | done |].
    by eapply over_file_ref; [apply Hfixed | |]. }
  assert (occurs (lit "/* Begin PBXFileReference section */" ++
                  test_file_ref (nth_id w 1)) out1) as Hline1
    by by apply file_ref_line_written.
  assert (occurs (lit "/* Begin PBXFileReference section */") out1)
    as Hmarker1.
  { eapply occurs_trans; [|exact Hline1]. by exists [], (test_file_ref (nth_id w 1)). }
  destruct (written_content _ _ _ Hout Hmain1) as (Hret2 & _ & Hout2).
  fold twice in Hout2.
  destruct (re_search_is_Some _ _ Hmain) as [m Hm].
  change (re_search main_target_pat content = Some m) in Hm.
  destruct (re_search_is_Some _ _ Hmain1) as [m1 Hm1].
  change (re_search main_target_pat out1 = Some m1) in Hm1.
  split_and!; [done | done | |].
  - unfold once. rewrite (add_test_target_run _ _ _ Hfile), Hm.
    unfold nth_id. reflexivity.
  - exists out1, (after_target_attrs once out1).
    split_and!; [done | done | | | |].
    + by apply run_grows with m.
    + by apply run_grows with m1.
    + apply kept_from_file_ref
        with (a := shape_of 24 (test_file_ref_pieces (nth_id w 1))).
      * apply fits_pieces;
          [unfold test_file_ref, test_file_ref_pieces; same_text |].
        repeat constructor; apply ids_hex_nth_id.
      * done.
      * apply over_file_ref
          with (a := shape_of 24 (test_file_ref_pieces (nth_id w 1))).
        -- apply fits_pieces;
             [unfold test_file_ref, test_file_ref_pieces; same_text |].
           repeat constructor; apply ids_hex_nth_id.
        -- done.
        -- eapply occurs_trans; [|exact Hline1].
           exists (lit "/* Begin PBXFileReference section */"), [].
           by rewrite app_nil_r.
    + by apply file_ref_line_written.
Qed.

Lemma second_run_inserts_again_witness :
  ∃ out2,
    fs (snd (add_test_target project_path
               (snd (add_test_target project_path sample_world))))
      !! project_path = Some out2 ∧
    length sample_project + 414 ≤ length out2.
Proof.
  destruct (second_run_inserts_again project_path sample_world
              sample_project sample_project_file)
    as (_ & _ & _ & out1 & out2 & _ & Hout2 & Hlen1 & Hlen2 & _).
  - apply occurs_by_search. vm_compute. by eexists.
  - apply occurs_by_search. vm_compute. by eexists.
  - exists out2. split; [exact Hout2 | lia].
Defined.

(** The space behind the anchor matters: an anchor that runs into the
    Sources marker is cut by the Sources block of the first run, and the
    second run finds no main target. *)
Definition anchor_into_sources_project : text :=
  ln 0 (lit "/* Begin PBXFileReference section */") ++
  ln 0 (lit "5224F5F42EED89A600A4DEB4 /* PaykitDemo */* End PBXSourcesBuildPhase section */").

Definition anchor_into_sources_world : world :=
  {| fs := {[ project_path := anchor_into_sources_project ]}; stdout := [];
     entropy := sample_entropy; draws := 0 |}.

Example second_run_can_abort :
  occurs (lit "5224F5F42EED89A600A4DEB4 /* PaykitDemo */")
    anchor_into_sources_project ∧
  fst (add_test_target project_path anchor_into_sources_world) = Ret true ∧
  fst (add_test_target project_path
         (snd (add_test_target project_path anchor_into_sources_world))) =
    Ret false.
Proof.
  split_and!.
  - apply occurs_by_search. vm_compute. by eexists.
  - vm_compute. reflexivity.
  - vm_compute. reflexivity.
Qed.

(** ** How often each identifier of a run is in the file *)

(** The nine identifiers of a run, in the order they are drawn: target,
    product, sources phase, frameworks phase, configuration list, Debug,
    Release, group, dependency. *)
Definition run_ids (w : world) : list text := nth_id w <$> seq 0 9.

Lemma fired_length (r : regex) (s new : text) : length (fired r s new) ≤ 1.
Proof. unfold fired. destruct (re_search r s); simpl; lia. Qed.

Lemma fired_full (r : regex) (s new : text) :
  length (fired r s new) = 1 → fired r s new = [new].
Proof. unfold fired. by destruct (re_search r s). Qed.

Lemma group_blocks_length (id s : text) : length (group_blocks id s) ≤ 2.
Proof.
  unfold group_blocks. destruct (re_search group_section_pat s); [|simpl; lia].
  rewrite length_app.
  pose proof (fired_length main_group_pat s (test_group_ref id)).
  pose proof (fired_length group_end_pat
                (insert_after main_group_pat (test_group_ref id) s)
                (test_group_def id)).
  lia.
Qed.

Lemma group_blocks_full (id s : text) :
  length (group_blocks id s) = 2 →
  group_blocks id s = [test_group_ref id; test_group_def id].
Proof.
  unfold group_blocks. destruct (re_search group_section_pat s); [|done].
  rewrite length_app. intros H.
  pose proof (fired_length main_group_pat s (test_group_ref id)).
  pose proof (fired_length group_end_pat
                (insert_after main_group_pat (test_group_ref id) s)
                (test_group_def id)).
  by rewrite !fired_full by lia.
Qed.

(** A run in which every edit fires inserts these ten blocks. *)
Lemma inserted_blocks_full (w : world) (content : text) :
  length (inserted_blocks w content) = 10 →
  inserted_blocks w content =
    [test_file_ref (nth_id w 1);
     test_group_ref (nth_id w 7);
     test_group_def (nth_id w 7);
     test_product_ref (nth_id w 1);
     test_sources_phase (nth_id w 2);
     test_frameworks_phase (nth_id w 3);
     test_target (nth_id w 0) (nth_id w 4) (nth_id w 2) (nth_id w 3)
       (nth_id w 8) (nth_id w 1);
     test_target_ref (nth_id w 0);
     test_debug_config (nth_id w 5) (nth_id w 6) (nth_id w 4);
     test_target_attrs (nth_id w 0)].
Proof.
  unfold inserted_blocks.
  destruct (re_search main_target_pat content); [|done].
  rewrite !length_app. intros H.
  pose proof (group_blocks_length (nth_id w 7) (after_file_ref w content)).
  repeat match type of H with
  | context [length (fired ?r ?s ?n)] =>
      let L := fresh "L" in
      let E := fresh "E" in
      pose proof (fired_length r s n) as L;
      pose proof (fired_full r s n) as E;
      let x := fresh "x" in
      remember (fired r s n) as x
  end.
  rewrite (group_blocks_full (nth_id w 7) (after_file_ref w content)) by lia.
  repeat match goal with
  | E : length ?x = 1 → ?x = _ |- _ => rewrite E by lia; clear E
  end.
  done.
Qed.

Lemma run_ids_distinct (w : world) (j k : nat) :
  NoDup (run_ids w) → j < 9 → k < 9 → j ≠ k → nth_id w j ≠ nth_id w k.
Proof.
  intros Hnd Hj Hk Hjk Heq. apply Hjk.
  apply (NoDup_lookup (run_ids w) j k (nth_id w j)); [done | |].
  - unfold run_ids. rewrite list_lookup_fmap, lookup_seq_lt by done. done.
  - unfold run_ids. rewrite list_lookup_fmap, lookup_seq_lt by done.
    simpl. by rewrite Heq.
Qed.

Lemma run_ids_fresh (w : world) (content : text) (k : nat) :
  Forall (λ i, ¬ occurs i content) (run_ids w) → k < 9 →
  ¬ occurs (nth_id w k) content.
Proof.
  intros Hall Hk.
  apply (proj1 (Forall_lookup _ _) Hall k).
  unfold run_ids. by rewrite list_lookup_fmap, lookup_seq_lt by done.
Qed.

Lemma nth_id_hex_word (w : world) (k : nat) : hex_word (nth_id w k).
Proof.
  split; [|apply nth_id_hex].
  intros H. pose proof (nth_id_length w k) as Hlen. by rewrite H in Hlen.
Qed.

Section References.
Variable w : world.
Variable content : text.
Hypothesis distinct : NoDup (run_ids w).
Hypothesis fresh : Forall (λ i, ¬ occurs i content) (run_ids w).
Hypothesis main_target :
  occurs (lit "5224F5F42EED89A600A4DEB4 /* PaykitDemo */") content.

Lemma run_id_not_main (k : nat) : k < 9 → nth_id w k ≠ main_target_id.
Proof.
  intros Hk H. apply (run_ids_fresh w content k fresh Hk).
  destruct main_target as (pre & post & ->).
  exists pre, (lit " /* PaykitDemo */" ++ post). rewrite H.
  by rewrite (app_assoc main_target_id).
Qed.

(** Which identifiers are the same, among those of the run and the main
    target's. *)
Ltac same_id :=
  repeat match goal with
  | |- context [decide (nth_id w ?k = nth_id w ?k)] =>
      rewrite (decide_True (P := nth_id w k = nth_id w k)) by done
  | |- context [decide (nth_id w ?j = nth_id w ?k)] =>
      rewrite (decide_False (P := nth_id w j = nth_id w k))
        by (apply run_ids_distinct; [exact distinct | lia ..])
  | |- context [decide (nth_id w ?j = main_target_id)] =>
      rewrite (decide_False (P := nth_id w j = main_target_id))
        by (apply run_id_not_main; lia)
  end.

Ltac count_in_blocks :=
  rewrite
    (count_sub_pieces _ _ _ (nth_id_hex_word w _) (nth_id_length w _)
       (test_file_ref_flat _) eq_refl),
    (count_sub_pieces _ _ _ (nth_id_hex_word w _) (nth_id_length w _)
       (test_group_ref_flat _) eq_refl),
    (count_sub_pieces _ _ _ (nth_id_hex_word w _) (nth_id_length w _)
       (test_group_def_flat _) eq_refl),
    (count_sub_pieces _ _ _ (nth_id_hex_word w _) (nth_id_length w _)
       (test_product_ref_flat _) eq_refl),
    (count_sub_pieces _ _ _ (nth_id_hex_word w _) (nth_id_length w _)
       (test_sources_phase_flat _) eq_refl),
    (count_sub_pieces _ _ _ (nth_id_hex_word w _) (nth_id_length w _)
       (test_frameworks_phase_flat _) eq_refl),
    (count_sub_pieces _ _ _ (nth_id_hex_word w _) (nth_id_length w _)
       (test_target_flat _ _ _ _ _ _) eq_refl),
    (count_sub_pieces _ _ _ (nth_id_hex_word w _) (nth_id_length w _)
       (test_target_ref_flat _) eq_refl),
    (count_sub_pieces _ _ _ (nth_id_hex_word w _) (nth_id_length w _)
       (test_debug_config_flat _ _ _) eq_refl),
    (count_sub_pieces _ _ _ (nth_id_hex_word w _) (nth_id_length w _)
       (test_target_attrs_flat _) eq_refl)
    by (repeat constructor; apply nth_id_length).

Lemma run_id_count (k n : nat) (m : nat * nat) :
  re_search main_target_pat content = Some m →
  length (inserted_blocks w content) = 10 →
  k < 9 →
  nth k [3; 3; 2; 2; 2; 2; 2; 2; 1] 0 = n →
  count_sub (nth_id w k) (after_target_attrs w content) = n.
Proof.
  intros Hm Hfull Hk <-.
  rewrite (count_sub_edits _ _ _ m (nth_id_hex_word w k) Hm).
  assert (count_sub (nth_id w k) content = 0) as ->.
  { apply count_sub_zero; [apply nth_id_hex_word |].
    by apply run_ids_fresh. }
  rewrite (inserted_blocks_full _ _ Hfull).
  cbn [fmap list_fmap sum_list sum_list_with].
  count_in_blocks.
  unfold test_file_ref_pieces, test_group_ref_pieces, test_group_def_pieces,
    test_product_ref_pieces, test_sources_phase_pieces,
    test_frameworks_phase_pieces, test_target_pieces, test_target_ref_pieces,
    test_debug_config_pieces, test_target_attrs_pieces, one_id_pieces.
  cbn [id_hits app]. unfold id.
  do 9 (destruct k as [|k]; [same_id; reflexivity |]).
  lia.
Qed.
End References.

(** X10. A run in which every edit fires, on a project file that holds
    none of the nine identifiers of the run, these being pairwise
    distinct: in the file that is written the target and the product
    identifiers stand three times each, those of the two build phases, the
    configuration list, the two configurations and the group twice each,
    and the dependency identifier once; the main target's identifier
    stands once more than before, as [TestTargetID]. *)
Theorem generated_identifiers_referenced
    (path : string) (w : world) (content : text) :
  fs w !! path = Some content →
  occurs (lit "5224F5F42EED89A600A4DEB4 /* PaykitDemo */") content →
  length (inserted_blocks w content) = 10 →
  NoDup (run_ids w) →
  Forall (λ i, ¬ occurs i content) (run_ids w) →
  ∃ out,
    fs (snd (add_test_target path w)) !! path = Some out ∧
    (λ i, count_sub i out) <$> run_ids w = [3; 3; 2; 2; 2; 2; 2; 2; 1] ∧
    count_sub (lit "5224F5F42EED89A600A4DEB4") out =
      count_sub (lit "5224F5F42EED89A600A4DEB4") content + 1.
Proof.
  intros Hfile Hmain Hfull Hdistinct Hfresh.
  pose proof Hmain as Hmain'%has_match_lit.
  destruct (written_content _ _ _ Hfile Hmain') as (_ & _ & Hout).
  destruct (re_search_is_Some _ _ Hmain') as [m Hm].
  change (re_search main_target_pat content = Some m) in Hm.
  eexists. split_and!; [exact Hout | |].
  - unfold run_ids. cbn [seq fmap list_fmap].
    by rewrite !(run_id_count w content Hdistinct Hfresh Hmain _ _ m Hm Hfull)
      by (reflexivity || lia).
  - assert (hex_word main_target_id) as Hword.
    { split; [done |]. apply Forall_forall. intros c Hc.
      unfold is_upper_hex. revert c Hc. by apply Forall_forall; vm_compute;
        repeat constructor; elem_of_text. }
    change (lit "5224F5F42EED89A600A4DEB4") with main_target_id.
    rewrite (count_sub_edits _ _ _ m Hword Hm). f_equal.
    rewrite (inserted_blocks_full _ _ Hfull).
    cbn [fmap list_fmap sum_list sum_list_with].
    rewrite
      (count_sub_pieces _ _ _ Hword eq_refl (test_file_ref_flat _) eq_refl),
      (count_sub_pieces _ _ _ Hword eq_refl (test_group_ref_flat _) eq_refl),
      (count_sub_pieces _ _ _ Hword eq_refl (test_group_def_flat _) eq_refl),
      (count_sub_pieces _ _ _ Hword eq_refl (test_product_ref_flat _) eq_refl),
      (count_sub_pieces _ _ _ Hword eq_refl
         (test_sources_phase_flat _) eq_refl),
      (count_sub_pieces _ _ _ Hword eq_refl
         (test_frameworks_phase_flat _) eq_refl),
      (count_sub_pieces _ _ _ Hword eq_refl
         (test_target_flat _ _ _ _ _ _) eq_refl),
      (count_sub_pieces _ _ _ Hword eq_refl (test_target_ref_flat _) eq_refl),
      (count_sub_pieces _ _ _ Hword eq_refl
         (test_debug_config_flat _ _ _) eq_refl),
      (count_sub_pieces _ _ _ Hword eq_refl (test_target_attrs_flat _) eq_refl)
      by (repeat constructor; apply nth_id_length).
    unfold test_file_ref_pieces, test_group_ref_pieces, test_group_def_pieces,
      test_product_ref_pieces, test_sources_phase_pieces,
      test_frameworks_phase_pieces, test_target_pieces,
      test_target_ref_pieces, test_debug_config_pieces,
      test_target_attrs_pieces, one_id_pieces.
    cbn [id_hits app]. unfold id.
    repeat match goal with
    | |- context [decide (main_target_id = nth_id w ?k)] =>
        rewrite (decide_False (P := main_target_id = nth_id w k))
          by (intros Heq;
              by apply (run_id_not_main w content Hfresh Hmain k);
                [lia | symmetry])
    end.
    by rewrite decide_True.
Qed.

Lemma generated_identifiers_referenced_witness :
  ∃ out,
    fs (snd (add_test_target project_path sample_world)) !! project_path =
      Some out ∧
    count_sub (lit "8001E6F3800443E294EF2808") out = 1.
Proof.
  destruct (generated_identifiers_referenced project_path sample_world
              sample_project sample_project_file sample_project_main_target)
    as (out & Hout & Hcount & _).
  - vm_compute. reflexivity.
  - apply (bool_decide_unpack (NoDup (run_ids sample_world))).
    vm_compute. exact I.
  - unfold run_ids. cbn [seq fmap list_fmap].
    repeat constructor; apply not_occurs_by_search; vm_compute; reflexivity.
  - exists out. split; [exact Hout |].
    assert (((λ i, count_sub i out) <$> run_ids sample_world) !! 8 = Some 1)
      as H by (by rewrite Hcount).
    unfold run_ids in H. rewrite !list_lookup_fmap in H.
    cbn [seq lookup list_lookup fmap option_fmap option_map] in H.
    injection H as <-. f_equal.
Defined.

(** ** The version and the variant of the UUID in an identifier *)

(** The text of a number in [Hexadecimal.uint]. *)
Definition chars (d : Hexadecimal.uint) : text :=
  lit (NilEmpty.string_of_uint d).

(** The hexadecimal digit of value [k]. *)
Definition hex_char (k : N) : ascii :=
  nth (N.to_nat k) lower_hex "f"%char.

Definition digit_on (k : N) (d : Hexadecimal.uint) : Hexadecimal.uint :=
  nth (N.to_nat k)
    [Hexadecimal.D0; Hexadecimal.D1; Hexadecimal.D2; Hexadecimal.D3;
     Hexadecimal.D4; Hexadecimal.D5; Hexadecimal.D6; Hexadecimal.D7;
     Hexadecimal.D8; Hexadecimal.D9; Hexadecimal.Da; Hexadecimal.Db;
     Hexadecimal.Dc; Hexadecimal.Dd; Hexadecimal.De; Hexadecimal.Df]
    Hexadecimal.Df d.

(** The [len] lowest hexadecimal digits of [n], lowest first. *)
Fixpoint le_digits (len : nat) (n : N) : Hexadecimal.uint :=
  match len with
  | 0 => Hexadecimal.Nil
  | S l => digit_on (n mod 16) (le_digits l (n / 16))
  end.

Fixpoint le_chars (len : nat) (n : N) : text :=
  match len with
  | 0 => []
  | S l => hex_char (n mod 16) :: le_chars l (n / 16)
  end.

Lemma digit_cases (k : N) (P : N → Prop) :
  (k < 16)%N →
  P 0%N → P 1%N → P 2%N → P 3%N → P 4%N → P 5%N → P 6%N → P 7%N →
  P 8%N → P 9%N → P 10%N → P 11%N → P 12%N → P 13%N → P 14%N → P 15%N →
  P k.
Proof.
  intros Hk. intros.
  assert (k = 0 ∨ k = 1 ∨ k = 2 ∨ k = 3 ∨ k = 4 ∨ k = 5 ∨ k = 6 ∨ k = 7 ∨
          k = 8 ∨ k = 9 ∨ k = 10 ∨ k = 11 ∨ k = 12 ∨ k = 13 ∨ k = 14 ∨
          k = 15)%N as Hc by lia.
  repeat (destruct Hc as [->|Hc]; [done |]). by subst.
Qed.

Lemma of_lu_digit_on (k : N) (d : Hexadecimal.uint) :
  (k < 16)%N →
  HexadecimalPos.Unsigned.of_lu (digit_on k d) =
    (k + 16 * HexadecimalPos.Unsigned.of_lu d)%N.
Proof. intros Hk. by apply (digit_cases k). Qed.

Lemma chars_digit_on (k : N) (d : Hexadecimal.uint) :
  (k < 16)%N → chars (digit_on k d) = hex_char k :: chars d.
Proof. intros Hk. by apply (digit_cases k). Qed.

Lemma of_lu_le_digits (len : nat) (n : N) :
  (n < 16 ^ N.of_nat len)%N →
  HexadecimalPos.Unsigned.of_lu (le_digits len n) = n.
Proof.
  revert n. induction len as [|len IH]; intros n Hn.
  - simpl in *. lia.
  - cbn [le_digits].
    rewrite of_lu_digit_on by (apply N.mod_lt; lia).
    rewrite IH.
    + rewrite N.add_comm. symmetry. apply N.div_mod'.
    + rewrite Nat2N.inj_succ, N.pow_succ_r' in Hn.
      apply N.Div0.div_lt_upper_bound. lia.
Qed.

Lemma chars_le_digits (len : nat) (n : N) :
  chars (le_digits len n) = le_chars len n.
Proof.
  revert n. induction len as [|len IH]; intros n; [done |].
  cbn [le_digits le_chars].
  rewrite chars_digit_on by (apply N.mod_lt; lia). by rewrite IH.
Qed.

Lemma le_chars_length (len : nat) (n : N) : length (le_chars len n) = len.
Proof. revert n. induction len as [|len IH]; intros n; simpl; by rewrite ?IH. Qed.

Lemma le_chars_lookup (len i : nat) (n : N) :
  i < len →
  le_chars len n !! i = Some (hex_char ((n / 16 ^ N.of_nat i) mod 16)).
Proof.
  revert n i. induction len as [|len IH]; intros n i Hi; [lia |].
  destruct i as [|i]; cbn [le_chars lookup list_lookup].
  - by rewrite N.div_1_r.
  - change ((hex_char (n mod 16) :: le_chars len (n / 16)) !! S i)
      with (le_chars len (n / 16) !! i).
    rewrite IH by lia. rewrite Nat2N.inj_succ, N.pow_succ_r'.
    by rewrite N.Div0.div_div.
Qed.

Lemma chars_revapp (d d' : Hexadecimal.uint) :
  chars (Hexadecimal.revapp d d') = reverse (chars d) ++ chars d'.
Proof.
  revert d'. unfold chars.
  induction d as [|d IH|d IH|d IH|d IH|d IH|d IH|d IH|d IH|d IH|d IH|d IH
                  |d IH|d IH|d IH|d IH|d IH]; intros d'; [done | ..];
    cbn [Hexadecimal.revapp NilEmpty.string_of_uint]; rewrite IH;
    cbn [NilEmpty.string_of_uint lit list_ascii_of_string];
    by rewrite reverse_cons, <- app_assoc.
Qed.

Lemma chars_rev (d : Hexadecimal.uint) :
  chars (Hexadecimal.rev d) = reverse (chars d).
Proof. unfold Hexadecimal.rev. rewrite chars_revapp. apply app_nil_r. Qed.

(** Padding with zeros gives back the digits normalization took away. *)
Lemma pad_unorm (d : Hexadecimal.uint) :
  d ≠ Hexadecimal.Nil →
  repeat "0"%char
    (length (chars d) - length (chars (Hexadecimal.unorm d))) ++
  chars (Hexadecimal.unorm d) = chars d.
Proof.
  induction d as [|d IH|d IH|d IH|d IH|d IH|d IH|d IH|d IH|d IH|d IH|d IH
                  |d IH|d IH|d IH|d IH|d IH]; intros Hd; [done | |..];
    try (change (Hexadecimal.unorm (?f d)) with (f d);
         by rewrite Nat.sub_diag).
  rewrite HexadecimalFacts.unorm_D0.
  assert (d = Hexadecimal.Nil ∨ d ≠ Hexadecimal.Nil) as [->|Hne]
    by (destruct d; (by left) || (by right)); [done |].
  specialize (IH Hne).
  assert (length (chars (Hexadecimal.unorm d)) ≤ length (chars d)) as Hle.
  { pose proof (f_equal length IH) as Hlen.
    rewrite length_app in Hlen. lia. }
  change (chars (Hexadecimal.D0 d)) with ("0"%char :: chars d).
  cbn [length]. rewrite Nat.sub_succ_l by done.
  cbn [repeat app]. by rewrite IH.
Qed.

Lemma unorm_not_Nil (d : Hexadecimal.uint) :
  Hexadecimal.unorm d ≠ Hexadecimal.Nil.
Proof. unfold Hexadecimal.unorm. by destruct (Hexadecimal.nzhead d). Qed.

(** ['%032x' % n] for a number of 128 bits: its 32 digits, highest first. *)
Lemma format_032x_digits (n : N) :
  (n < 2 ^ 128)%N → format_032x n = reverse (le_chars 32 n).
Proof.
  intros Hn.
  assert (N.to_hex_uint n =
            Hexadecimal.unorm (Hexadecimal.rev (le_digits 32 n))) as Hd.
  { rewrite <- HexadecimalN.Unsigned.to_of. f_equal.
    unfold N.of_hex_uint. rewrite HexadecimalPos.Unsigned.of_lu_rev.
    symmetry. by apply of_lu_le_digits. }
  unfold format_032x, hex_of_N. rewrite Hd.
  assert (∀ d, d ≠ Hexadecimal.Nil →
               lit (NilZero.string_of_uint d) = chars d) as Hz
    by (by intros [] ?).
  rewrite Hz by apply unorm_not_Nil.
  set (d := Hexadecimal.rev (le_digits 32 n)).
  assert (chars d = reverse (le_chars 32 n)) as Hc
    by (unfold d; by rewrite chars_rev, chars_le_digits).
  assert (length (chars d) = 32) as Hl
    by (by rewrite Hc, length_reverse, le_chars_length).
  rewrite <- Hc, <- Hl. apply pad_unorm.
  intros H. by rewrite H in Hl.
Qed.

Lemma lor_lt_pow2 (a b n : N) :
  (a < 2 ^ n → b < 2 ^ n → N.lor a b < 2 ^ n)%N.
Proof.
  intros Ha Hb.
  destruct (N.eq_dec (N.lor a b) 0%N) as [Hz|Hne]; [rewrite Hz; lia |].
  apply N.log2_lt_pow2; [lia |]. rewrite N.log2_lor.
  destruct (N.eq_dec a 0%N) as [->|Ha0], (N.eq_dec b 0%N) as [->|Hb0];
    try (by rewrite N.lor_0_r in Hne); try (by rewrite N.lor_0_l in Hne).
  - rewrite N.max_r by apply N.le_0_l. apply N.log2_lt_pow2; lia.
  - rewrite N.max_l by apply N.le_0_l. apply N.log2_lt_pow2; lia.
  - apply N.max_lub_lt; apply N.log2_lt_pow2; lia.
Qed.

Lemma uuid4_int_lt (r : N) : (r < 2 ^ 128 → uuid4_int r < 2 ^ 128)%N.
Proof.
  intros Hr. unfold uuid4_int.
  apply lor_lt_pow2; [|by vm_compute].
  eapply N.le_lt_trans; [apply N.ldiff_le_l |].
  apply lor_lt_pow2; [|by vm_compute].
  eapply N.le_lt_trans; [apply N.ldiff_le_l | done].
Qed.

(** The bits of the masks, which are closed numbers. *)
Ltac mask_bits :=
  repeat match goal with
  | |- context [N.testbit (N.shiftl ?a ?b) ?c] =>
      let v := eval vm_compute in (N.testbit (N.shiftl a b) c) in
      change (N.testbit (N.shiftl a b) c) with v
  end.

Ltac r_bits r :=
  repeat match goal with
  | |- context [N.testbit r ?j] => destruct (N.testbit r j)
  end.

Lemma small_index (i : N) (P : N → Prop) :
  (i < 4)%N → P 0%N → P 1%N → P 2%N → P 3%N → P i.
Proof.
  intros Hi. intros.
  assert (i = 0 ∨ i = 1 ∨ i = 2 ∨ i = 3)%N as Hc by lia.
  repeat (destruct Hc as [->|Hc]; [done |]). by subst.
Qed.

Lemma high_bit_false (a i : N) : (a < 16 → 4 ≤ i → N.testbit a i = false)%N.
Proof.
  intros Ha Hi. destruct (N.eq_dec a 0%N) as [->|Hne]; [apply N.bits_0 |].
  apply N.bits_above_log2.
  eapply N.lt_le_trans; [|exact Hi].
  apply N.log2_lt_pow2; [lia |]. by change (2 ^ 4)%N with 16%N.
Qed.

(** The version: bits 76 to 79 of the UUID are 0100. *)
Lemma uuid4_int_version (r : N) : ((uuid4_int r / 16 ^ 19) mod 16 = 4)%N.
Proof.
  change (16 ^ 19)%N with (2 ^ 76)%N. change 16%N with (2 ^ 4)%N.
  rewrite <- N.shiftr_div_pow2, <- N.land_ones.
  apply N.bits_inj. intros i. rewrite N.land_spec, N.shiftr_spec'.
  destruct (N.lt_ge_cases i 4) as [Hi|Hi].
  - apply (small_index i); [done | ..]; unfold uuid4_int;
      repeat first [rewrite N.lor_spec | rewrite N.ldiff_spec];
      mask_bits; by r_bits r.
  - rewrite (high_bit_false (N.ones 4) i) by done.
    rewrite (high_bit_false 4 i) by done. apply andb_false_r.
Qed.

(** The variant: bits 62 and 63 of the UUID are 10. *)
Lemma uuid4_int_variant (r : N) :
  ((uuid4_int r / 16 ^ 15) mod 16 = N.lor 8 ((r / 2 ^ 60) mod 4))%N.
Proof.
  change (16 ^ 15)%N with (2 ^ 60)%N. change 16%N with (2 ^ 4)%N.
  change 4%N with (2 ^ 2)%N at 2.
  rewrite <- !N.shiftr_div_pow2, <- !N.land_ones.
  apply N.bits_inj. intros i.
  rewrite N.lor_spec, !N.land_spec, !N.shiftr_spec'.
  destruct (N.lt_ge_cases i 4) as [Hi|Hi].
  - apply (small_index i); [done | ..]; unfold uuid4_int;
      repeat first [rewrite N.lor_spec | rewrite N.ldiff_spec];
      mask_bits; by r_bits r.
  - rewrite (high_bit_false (N.ones 4) i) by done.
    rewrite (high_bit_false (N.ones 2) i) by done.
    rewrite (high_bit_false 8 i) by done. by rewrite !andb_false_r.
Qed.

Lemma nth_id_lookup (w : world) (k i : nat) :
  i < 24 →
  nth_id w k !! i =
    Some (upper_char
            (hex_char
               ((uuid4_int (entropy w (k + draws w) mod 2 ^ 128)
                 / 16 ^ N.of_nat (31 - i)) mod 16))).
Proof.
  intros Hi. unfold nth_id, upper.
  change (map upper_char ?l) with (upper_char <$> l).
  rewrite list_lookup_fmap, lookup_take_lt by done.
  rewrite format_032x_digits
    by (apply uuid4_int_lt, N.mod_lt; lia).
  rewrite reverse_lookup by (rewrite le_chars_length; lia).
  rewrite le_chars_length, le_chars_lookup by lia.
  by replace (32 - S i) with (31 - i) by lia.
Qed.

(** X11. An identifier is the first 24 hexadecimal digits of a version-4
    UUID: whatever the entropy, its thirteenth character is the version
    [4] and its seventeenth one of [8], [9], [A], [B], the variant. So
    [generate_id] never returns one of the three identifiers the script
    has in its patterns, whose thirteenth character is [8]. *)
Theorem generate_id_version_and_variant (w : world) :
  ∃ id,
    fst (generate_id w) = Ret id ∧
    id !! 12 = Some "4"%char ∧
    (∃ c, id !! 16 = Some c ∧ c ∈ lit "89AB") ∧
    id ≠ lit "5224F5F42EED89A600A4DEB4" ∧
    id ≠ lit "5224F5EC2EED89A600A4DEB4" ∧
    id ≠ lit "5224F5F62EED89A600A4DEB4".
Proof.
  exists (nth_id w 0).
  assert (nth_id w 0 !! 12 = Some "4"%char) as Hversion.
  { rewrite nth_id_lookup by lia.
    change (N.of_nat (31 - 12)) with 19%N. by rewrite uuid4_int_version. }
  split_and!; [done | done | | | |].
  - rewrite nth_id_lookup by lia.
    change (N.of_nat (31 - 16)) with 15%N. rewrite uuid4_int_variant.
    eexists. split; [done |].
    apply (small_index ((entropy w (0 + draws w) mod 2 ^ 128 / 2 ^ 60) mod 4));
      [apply N.mod_lt; lia | ..]; elem_of_text.
  - intros H. by rewrite H in Hversion.
  - intros H. by rewrite H in Hversion.
  - intros H. by rewrite H in Hversion.
Qed.

Lemma uuid4_int_high_bit (r r' j : N) :
  (32 ≤ j)%N → (r / 2 ^ 32 = r' / 2 ^ 32)%N →
  N.testbit (uuid4_int r) j = N.testbit (uuid4_int r') j.
Proof.
  intros Hj Hhigh.
  assert (N.testbit r j = N.testbit r' j) as Hbit.
  { replace j with (j - 32 + 32)%N by lia.
    by rewrite <- !N.div_pow2_bits, Hhigh. }
  unfold uuid4_int.
  repeat first [rewrite N.lor_spec | rewrite N.ldiff_spec].
  by rewrite Hbit.
Qed.

Lemma uuid4_int_high_digit (r r' : N) (k : nat) :
  8 ≤ k → (r / 2 ^ 32 = r' / 2 ^ 32)%N →
  ((uuid4_int r / 16 ^ N.of_nat k) mod 16 =
   (uuid4_int r' / 16 ^ N.of_nat k) mod 16)%N.
Proof.
  intros Hk Hhigh.
  change 16%N with (2 ^ 4)%N. rewrite <- N.pow_mul_r.
  rewrite <- !N.shiftr_div_pow2, <- !N.land_ones.
  apply N.bits_inj. intros i. rewrite !N.land_spec, !N.shiftr_spec'.
  f_equal. apply uuid4_int_high_bit; [lia | done].
Qed.

(** X12. An identifier keeps the first 24 of the 32 digits of the UUID:
    the last four of the sixteen bytes of entropy never show. Two calls of
    [generate_id] whose entropy differs in those bytes alone return the
    same identifier. *)
Theorem generate_id_ignores_last_bytes (w w' : world) :
  ((entropy w (draws w) mod 2 ^ 128) / 2 ^ 32 =
   (entropy w' (draws w') mod 2 ^ 128) / 2 ^ 32)%N →
  fst (generate_id w) = fst (generate_id w').
Proof.
  intros Hhigh. rewrite !generate_id_run. cbn [fst]. f_equal.
  apply list_eq. intros i.
  destruct (decide (i < 24)) as [Hi|Hi].
  - rewrite !nth_id_lookup by done. do 3 f_equal.
    apply uuid4_int_high_digit; [lia | done].
  - rewrite !lookup_ge_None_2; [done | |]; rewrite nth_id_length; lia.
Qed.

Lemma generate_id_ignores_last_bytes_witness :
  fst (generate_id sample_world) =
  fst (generate_id
         {| fs := ∅; stdout := [];
            entropy := λ k, (sample_entropy k + 4000000000)%N;
            draws := 0 |}).
Proof.
  apply generate_id_ignores_last_bytes. vm_compute. reflexivity.
Defined.
